(** * The AutoDock docking pipeline of [src/jobs/basic_docking.py]

    A shallow embedding of the pipeline orchestration code: the command
    runner, the scratch-directory sweep, the four stage functions and the
    job driver [run_job] with its publish loop.

    The Python code is effectful throughout (sub-processes, the file
    system, the working directory, the storage client), so every function
    is a computation in a small state-and-exception monad over a [World].
    What lies outside the program (the tools' behaviour, which paths
    open and as which file, directory metadata, the remote store) is
    supplied by an [Outside] record of oracles; every call the program
    makes to it is recorded, with its answer, as an [event] of the run. *)

From Stdlib Require Import NArith Ascii String List Lia DecimalString Permutation.
From stdpp Require Import base gmap strings list.

(** ** Python strings *)

Module Py.

(** A [str] is modelled by a [string] of its code points, which are
    taken below 256. *)
Definition nl : string := String "010" EmptyString.
Definition dquote : string := String "034" EmptyString.
Definition cr : string := String "013" EmptyString.

(** [str.isspace] on one character, for the code points below 256. *)
Definition isspace (c : ascii) : bool :=
  let n := N_of_ascii c in
  ((9 <=? n) && (n <=? 13) || (28 <=? n) && (n <=? 32)
   || (n =? 133) || (n =? 160))%N.

Definition is_empty (s : string) : bool :=
  match s with EmptyString => true | String _ _ => false end.

Fixpoint lstrip (s : string) : string :=
  match s with
  | EmptyString => EmptyString
  | String c s' => if isspace c then lstrip s' else s
  end.

Fixpoint rstrip (s : string) : string :=
  match s with
  | EmptyString => EmptyString
  | String c s' =>
      let r := rstrip s' in
      if is_empty r && isspace c then EmptyString else String c r
  end.

(** [s.strip()] *)
Definition strip (s : string) : string := lstrip (rstrip s).

Definition is_newline (c : ascii) : bool := Ascii.eqb c "010".

Definition is_return (c : ascii) : bool := Ascii.eqb c "013".

(** What a text stream opened with the default [newline=None] hands to
    the program for the characters it decoded: [CR LF] and a lone [CR]
    are read as [LF]. *)
Fixpoint universal_newlines (s : string) : string :=
  match s with
  | EmptyString => EmptyString
  | String c s' =>
      if is_return c then
        String "010"
          match s' with
          | String c' s'' =>
              if is_newline c' then universal_newlines s''
              else universal_newlines s'
          | EmptyString => EmptyString
          end
      else String c (universal_newlines s')
  end.

(** [f.readlines()] on the text of a file: the lines, each with its
    terminating newline (the last one possibly without). *)
Fixpoint readlines (s : string) : list string :=
  match s with
  | EmptyString => []
  | String c s' =>
      if is_newline c then String c EmptyString :: readlines s'
      else match readlines s' with
           | [] => [String c EmptyString]
           | l :: ls => String c l :: ls
           end
  end.

(** What [f.writelines(lines)] appends to a file. *)
Definition writelines (ls : list string) : string :=
  fold_right String.append EmptyString ls.

(** A line without its terminating newline. *)
Fixpoint chomp (l : string) : string :=
  match l with
  | EmptyString => EmptyString
  | String c l' =>
      if is_newline c && is_empty l' then EmptyString else String c (chomp l')
  end.

(** [pat in s] *)
Fixpoint contains (pat s : string) : bool :=
  String.prefix pat s
  || match s with
     | EmptyString => false
     | String _ s' => contains pat s'
     end.

(** [os.path.join(a, b)] (posixpath) *)
Fixpoint ends_with_slash (s : string) : bool :=
  match s with
  | EmptyString => false
  | String c EmptyString => Ascii.eqb c "/"
  | String _ s' => ends_with_slash s'
  end.

Definition os_path_join (a b : string) : string :=
  if String.prefix "/" b then b
  else if is_empty a || ends_with_slash a then a +:+ b
  else a +:+ "/" +:+ b.

(** [os.path.basename(p)] (posixpath): what follows the last slash. *)
Fixpoint os_path_basename (p : string) : string :=
  match p with
  | EmptyString => EmptyString
  | String c p' => if contains "/" p then os_path_basename p' else p
  end.

Fixpoint has_char (q : ascii) (s : string) : bool :=
  match s with
  | EmptyString => false
  | String c s' => Ascii.eqb c q || has_char q s'
  end.

Definition hex_digit (n : N) : ascii :=
  default "0"%char (String.get (N.to_nat n) "0123456789abcdef").

(** [str.isprintable] on one character. *)
Definition isprintable (c : ascii) : bool :=
  let n := N_of_ascii c in
  ((32 <=? n) && (n <? 127) || (161 <=? n) && negb (n =? 173))%N.

Definition backslash : ascii := "092"%char.

(** One character inside [repr(s)], [q] being the quote chosen. *)
Definition repr_char (q c : ascii) : string :=
  let n := N_of_ascii c in
  if Ascii.eqb c q || Ascii.eqb c backslash
  then String backslash (String c EmptyString)
  else if (n =? 9)%N then String backslash "t"
  else if (n =? 10)%N then String backslash "n"
  else if (n =? 13)%N then String backslash "r"
  else if isprintable c then String c EmptyString
  else String backslash
         (String "x" (String (hex_digit (n / 16))
                        (String (hex_digit (n mod 16)) EmptyString))).

Fixpoint repr_chars (q : ascii) (s : string) : string :=
  match s with
  | EmptyString => EmptyString
  | String c s' => repr_char q c +:+ repr_chars q s'
  end.

(** [repr(s)]: single quotes, unless [s] has a single quote and no
    double quote. *)
Definition repr (s : string) : string :=
  let q := if has_char "'" s && negb (has_char "034" s)
           then "034"%char else "'"%char in
  String q (repr_chars q s +:+ String q EmptyString).

(** [repr] of a list of strings, as an f-string prints it. *)
Definition repr_list (l : list string) : string :=
  "[" +:+ String.concat ", " (map repr l) +:+ "]".

(** [%d] of a non-negative integer. *)
Definition decimal (n : N) : string := NilZero.string_of_uint (N.to_uint n).

End Py.

(** ** The [grep] tool

    [grep PATTERN FILE] for a pattern without regular-expression
    operators and a text file: the lines that contain the pattern, each
    followed by a newline, on standard output; exit status 0 when a line
    was selected and 1 when none was. *)

Module Grep.

Definition text_lines (text : string) : list string :=
  map Py.chomp (Py.readlines text).

Definition selected (pat text : string) : list string :=
  List.filter (Py.contains pat) (text_lines text).

Definition stdout (pat text : string) : string :=
  Py.writelines (map (fun l => l +:+ Py.nl) (selected pat text)).

Definition status (pat text : string) : N :=
  match selected pat text with [] => 1%N | _ :: _ => 0%N end.

End Grep.

(** ** Worlds, exceptions and events *)

(** [os.environ] and the [env] argument of [subprocess.run]: a dict. *)
Abbreviation environment := (gmap string string).

(** [subprocess.CompletedProcess], without the echoed [args]. The exit
    status is that of the shell, 0..255; death by a signal is outside the
    model. *)
Record Completed : Type := mkCompleted {
  returncode : N;
  stdout : string;
  stderr : string
}.

(** The exceptions the module can see. [OSError] stands for whatever the
    [os], [shutil], [open] and storage-client calls raise, with its
    subclasses; [UnicodeDecodeError] is what decoding bytes that are not
    UTF-8 raises, [ValueError] what a call raises that cannot take its
    argument. All but the first carry the text [str(e)] gives, and all
    are instances of [Exception]. *)
Inductive exn : Type :=
| CalledProcessError (cmd : string) (code : N) (output err : string)
| RuntimeError (msg : string)
| OSError (msg : string)
| IndexError (msg : string)
| UnicodeDecodeError (msg : string)
| ValueError (msg : string).

Definition str_exn (e : exn) : string :=
  match e with
  | CalledProcessError cmd code _ _ =>
      "Command '" +:+ cmd +:+ "' returned non-zero exit status "
        +:+ Py.decimal code +:+ "."
  | RuntimeError msg | OSError msg | IndexError msg
  | UnicodeDecodeError msg | ValueError msg => msg
  end.

Inductive result (A : Type) : Type :=
| Ok (a : A)
| Raise (e : exn).
Arguments Ok {A} a.
Arguments Raise {A} e.

(** What becomes of a command line handed to [subprocess.run] with
    [shell=True], [text=True] and [capture_output=True]: either no child
    was started (the call raised before), or the shell exited with a
    status and left two captured streams. These are given as [text=True]
    hands them over, decoded and with their line ends read as [LF], or
    by the error that decoding them raised. *)
Inductive Child : Type :=
| NotStarted (e : exn)
| Exited (code : N) (streams : result (string * string)).

Definition exit_status (c : Child) : option N :=
  match c with
  | NotStarted _ => None
  | Exited code _ => Some code
  end.

(** What [subprocess.run] does with the child when [check] is false: it
    returns the completed process, unless starting the child or decoding
    its output raised. *)
Definition completed (c : Child) : result Completed :=
  match c with
  | NotStarted e => Raise e
  | Exited code (Ok (out, err)) => Ok (mkCompleted code out err)
  | Exited _ (Raise e) => Raise e
  end.

(** The child was started, its output decoded, and its status is 0. *)
Definition succeeded (c : Child) : bool :=
  match completed c with
  | Ok done => (returncode done =? 0)%N
  | Raise _ => false
  end.

(** One entry per call that leaves the program, with the answer it got. *)
Inductive event : Type :=
| Print (text : string)
| Exec (command : string) (env : option environment) (child : Child)
| Listdir (path : string) (r : result (list string))
| IsFile (path : string) (b : bool)
| IsLink (path : string) (b : bool)
| IsDir (path : string) (b : bool)
| Exists (path : string) (b : bool)
| Unlink (path : string) (r : result unit)
| Rmtree (path : string) (r : result unit)
| Chdir (path : string) (r : result unit)
| Open (path mode : string) (r : result string)
| Download (remote : string) (r : result string)
| Upload (local dirname filename : string) (b : bool).

Section World.

(** [X] is whatever the outside keeps besides the content of files:
    directories, links and permissions, the remote store. *)
Context {X : Type}.

(** A file is known by the name [open] resolves a path to, so that two
    spellings of a path to one file share its content. The content is the
    text the bytes of the file decode to as UTF-8, before any translation
    of line ends, or the error that reading it raises when they do not
    decode. *)
Definition Files : Type := string -> result string.

Definition put (file : string) (content : result string) (fs : Files) : Files :=
  fun f => if String.eqb f file then content else fs f.

Record Disk : Type := mkDisk {
  files : Files;
  beyond : X
}.

Record World : Type := mkWorld {
  cwd : string;
  environ : environment;
  disk : Disk
}.

Definition with_disk (w : World) (d : Disk) : World :=
  {| cwd := cwd w; environ := environ w; disk := d |}.

Definition with_cwd (w : World) (p : string) : World :=
  {| cwd := p; environ := environ w; disk := disk w |}.

Definition with_files (w : World) (fs : Files) : World :=
  with_disk w {| files := fs; beyond := beyond (disk w) |}.

(** The outcome of running a computation. *)
Record Run (A : Type) : Type := mkRun {
  res : result A;
  world : World;
  events : list event
}.

Definition M (A : Type) : Type := World -> Run A.

End World.

Arguments Disk : clear implicits.
Arguments World : clear implicits.
Arguments Run : clear implicits.
Arguments M : clear implicits.
Arguments mkRun {X A} res world events.
Arguments res {X A} r.
Arguments world {X A} r.
Arguments events {X A} r.

(** The oracles. A child process (and the storage client) may change the
    disk but neither the working directory nor the environment of the
    calling process, so they return a [Disk]. [builtin_open path mode]
    names the file that [open(path, mode, encoding='utf-8')] opens, or
    gives the error it raises. The path tests of [os.path] never raise.
    [upload_to_gcs] reports failure by returning [False];
    [download_from_gcs] returns the local path or raises. *)
Record Outside (X : Type) : Type := mkOutside {
  shell : string -> option environment -> World X -> Child * Disk X;
  builtin_open : string -> string -> World X -> result string;
  os_listdir : string -> World X -> result (list string);
  os_path_isfile : string -> World X -> bool;
  os_path_islink : string -> World X -> bool;
  os_path_isdir : string -> World X -> bool;
  os_path_exists : string -> World X -> bool;
  os_unlink : string -> World X -> result unit * Disk X;
  shutil_rmtree : string -> World X -> result unit * Disk X;
  os_chdir : string -> World X -> result unit;
  download_from_gcs : string -> World X -> result string * Disk X;
  upload_to_gcs : string -> string -> string -> World X -> bool * Disk X
}.
Arguments shell {X} o _ _ _.
Arguments builtin_open {X} o _ _ _.
Arguments os_listdir {X} o _ _.
Arguments os_path_isfile {X} o _ _.
Arguments os_path_islink {X} o _ _.
Arguments os_path_isdir {X} o _ _.
Arguments os_path_exists {X} o _ _.
Arguments os_unlink {X} o _ _.
Arguments shutil_rmtree {X} o _ _.
Arguments os_chdir {X} o _ _.
Arguments download_from_gcs {X} o _ _.
Arguments upload_to_gcs {X} o _ _ _ _.

(** ** The monad *)

Section Monad.

Context {X : Type}.

Definition ret {A} (a : A) : M X A :=
  fun w => mkRun (Ok a) w [].

Definition raise {A} (e : exn) : M X A :=
  fun w => mkRun (Raise e) w [].

Definition bind {A B} (m : M X A) (k : A -> M X B) : M X B :=
  fun w =>
    match m w with
    | mkRun (Ok a) w1 evs1 =>
        match k a w1 with
        | mkRun r w2 evs2 => mkRun r w2 (evs1 ++ evs2)
        end
    | mkRun (Raise e) w1 evs1 => mkRun (Raise e) w1 evs1
    end.

(** [try: m  except Exception as e: h e] *)
Definition try_except {A} (m : M X A) (h : exn -> M X A) : M X A :=
  fun w =>
    match m w with
    | mkRun (Ok a) w1 evs1 => mkRun (Ok a) w1 evs1
    | mkRun (Raise e) w1 evs1 =>
        match h e w1 with
        | mkRun r w2 evs2 => mkRun r w2 (evs1 ++ evs2)
        end
    end.

(** A call the answer of which the program does not use: the event is
    logged. *)
Definition emit (e : event) : M X unit :=
  fun w => mkRun (Ok tt) w [e].

End Monad.

Declare Scope prog_scope.
Delimit Scope prog_scope with prog.
Notation "x <- m ;; k" := (bind m (fun x => k))
  (at level 100, m at next level, right associativity) : prog_scope.
Notation "m ;;; k" := (bind m (fun _ => k))
  (at level 100, right associativity) : prog_scope.
Open Scope prog_scope.

(** ** The module [src/jobs/basic_docking.py] *)

(** The dict [run_job] returns: the key [failed_files] is present only in
    a partial success. *)
Record job_result : Type := mkJobResult {
  status : string;
  outputs : list string;
  failed_files : option (list string)
}.

Section Program.

Context {X : Type} (O : Outside X).

(** *** Calls to the outside *)

Definition print (text : string) : M X unit := emit (Print text).

(** [subprocess.run(command, shell=True, check=check, text=True,
    capture_output=True, env=env)]: the status is looked at once the
    child has been waited for and its output decoded. *)
Definition subprocess_run (command : string) (check : bool)
    (env : option environment) : M X Completed :=
  fun w =>
    let '(child, d) := shell O command env w in
    mkRun (match completed child with
           | Ok done =>
               if check && negb (returncode done =? 0)%N
               then Raise (CalledProcessError command (returncode done)
                             (stdout done) (stderr done))
               else Ok done
           | Raise e => Raise e
           end)
          (with_disk w d) [Exec command env child].

Definition listdir (path : string) : M X (list string) :=
  fun w => let r := os_listdir O path w in mkRun r w [Listdir path r].

Definition isfile (path : string) : M X bool :=
  fun w => let b := os_path_isfile O path w in mkRun (Ok b) w [IsFile path b].

Definition islink (path : string) : M X bool :=
  fun w => let b := os_path_islink O path w in mkRun (Ok b) w [IsLink path b].

Definition isdir (path : string) : M X bool :=
  fun w => let b := os_path_isdir O path w in mkRun (Ok b) w [IsDir path b].

Definition exists_ (path : string) : M X bool :=
  fun w => let b := os_path_exists O path w in mkRun (Ok b) w [Exists path b].

Definition unlink (path : string) : M X unit :=
  fun w =>
    let '(r, d) := os_unlink O path w in
    mkRun r (with_disk w d) [Unlink path r].

Definition rmtree (path : string) : M X unit :=
  fun w =>
    let '(r, d) := shutil_rmtree O path w in
    mkRun r (with_disk w d) [Rmtree path r].

Definition getcwd : M X string :=
  fun w => mkRun (Ok (cwd w)) w [].

(** The working directory is kept as the path it was last set to. *)
Definition chdir (path : string) : M X unit :=
  fun w =>
    match os_chdir O path w with
    | Ok _ => mkRun (Ok tt) (with_cwd w path) [Chdir path (Ok tt)]
    | Raise e => mkRun (Raise e) w [Chdir path (Raise e)]
    end.

(** [os.path.abspath(p)] for a relative [p] without dots. *)
Definition abspath (p : string) : M X string :=
  fun w => mkRun (Ok (Py.os_path_join (cwd w) p)) w [].

Definition os_environ_copy : M X environment :=
  fun w => mkRun (Ok (environ w)) w [].

(** [open(path, 'r', encoding='utf-8')]: the handle is the file. *)
Definition open_read (path : string) : M X string :=
  fun w => let r := builtin_open O path "r" w in mkRun r w [Open path "r" r].

(** [f.read()] on a handle opened for reading: what the file holds at
    the time of the call, decoded, with universal newlines. *)
Definition read (file : string) : M X string :=
  fun w =>
    mkRun (match files (disk w) file with
           | Ok text => Ok (Py.universal_newlines text)
           | Raise e => Raise e
           end) w [].

(** [f.readlines()] *)
Definition readlines (file : string) : M X (list string) :=
  text <- read file ;;
  ret (Py.readlines text).

(** [open(path, 'w', encoding='utf-8')]: the file is created, or
    emptied, when it is opened. *)
Definition open_write (path : string) : M X string :=
  fun w =>
    let r := builtin_open O path "w" w in
    mkRun r
          match r with
          | Ok file => with_files w (put file (Ok EmptyString) (files (disk w)))
          | Raise _ => w
          end
          [Open path "w" r].

(** Leaving the [with] block closes the handle, which puts the text
    written to it into the file. *)
Definition close_write (file text : string) : M X unit :=
  fun w => mkRun (Ok tt) (with_files w (put file (Ok text) (files (disk w)))) [].

Definition download (remote : string) : M X string :=
  fun w =>
    let '(r, d) := download_from_gcs O remote w in
    mkRun r (with_disk w d) [Download remote r].

Definition upload (local dirname filename : string) : M X bool :=
  fun w =>
    let '(b, d) := upload_to_gcs O local dirname filename w in
    mkRun (Ok b) (with_disk w d) [Upload local dirname filename b].

(** [for x in xs: body x] *)
Fixpoint for_each {A} (xs : list A) (body : A -> M X unit) : M X unit :=
  match xs with
  | [] => ret tt
  | x :: xs' => body x ;;; for_each xs' body
  end.

(** [l[i]] *)
Definition index (l : list string) (i : nat) : M X string :=
  match nth_error l i with
  | Some x => ret x
  | None => raise (IndexError "list index out of range")
  end.

(** *** [clear_tmp] *)

Definition clear_entry (file_path : string) : M X unit :=
  try_except
    (f <- isfile file_path ;;
     l <- (if f then ret true else islink file_path) ;;
     if l then unlink file_path
     else
       d <- isdir file_path ;;
       if d then rmtree file_path else ret tt)
    (fun e =>
       print ("Failed to delete " +:+ file_path +:+ ": " +:+ str_exn e)).

Definition clear_tmp : M X unit :=
  let tmp_dir := "/tmp" in
  names <- listdir tmp_dir ;;
  for_each names (fun filename =>
    let file_path := Py.os_path_join tmp_dir filename in
    clear_entry file_path).

(** *** [run_command] *)

Definition run_command (command : string) (check : bool)
    (env : option environment) : M X Completed :=
  try_except
    (result <- subprocess_run command check env ;;
     print (stdout result) ;;;
     ret result)
    (fun e =>
       match e with
       | CalledProcessError _ _ _ err =>
           print ("Error while running command: " +:+ command) ;;;
           print ("Stderr: " +:+ err) ;;;
           raise e
       | _ => raise e
       end).

(** *** Ligand preparation *)

Definition scrub_command (smiles_string output_path : string) : string :=
  "micromamba run -n dwa_env scrub.py " +:+ Py.dquote +:+ smiles_string
    +:+ Py.dquote +:+ " -o " +:+ output_path
    +:+ " --skip_tautomers --ph_low 5 --ph_high 9".

Definition add_protomers (ligand : string) : M X string :=
  let output_path := "/tmp/ligand_with_protomers.sdf" in
  smiles_string <-
    try_except
      (file <- open_read ligand ;;
       text <- read file ;;
       ret (Py.strip text))
      (fun e =>
         raise (RuntimeError ("Failed to read SMILES file " +:+ ligand
                                +:+ ": " +:+ str_exn e))) ;;
  run_command (scrub_command smiles_string output_path) true None ;;;
  ret output_path.

Definition mk_prepare_ligand_command (ligand_with_protomers output_path : string)
    : string :=
  "micromamba run -n dwa_env mk_prepare_ligand.py -i " +:+ ligand_with_protomers
    +:+ " --multimol_outdir " +:+ output_path.

Definition prepare_ligand (ligand : string) : M X string :=
  print "Preparing ligand..." ;;;
  let output_path := "/tmp/ligand_protomers" in
  ligand_with_protomers <- add_protomers ligand ;;
  run_command (mk_prepare_ligand_command ligand_with_protomers output_path)
    true None ;;;
  ret (output_path +:+ "/_i0.pdbqt").

(** *** Receptor preparation *)

Definition extract_atoms_command (receptor output_path : string) : string :=
  "micromamba run -n dwa_env python3 - <<EOF" +:+ Py.nl
    +:+ "from prody import parsePDB, writePDB" +:+ Py.nl
    +:+ "pdb_token = '" +:+ receptor +:+ "'" +:+ Py.nl
    +:+ "atoms_from_pdb = parsePDB(pdb_token)" +:+ Py.nl
    +:+ "receptor_selection = 'chain A and not water and not hetero'" +:+ Py.nl
    +:+ "receptor_atoms = atoms_from_pdb.select(receptor_selection)" +:+ Py.nl
    +:+ "writePDB('" +:+ output_path +:+ "', receptor_atoms)" +:+ Py.nl
    +:+ "EOF" +:+ Py.nl.

Definition extract_receptor_atoms (receptor : string) : M X string :=
  let output_path := "/tmp/receptor_atoms.pdb" in
  run_command (extract_atoms_command receptor output_path) true None ;;;
  print ("Receptor atoms extracted: saved to " +:+ output_path) ;;;
  ret output_path.

Definition grep_command (receptor : string) : string :=
  "grep " +:+ Py.dquote +:+ "CRYST1" +:+ Py.dquote +:+ " " +:+ receptor.

Definition extract_and_combine_cryst1 (receptor receptor_atoms : string)
    : M X string :=
  print "Extracting CRYST1 and combining with receptor atoms..." ;;;
  let output_path := "/tmp/receptor_cryst1.pdb" in
  probe <- run_command (grep_command receptor) false None ;;
  let cryst1_line := Py.strip (stdout probe) in
  receptor_f <- open_read receptor_atoms ;;
  combined_f <- open_write output_path ;;
  let written :=
    if Py.is_empty cryst1_line then EmptyString else cryst1_line +:+ Py.nl in
  lines <-
    try_except (readlines receptor_f)
      (fun e => close_write combined_f written ;;; raise e) ;;
  let written := written +:+ Py.writelines lines in
  close_write combined_f written ;;;
  print "Combined receptor file created: {output_path}" ;;;
  ret output_path.

Definition reduce2_command (reduce2_path receptor_cryst1 reduce_opts : string)
    : string :=
  "micromamba run -n dwa_env python3 " +:+ reduce2_path +:+ " "
    +:+ receptor_cryst1 +:+ " " +:+ reduce_opts.

Definition add_hydrogens_and_optimize (receptor_cryst1 : string) : M X string :=
  print "Adding hydrogens and optimizing with reduce2.py..." ;;;
  let output_path := "/tmp/receptor_cryst1FH.pdb" in
  let micromamba_path := "/opt/conda/envs/dwa_env/lib/python3.11/site-packages" in
  let reduce2_path :=
    Py.os_path_join
      (Py.os_path_join (Py.os_path_join micromamba_path "mmtbx") "command_line")
      "reduce2.py" in
  let reduce_opts := "approach=add add_flip_movers=True" in
  geostd_path <- abspath "geostd" ;;
  env <- os_environ_copy ;;
  let env := <["MMTBX_CCP4_MONOMER_LIB" := geostd_path]> env in
  current_dir <- getcwd ;;
  chdir "/tmp/" ;;;
  run_command (reduce2_command reduce2_path receptor_cryst1 reduce_opts)
    true (Some env) ;;;
  chdir current_dir ;;;
  print "Hydrogens added and optimized. Output: {output_path}" ;;;
  ret output_path.

Definition mk_prepare_receptor_command
    (receptor_cryst1FH intermediate_path box : string) : string :=
  "micromamba run -n dwa_env mk_prepare_receptor.py --read_pdb "
    +:+ receptor_cryst1FH +:+ " -o " +:+ intermediate_path
    +:+ " -p -v --box_enveloping " +:+ box +:+ " --padding 5".

Definition prepare_receptor (receptor box : string) : M X (string * string) :=
  print "Preparing receptor..." ;;;
  let intermediate_path := "/tmp/receptor_prepared" in
  let output_path := intermediate_path +:+ ".pdbqt" in
  receptor_atoms <- extract_receptor_atoms receptor ;;
  receptor_cryst1 <- extract_and_combine_cryst1 receptor receptor_atoms ;;
  print ("CRYST1 combined: saved to " +:+ receptor_cryst1) ;;;
  receptor_cryst1FH <- add_hydrogens_and_optimize receptor_cryst1 ;;
  print ("Hydrogens added and optimized: saved to " +:+ receptor_cryst1FH) ;;;
  run_command
    (mk_prepare_receptor_command receptor_cryst1FH intermediate_path box)
    true None ;;;
  print "Receptor preparation complete." ;;;
  ret (receptor_cryst1FH, output_path).

(** *** Docking and pose export *)

Definition vina_command (ligand receptor config out : string) : string :=
  "micromamba run -n dwa_env vina --ligand " +:+ ligand +:+ " --receptor "
    +:+ receptor +:+ " --config " +:+ config +:+ " --out " +:+ out.

Definition run_docking (ligand_prepared receptor_prepared : string)
    : M X string :=
  print "Running docking..." ;;;
  let output_path := "/tmp/docking.pdbqt" in
  let config_txt := "/tmp/receptor_prepared.box.txt" in
  run_command
    (vina_command ligand_prepared receptor_prepared config_txt output_path)
    true None ;;;
  ret output_path.

Definition mk_export_command (docking output_path : string) : string :=
  "micromamba run -n dwa_env mk_export.py " +:+ docking +:+ " -s "
    +:+ output_path.

Definition export_pose (docking : string) : M X string :=
  print "Exporting docked pose..." ;;;
  let output_path := "/tmp/pose.sdf" in
  run_command (mk_export_command docking output_path) true None ;;;
  ret output_path.

(** *** [retrieve_gcs_files] *)

Fixpoint retrieve_loop (remote_paths local_files : list string)
    : M X (list string) :=
  match remote_paths with
  | [] => ret local_files
  | gcs_path :: rest =>
      local_path <- download gcs_path ;;
      retrieve_loop rest (local_files ++ [local_path])
  end.

Definition retrieve_gcs_files (remote_paths : list string) : M X (list string) :=
  retrieve_loop remote_paths [].

(** *** [run_job] *)

(** The body of the upload loop: one deliverable, the two lists
    threaded through. *)
Definition upload_one (dirname : string) (lists : list string * list string)
    (item : string * string) : M X (list string * list string) :=
  let '(success_files, failed_files) := lists in
  let '(local_path, filename) := item in
  e <- exists_ local_path ;;
  if e then
    ok <- upload local_path dirname filename ;;
    if ok then ret (success_files ++ [filename], failed_files)
    else ret (success_files, failed_files ++ [filename])
  else
    print ("File not found: " +:+ local_path) ;;;
    ret (success_files, failed_files ++ [filename]).

Fixpoint upload_loop (dirname : string) (files_to_upload : list (string * string))
    (lists : list string * list string) : M X (list string * list string) :=
  match files_to_upload with
  | [] => ret lists
  | item :: rest =>
      lists' <- upload_one dirname lists item ;;
      upload_loop dirname rest lists'
  end.

Definition run_job (ligand receptor box dirname : string) : M X job_result :=
  try_except
    (clear_tmp ;;;
     let remote_paths := [ligand; receptor; box] in
     local_paths <- retrieve_gcs_files remote_paths ;;
     ligand_local <- index local_paths 0 ;;
     receptor_local <- index local_paths 1 ;;
     box_local <- index local_paths 2 ;;
     ligand_prepared <- prepare_ligand ligand_local ;;
     prepared <- prepare_receptor receptor_local box_local ;;
     let '(target, receptor_prepared) := prepared in
     docking <- run_docking ligand_prepared receptor_prepared ;;
     pose <- export_pose docking ;;
     let files_to_upload :=
       [ (docking, Py.os_path_basename docking);
         (pose, Py.os_path_basename pose);
         (target, Py.os_path_basename target) ] in
     lists <- upload_loop dirname files_to_upload ([], []) ;;
     let '(success_files, failed_files) := lists in
     print "Upload summary:" ;;;
     print ("Successfully uploaded: " +:+ Py.repr_list success_files) ;;;
     print ("Failed uploads: " +:+ Py.repr_list failed_files) ;;;
     match failed_files with
     | _ :: _ =>
         ret {| status := "partial_success"; outputs := success_files;
                failed_files := Some failed_files |}
     | [] =>
         ret {| status := "success"; outputs := success_files;
                failed_files := None |}
     end)
    (fun e => raise (RuntimeError ("Workflow failed: " +:+ str_exn e))).

End Program.

(** ** The naming convention of the spec

    The specification derives the box-configuration path from the
    prepared-receptor path: [X.pdbqt] gives [X.box.txt]. *)

Module Convention.

Fixpoint remove_suffix (suffix s : string) : string :=
  match s with
  | EmptyString => EmptyString
  | String c s' =>
      if String.eqb s suffix then EmptyString
      else String c (remove_suffix suffix s')
  end.

Definition box_config_of (receptor_prepared : string) : string :=
  remove_suffix ".pdbqt" receptor_prepared +:+ ".box.txt".

End Convention.

(** ** Reading a run *)

(** The text up to the first newline. *)
Fixpoint first_line (s : string) : string :=
  match s with
  | EmptyString => EmptyString
  | String c s' => if Py.is_newline c then EmptyString else String c (first_line s')
  end.

Fixpoint has_newline (s : string) : bool :=
  match s with
  | EmptyString => false
  | String c s' => Py.is_newline c || has_newline s'
  end.

(** Whether [s] has a carriage return. *)
Definition has_return (s : string) : bool := Py.has_char "013" s.

(** Whether [s] has a character that [strip] keeps. *)
Fixpoint has_nonspace (s : string) : bool :=
  match s with
  | EmptyString => false
  | String c s' => negb (Py.isspace c) || has_nonspace s'
  end.

(** The event of a download that went through. *)
Definition fetched (pair : string * string) : event :=
  Download pair.1 (Ok pair.2).

(** [keeps_cwd m]: when [m] returns, the working directory is the one
    it started in. *)
Definition keeps_cwd {X A} (m : M X A) : Prop :=
  forall w a, res (m w) = Ok a -> cwd (world (m w)) = cwd w.

(** A run with earlier events put in front of its own. *)
Definition prepend {X A} (evs : list event) (r : Run X A) : Run X A :=
  mkRun (res r) (world r) (evs ++ events r).

(** The command lines handed to the shell, in order. *)
Definition exec_commands (evs : list event) : list string :=
  omap (fun e => match e with Exec c _ _ => Some c | _ => None end) evs.

(** [runs m cs]: when [m] returns, the command lines it handed to the
    shell were exactly [cs], in this order. *)
Definition runs {X A} (m : M X A) (cs : list string) : Prop :=
  forall w a, res (m w) = Ok a -> exec_commands (events (m w)) = cs.

(** [returns r a]: if the run ended with a value, the value is [a]. *)
Definition returns {X A} (r : Run X A) (a : A) : Prop :=
  match res r with Ok x => x = a | Raise _ => True end.

(** The failed list of a result, empty when the key is absent. *)
Definition failed_of (j : job_result) : list string :=
  default [] (failed_files j).

(** The two tools of ligand preparation. *)
Definition ligand_tool (command : string) : bool :=
  String.prefix "micromamba run -n dwa_env scrub.py " command
  || String.prefix "micromamba run -n dwa_env mk_prepare_ligand.py " command.

(** The call the hydrogenation step makes to the shell from world [w]:
    the command line, the environment with the monomer library added,
    and the scratch directory as working directory. *)
Definition reduce2_call {X} (O : Outside X) (receptor_cryst1 : string)
    (w : World X) : Child * Disk X :=
  shell O
    (reduce2_command
       (Py.os_path_join
          (Py.os_path_join
             (Py.os_path_join
                "/opt/conda/envs/dwa_env/lib/python3.11/site-packages" "mmtbx")
             "command_line")
          "reduce2.py")
       receptor_cryst1 "approach=add add_flip_movers=True")
    (Some (<["MMTBX_CCP4_MONOMER_LIB" := Py.os_path_join (cwd w) "geostd"]>
             (environ w)))
    (with_cwd w "/tmp/").

(** What the sweep logs after a removal: nothing when it went through,
    the failure when it raised. *)
Definition removal_log (p : string) (r : result unit) : list event :=
  match r with
  | Ok _ => []
  | Raise e => [Print ("Failed to delete " +:+ p +:+ ": " +:+ str_exn e)]
  end.

(** The events of the sweep at one entry [p]: found to be a regular file
    it is handed to [os.unlink]; found to be no regular file but a
    symlink it is handed to [os.unlink]; found to be neither but a
    directory it is handed to [shutil.rmtree]; found to be none of the
    three it is left alone. A removal that raises is logged. *)
Inductive Cleared (p : string) : list event -> Prop :=
| Cleared_file r :
    Cleared p ([IsFile p true; Unlink p r] ++ removal_log p r)
| Cleared_link r :
    Cleared p ([IsFile p false; IsLink p true; Unlink p r] ++ removal_log p r)
| Cleared_directory r :
    Cleared p ([IsFile p false; IsLink p false; IsDir p true; Rmtree p r]
               ++ removal_log p r)
| Cleared_other :
    Cleared p [IsFile p false; IsLink p false; IsDir p false].

(** The events of a sweep over a list of entries: those of each entry,
    one entry after the other, to the last. *)
Inductive Swept : list string -> list event -> Prop :=
| Swept_nil : Swept [] []
| Swept_cons p rest evs_p evs :
    Cleared p evs_p -> Swept rest evs -> Swept (p :: rest) (evs_p ++ evs).

(** An event of the sweep over the listed [names]: a test or a removal
    of the entry [/tmp/<name>] of a listed name, or a line of the log.
    Nothing else happens during a sweep. *)
Definition sweep_event (names : list string) (e : event) : Prop :=
  match e with
  | IsFile p _ | IsLink p _ | IsDir p _ | Unlink p _ | Rmtree p _ =>
      exists n, In n names /\ p = Py.os_path_join "/tmp" n
  | Print _ => True
  | _ => False
  end.

(** Every removal is backed by the tests the code makes before it: an
    [os.unlink] by a positive file or symlink test of the same path, a
    [shutil.rmtree] by both of these tests failing and the directory
    test succeeding. *)
Definition justified (evs : list event) : Prop :=
  (forall p o, In (Unlink p o) evs ->
     In (IsFile p true) evs \/ In (IsLink p true) evs)
  /\ (forall p o, In (Rmtree p o) evs ->
        In (IsFile p false) evs /\ In (IsLink p false) evs
        /\ In (IsDir p true) evs).

(** The three files [run_job] publishes, with their logical names. *)
Definition deliverables : list (string * string) :=
  [ ("/tmp/docking.pdbqt", "docking.pdbqt");
    ("/tmp/pose.sdf", "pose.sdf");
    ("/tmp/receptor_cryst1FH.pdb", "receptor_cryst1FH.pdb") ].

(** The events of an upload loop over a list of files, with the names it
    appends to the success list and to the failure list: each file is
    either uploaded, refused by the storage client, or not there. *)
Inductive Published (dirname : string)
  : list (string * string) -> list event -> list string -> list string -> Prop :=
| Published_nil : Published dirname [] [] [] []
| Published_ok local_path filename rest evs s f :
    Published dirname rest evs s f ->
    Published dirname ((local_path, filename) :: rest)
      (Exists local_path true :: Upload local_path dirname filename true :: evs)
      (filename :: s) f
| Published_refused local_path filename rest evs s f :
    Published dirname rest evs s f ->
    Published dirname ((local_path, filename) :: rest)
      (Exists local_path true :: Upload local_path dirname filename false :: evs)
      s (filename :: f)
| Published_missing local_path filename rest evs s f :
    Published dirname rest evs s f ->
    Published dirname ((local_path, filename) :: rest)
      (Exists local_path false :: Print ("File not found: " +:+ local_path) :: evs)
      s (filename :: f).

(** The dict [run_job] builds from the two lists. *)
Definition job_result_of (success_files failed : list string) : job_result :=
  match failed with
  | _ :: _ =>
      {| status := "partial_success"; outputs := success_files;
         failed_files := Some failed |}
  | [] =>
      {| status := "success"; outputs := success_files; failed_files := None |}
  end.

(** An event of the part of a job that precedes publishing: no upload
    and no existence test yet, and every command run satisfies [P]. *)
Definition event_ok (P : string -> Child -> Prop) (e : event) : Prop :=
  match e with
  | Exec c _ child => P c child
  | Exists _ _ | Upload _ _ _ _ => False
  | _ => True
  end.

(** [every P m]: whatever the world, all events of [m] satisfy [P]. *)
Definition every {X A} (P : event -> Prop) (m : M X A) : Prop :=
  forall w, Forall P (events (m w)).

(** Up to the end of ligand preparation only its two tools are run;
    once it has returned, each run of one of them has exited with
    status 0. *)
Definition before_ligand_ok (command : string) (_ : Child) : Prop :=
  ligand_tool command = true.

Definition after_ligand_ok (command : string) (child : Child) : Prop :=
  ligand_tool command = true -> succeeded child = true.

(** A stage that returns has seen every command it ran exit with
    status 0. *)
Definition clean {X A} (m : M X A) : Prop :=
  forall w a, res (m w) = Ok a ->
    Forall (event_ok (fun _ child => succeeded child = true)) (events (m w)).

(** The three lines that close the upload loop. *)
Definition upload_summary (s f : list string) : list event :=
  [ Print "Upload summary:";
    Print ("Successfully uploaded: " +:+ Py.repr_list s);
    Print ("Failed uploads: " +:+ Py.repr_list f) ].

(** An upload the storage client refused. *)
Definition refused_upload (e : event) : bool :=
  match e with
  | Upload _ _ _ false => true
  | _ => false
  end.

(** The two ways a job can end: with a [RuntimeError] before anything
    was published, or with a result after the upload loop has gone
    through the deliverables. *)
Definition job_shape {X} (dirname : string) (R : Run X job_result) : Prop :=
  ((exists msg, res R = Raise (RuntimeError msg))
   /\ (Forall (event_ok before_ligand_ok) (events R)
       \/ Forall (event_ok after_ligand_ok) (events R)))
  \/ (exists pre evs s f,
        events R = pre ++ evs ++ upload_summary s f
        /\ Forall (event_ok after_ligand_ok) pre
        /\ Published dirname deliverables evs s f
        /\ res R = Ok (job_result_of s f)).

(** Tools that exit with status 0, directories that can be entered,
    and, once a tool has run, an atom file that can be read and a merged
    file that can be written. *)
Definition hospitable {X} (O : Outside X) : Prop :=
  (forall command env w, succeeded (shell O command env w).1 = true)
  /\ (forall command env w,
        let w' := with_disk w (shell O command env w).2 in
        exists atoms_f combined_f text,
          builtin_open O "/tmp/receptor_atoms.pdb" "r" w' = Ok atoms_f
          /\ builtin_open O "/tmp/receptor_cryst1.pdb" "w" w' = Ok combined_f
          /\ files (disk w') atoms_f = Ok text)
  /\ (forall path w, os_chdir O path w = Ok tt).

(** ** A scripted outside, for running the model

    The shell answers a command as the script says, from the command line
    and the files, and applies the script's effect on the files;
    directory entries, removal failures and upload verdicts are read off
    the script. Nothing is kept beyond the files. *)

Module Sim.

Record Script : Type := mkScript {
  answer : string -> Files -> Child;
  effect_of : string -> Files -> Files;
  tmp_names : list string;
  regular : string -> bool;
  symlink : string -> bool;
  directory : string -> bool;
  present : string -> bool;
  removable : string -> bool;
  enterable : string -> bool;
  fetchable : string -> bool;
  accepted : string -> bool
}.

(** [str(e)] of an [OSError] with a file name. *)
Definition os_error (errno what path : string) : exn :=
  OSError ("[Errno " +:+ errno +:+ "] " +:+ what +:+ ": " +:+ Py.repr path).

Definition no_such_file : string -> exn :=
  os_error "2" "No such file or directory".

Definition denied : string -> exn := os_error "13" "Permission denied".

Definition is_a_directory : string -> exn := os_error "21" "Is a directory".

(** A name that holds no file is kept as content that cannot be had. *)
Definition nothing : result string := Raise (OSError "no file").

(** The file a path leads to: the path without its [/./] steps. *)
Fixpoint realpath (path : string) : string :=
  match path with
  | EmptyString => EmptyString
  | String c rest =>
      match c, rest with
      | "/"%char, String "."%char (String "/"%char _ as tail) => realpath tail
      | _, _ => String c (realpath rest)
      end
  end.

Definition sh (s : Script) (command : string) (env : option environment)
    (w : World unit) : Child * Disk unit :=
  (answer s command (files (disk w)),
   mkDisk (effect_of s command (files (disk w))) tt).

(** Opening fails on a directory, and for reading on a name that holds
    no file; otherwise it goes through. *)
Definition opening (s : Script) (path mode : string) (w : World unit)
    : result string :=
  if directory s path then Raise (is_a_directory path)
  else if String.eqb mode "w" then Ok (realpath path)
  else match files (disk w) (realpath path) with
       | Raise (OSError _) => Raise (no_such_file path)
       | _ => Ok (realpath path)
       end.

Definition guarded (ok : bool) (path : string) (w : World unit)
    : result unit * Disk unit :=
  (if ok then Ok tt else Raise (denied path), disk w).

Definition outside (s : Script) : Outside unit := {|
  shell := sh s;
  builtin_open := opening s;
  os_listdir := fun path _ => Ok (tmp_names s);
  os_path_isfile := fun path _ => regular s path;
  os_path_islink := fun path _ => symlink s path;
  os_path_isdir := fun path _ => directory s path;
  os_path_exists := fun path _ => present s path;
  os_unlink := fun path w => guarded (removable s path) path w;
  shutil_rmtree := fun path w => guarded (removable s path) path w;
  os_chdir := fun path _ => if enterable s path then Ok tt else Raise (denied path);
  download_from_gcs := fun remote w =>
    (if fetchable s remote
     then Ok (Py.os_path_join "/tmp" (Py.os_path_basename remote))
     else Raise (OSError ("download failed: " +:+ remote)),
     disk w);
  upload_to_gcs := fun _ _ filename w => (accepted s filename, disk w)
|}.

Definition yes (_ : string) : bool := true.
Definition no (_ : string) : bool := false.

Definition exits (code : N) (_ : string) (_ : Files) : Child :=
  Exited code (Ok (EmptyString, EmptyString)).

Definition untouched (_ : string) (fs : Files) : Files := fs.

(** Every tool succeeds and touches nothing; the scratch directory is
    empty; every upload is accepted. *)
Definition calm : Script := {|
  answer := exits 0;
  effect_of := untouched;
  tmp_names := [];
  regular := no; symlink := no; directory := no;
  present := yes; removable := yes; enterable := yes; fetchable := yes;
  accepted := yes
|}.

(** As [calm], but every tool exits with status 1 and says why. *)
Definition broken : Script := {|
  answer := fun _ _ => Exited 1 (Ok (EmptyString, "boom"));
  effect_of := untouched;
  tmp_names := [];
  regular := no; symlink := no; directory := no;
  present := yes; removable := yes; enterable := yes; fetchable := yes;
  accepted := yes
|}.

(** What decoding a lone byte [0xff] as UTF-8 raises. *)
Definition not_utf8 : exn :=
  UnicodeDecodeError
    "'utf-8' codec can't decode byte 0xff in position 0: invalid start byte".

(** As [calm], but every tool exits with status 1 after writing a byte
    that is not UTF-8. *)
Definition garbled : Script := {|
  answer := fun _ _ => Exited 1 (Raise not_utf8);
  effect_of := untouched;
  tmp_names := [];
  regular := no; symlink := no; directory := no;
  present := yes; removable := yes; enterable := yes; fetchable := yes;
  accepted := yes
|}.

(** As [calm], and every tool leaves an atom file behind. *)
Definition productive : Script := {|
  answer := exits 0;
  effect_of := fun _ fs => put "/tmp/receptor_atoms.pdb" (Ok "ATOM") fs;
  tmp_names := [];
  regular := no; symlink := no; directory := no;
  present := yes; removable := yes; enterable := yes; fetchable := yes;
  accepted := yes
|}.

Fixpoint remove_prefix (p s : string) : option string :=
  match p, s with
  | EmptyString, _ => Some s
  | String a p', String b s' =>
      if Ascii.eqb a b then remove_prefix p' s' else None
  | String _ _, EmptyString => None
  end.

(** A shell that knows [grep "CRYST1" FILE] and lets every other
    command succeed silently. *)
Definition grep_answer (command : string) (fs : Files) : Child :=
  match remove_prefix (grep_command EmptyString) command with
  | Some path =>
      match fs (realpath path) with
      | Ok text =>
          Exited (Grep.status "CRYST1" text)
            (Ok (Py.universal_newlines (Grep.stdout "CRYST1" text),
                 EmptyString))
      | Raise _ =>
          Exited 2
            (Ok (EmptyString,
                 "grep: " +:+ path +:+ ": No such file or directory" +:+ Py.nl))
      end
  | None => Exited 0 (Ok (EmptyString, EmptyString))
  end.

Definition posix : Script := {|
  answer := grep_answer;
  effect_of := untouched;
  tmp_names := [];
  regular := no; symlink := no; directory := no;
  present := yes; removable := yes; enterable := yes; fetchable := yes;
  accepted := yes
|}.

(** A scratch directory with a file, a symlink, a directory that cannot
    be removed and a socket. *)
Definition cluttered : Script := {|
  answer := exits 0;
  effect_of := untouched;
  tmp_names := ["a.txt"; "link"; "dir"; "sock"];
  regular := String.eqb "/tmp/a.txt";
  symlink := String.eqb "/tmp/link";
  directory := String.eqb "/tmp/dir";
  present := yes;
  removable := fun p => negb (String.eqb p "/tmp/dir");
  enterable := yes; fetchable := yes; accepted := yes
|}.

(** As [productive], but the docking output is not on disk when it is
    to be published and the storage client refuses the pose. *)
Definition picky : Script := {|
  answer := exits 0;
  effect_of := fun _ fs => put "/tmp/receptor_atoms.pdb" (Ok "ATOM") fs;
  tmp_names := [];
  regular := no; symlink := no; directory := no;
  present := fun p => negb (String.eqb p "/tmp/docking.pdbqt");
  removable := yes; enterable := yes; fetchable := yes;
  accepted := fun f => negb (String.eqb f "pose.sdf")
|}.

(** As [productive], but [scrub.py] exits with status 2. *)
Definition no_scrub : Script := {|
  answer := fun c _ =>
    if String.prefix "micromamba run -n dwa_env scrub.py " c
    then Exited 2 (Ok (EmptyString, "scrub failed"))
    else Exited 0 (Ok (EmptyString, EmptyString));
  effect_of := fun _ fs => put "/tmp/receptor_atoms.pdb" (Ok "ATOM") fs;
  tmp_names := [];
  regular := no; symlink := no; directory := no;
  present := yes; removable := yes; enterable := yes; fetchable := yes;
  accepted := yes
|}.

(** As [calm], but the receptor cannot be fetched. *)
Definition patchy : Script := {|
  answer := exits 0;
  effect_of := untouched;
  tmp_names := [];
  regular := no; symlink := no; directory := no;
  present := yes; removable := yes; enterable := yes;
  fetchable := fun r => negb (String.eqb r "b/1abc.pdb");
  accepted := yes
|}.

(** As [calm], but no directory can be entered. *)
Definition locked_out : Script := {|
  answer := exits 0;
  effect_of := untouched;
  tmp_names := [];
  regular := no; symlink := no; directory := no;
  present := yes; removable := yes; enterable := no; fetchable := yes;
  accepted := yes
|}.

(** An outside like that of [calm], in which the scratch directory
    cannot be listed. *)
Definition unlistable : Outside unit := {|
  shell := sh calm;
  builtin_open := opening calm;
  os_listdir := fun path _ => Raise (denied path);
  os_path_isfile := fun _ _ => false;
  os_path_islink := fun _ _ => false;
  os_path_isdir := fun _ _ => false;
  os_path_exists := fun _ _ => true;
  os_unlink := fun path w => guarded true path w;
  shutil_rmtree := fun path w => guarded true path w;
  os_chdir := fun _ _ => Ok tt;
  download_from_gcs := fun remote w =>
    (Ok (Py.os_path_join "/tmp" (Py.os_path_basename remote)), disk w);
  upload_to_gcs := fun _ _ _ w => (true, disk w)
|}.

(** The files of a scripted world, from their names and texts. *)
Definition holding (fs : gmap string string) : Files :=
  fun file =>
    match fs !! file with
    | Some text => Ok text
    | None => nothing
    end.

Definition start (dir : string) (fs : gmap string string) : World unit :=
  mkWorld dir ∅ (mkDisk (holding fs) tt).

(** A raw receptor file as the Protein Data Bank writes it, every record
    padded to 80 columns, and the atoms extracted from it. *)
Definition cryst1_record : string :=
  "CRYST1   50.000   60.000   70.000  90.00  90.00  90.00 P 1           1          ".

Definition atom_record : string :=
  "ATOM      1  N   MET A   1      27.340  24.430   2.614  1.00  9.67           N  ".

Definition raw_pdb : string :=
  cryst1_record +:+ Py.nl +:+ atom_record +:+ Py.nl.

Definition atoms_pdb : string := atom_record +:+ Py.nl.

Definition fetched : World unit :=
  start "/app"
    (<["/tmp/1abc.pdb" := raw_pdb]> {["/tmp/receptor_atoms.pdb" := atoms_pdb]}).

(** An atom file with the line ends of another system, beside a raw
    file without a unit-cell record. *)
Definition dos_atoms : string :=
  "ATOM" +:+ Py.cr +:+ Py.nl +:+ "END" +:+ Py.cr +:+ Py.nl.

Definition carriage : World unit :=
  start "/app"
    (<["/tmp/1abc.pdb" := atoms_pdb]> {["/tmp/receptor_atoms.pdb" := dos_atoms]}).

(** As [fetched], with the atoms already under the name of the merged
    file. *)
Definition clobbered : World unit :=
  start "/app"
    (<["/tmp/1abc.pdb" := raw_pdb]> {["/tmp/receptor_cryst1.pdb" := atoms_pdb]}).

(** The service in [/app], the ligand descriptor already in place. *)
Definition ready : World unit :=
  start "/app" {["/tmp/ligand.smi" := "CCO" +:+ Py.nl]}.

(** A job on [ready], its inputs named by bucket paths. *)
Definition job (s : Script) : Run unit job_result :=
  run_job (outside s) "bucket/ligand.smi" "bucket/1abc.pdb" "bucket/box.txt"
    "results" ready.

End Sim.

(** * Properties *)

(** ** Laws of the monad *)

Section Laws.

Context {X : Type}.

Lemma bind_ok {A B} (m : M X A) (k : A -> M X B) w a :
  res (m w) = Ok a ->
  bind m k w =
    mkRun (res (k a (world (m w)))) (world (k a (world (m w))))
          (events (m w) ++ events (k a (world (m w)))).
Proof.
  unfold bind. destruct (m w) as [r w1 evs1]; cbn. intros ->.
  now destruct (k a w1).
Qed.

Lemma bind_raise {A B} (m : M X A) (k : A -> M X B) w e :
  res (m w) = Raise e ->
  bind m k w = mkRun (Raise e) (world (m w)) (events (m w)).
Proof.
  unfold bind. destruct (m w) as [r w1 evs1]; cbn. now intros ->.
Qed.

Lemma try_ok {A} (m : M X A) h w a :
  res (m w) = Ok a -> try_except m h w = m w.
Proof.
  unfold try_except. destruct (m w) as [r w1 evs1]; cbn. now intros ->.
Qed.

Lemma try_raise {A} (m : M X A) h w e :
  res (m w) = Raise e ->
  try_except m h w =
    mkRun (res (h e (world (m w)))) (world (h e (world (m w))))
          (events (m w) ++ events (h e (world (m w)))).
Proof.
  unfold try_except. destruct (m w) as [r w1 evs1]; cbn. intros ->.
  now destruct (h e w1).
Qed.

Lemma bind_eq {A B} (m : M X A) (k : A -> M X B) w :
  bind m k w =
    match res (m w) with
    | Ok a => prepend (events (m w)) (k a (world (m w)))
    | Raise e => mkRun (Raise e) (world (m w)) (events (m w))
    end.
Proof.
  unfold bind, prepend.
  destruct (m w) as [[a|e] w1 evs1]; cbn; [|reflexivity].
  now destruct (k a w1).
Qed.

Lemma try_eq {A} (m : M X A) h w :
  try_except m h w =
    match res (m w) with
    | Ok a => m w
    | Raise e => prepend (events (m w)) (h e (world (m w)))
    end.
Proof.
  unfold try_except, prepend.
  destruct (m w) as [[a|e] w1 evs1]; cbn; [reflexivity|].
  now destruct (h e w1).
Qed.

Lemma returns_ret {A} (a : A) (w : World X) : returns (ret a w) a.
Proof. reflexivity. Qed.

Lemma returns_bind {A B} (m : M X A) (k : A -> M X B) w b :
  (forall a w', returns (k a w') b) -> returns (bind m k w) b.
Proof.
  intros H. unfold returns, bind.
  destruct (m w) as [[a|e] w1 evs1]; cbn; [|exact I].
  specialize (H a w1). unfold returns in H. now destruct (k a w1).
Qed.

Lemma returns_bind_val {A B} (m : M X A) (k : A -> M X B) w a b :
  returns (m w) a -> (forall w', returns (k a w') b) ->
  returns (bind m k w) b.
Proof.
  intros Hm H. unfold returns, bind in *.
  destruct (m w) as [[a'|e] w1 evs1]; cbn in *; [|exact I]. subst a'.
  specialize (H w1). now destruct (k a w1).
Qed.

End Laws.

(** Symbolic execution: [step] opens the outermost [bind] applied to a
    world and evaluates the calls whose answer does not depend on the
    outside. *)
Ltac prims :=
  cbn [res world events prepend print emit ret raise getcwd abspath
       os_environ_copy read close_write isfile islink isdir
       exists_ index nth_error app cwd environ disk with_cwd with_disk
       with_files fst snd].

Ltac step :=
  lazymatch goal with
  | |- context [bind ?m ?k ?w] => rewrite (bind_eq m k w); prims
  end.

Ltac step_in H :=
  lazymatch type of H with
  | context [bind ?m ?k ?w] => rewrite (bind_eq m k w) in H; prims
  end.

(** ** The command runner *)

Section Runner.

Context {X : Type} (O : Outside X).

(** What [run_command] does, in one equation. *)
Lemma run_command_eq command check env w :
  run_command O command check env w =
    let child := (shell O command env w).1 in
    let w' := with_disk w (shell O command env w).2 in
    match completed child with
    | Ok done =>
        if check && negb (returncode done =? 0)%N
        then mkRun (Raise (CalledProcessError command (returncode done)
                             (stdout done) (stderr done)))
                   w'
                   [Exec command env child;
                    Print ("Error while running command: " +:+ command);
                    Print ("Stderr: " +:+ stderr done)]
        else mkRun (Ok done) w' [Exec command env child; Print (stdout done)]
    | Raise e =>
        mkRun (Raise e) w'
          (Exec command env child
           :: match e with
              | CalledProcessError _ _ _ err =>
                  [Print ("Error while running command: " +:+ command);
                   Print ("Stderr: " +:+ err)]
              | _ => []
              end)
    end.
Proof.
  unfold run_command, try_except, bind, subprocess_run.
  destruct (shell O command env w) as [child d]; cbn.
  destruct (completed child) as [done|e]; cbn.
  - destruct (check && negb (returncode done =? 0)%N); reflexivity.
  - destruct e; reflexivity.
Qed.

(** The events of a call are the command, then what is printed. *)
Lemma run_command_events command check env w :
  exists prints,
    events (run_command O command check env w)
      = Exec command env (shell O command env w).1 :: prints
    /\ Forall (fun e => exists text, e = Print text) prints.
Proof.
  rewrite run_command_eq. cbv zeta.
  destruct (completed _) as [done|e].
  - destruct (_ && _); eexists; (split; [reflexivity|]);
      repeat constructor; eauto.
  - eexists. split; [reflexivity|].
    destruct e; repeat constructor; eauto.
Qed.

(** A call that returns has seen its command exit with status 0, if
    [check] is set, and hands back what the child left. *)
Lemma run_command_returns command check env w done :
  res (run_command O command check env w) = Ok done ->
  completed (shell O command env w).1 = Ok done
  /\ (check = true -> succeeded (shell O command env w).1 = true)
  /\ world (run_command O command check env w)
     = with_disk w (shell O command env w).2
  /\ events (run_command O command check env w)
     = [Exec command env (shell O command env w).1; Print (stdout done)].
Proof.
  rewrite run_command_eq. cbv zeta. unfold succeeded.
  destruct (completed _) as [done'|e]; [|discriminate].
  destruct check; cbn [andb].
  - destruct (returncode done' =? 0)%N eqn:E; cbn [negb]; [|discriminate].
    intros [= <-]. repeat split.
  - intros [= <-]. repeat split. discriminate.
Qed.

End Runner.

(** ** Files *)

Section Files.

Context {X : Type} (O : Outside X).

Lemma put_eq file content (fs : Files) : put file content fs file = content.
Proof. unfold put. now rewrite String.eqb_refl. Qed.

Lemma put_ne file content (fs : Files) other :
  other <> file -> put file content fs other = fs other.
Proof. unfold put. intros H. apply String.eqb_neq in H. now rewrite H. Qed.

Lemma with_disk_disk (w : World X) : with_disk w (disk w) = w.
Proof. now destruct w. Qed.

Lemma open_read_eq path w :
  open_read O path w =
    mkRun (builtin_open O path "r" w) w
          [Open path "r" (builtin_open O path "r" w)].
Proof. reflexivity. Qed.

Lemma open_write_eq path w :
  open_write O path w =
    mkRun (builtin_open O path "w" w)
          match builtin_open O path "w" w with
          | Ok file => with_files w (put file (Ok EmptyString) (files (disk w)))
          | Raise _ => w
          end
          [Open path "w" (builtin_open O path "w" w)].
Proof. reflexivity. Qed.

Lemma readlines_eq file (w : World X) :
  readlines file w =
    mkRun match files (disk w) file with
          | Ok text => Ok (Py.readlines (Py.universal_newlines text))
          | Raise e => Raise e
          end w [].
Proof.
  unfold readlines, bind, read, ret.
  destruct (files (disk w) file); reflexivity.
Qed.

End Files.

(** The cases of a call of [run_command], after [run_command_eq]. *)
Ltac run_cases :=
  rewrite run_command_eq; cbv zeta;
  let done := fresh "done" in
  let e := fresh "e" in
  destruct (completed _) as [done|e];
  [destruct (_ && _)|destruct e].

(** C7, as the code has it. When the child was started and its output
    decoded, a non-zero exit status makes [run_command] with [check] true
    raise [CalledProcessError] with the command text, the exit status and
    the captured output and error streams, after logging the command and
    the error stream; with [check] false the same call returns the
    completed process. *)
Theorem run_command_fail_fast {X} (O : Outside X) command env w done :
  completed (shell O command env w).1 = Ok done ->
  returncode done <> 0%N ->
  res (run_command O command true env w)
    = Raise (CalledProcessError command (returncode done) (stdout done)
               (stderr done))
  /\ In (Print ("Stderr: " +:+ stderr done))
        (events (run_command O command true env w))
  /\ res (run_command O command false env w) = Ok done.
Proof.
  intros Hc Hne. rewrite !run_command_eq. cbv zeta. rewrite Hc.
  apply N.eqb_neq in Hne. rewrite Hne. cbn.
  repeat split. right; right; left; reflexivity.
Qed.

Lemma run_command_fail_fast_witness :
  res (run_command (Sim.outside Sim.broken) "vina" true None
         (Sim.start "/app" ∅))
    = Raise (CalledProcessError "vina" 1 EmptyString "boom")
  /\ In (Print "Stderr: boom")
        (events (run_command (Sim.outside Sim.broken) "vina" true None
                   (Sim.start "/app" ∅)))
  /\ res (run_command (Sim.outside Sim.broken) "vina" false None
            (Sim.start "/app" ∅))
     = Ok (mkCompleted 1 EmptyString "boom").
Proof.
  apply (run_command_fail_fast (Sim.outside Sim.broken) "vina" None
           (Sim.start "/app" ∅) (mkCompleted 1 EmptyString "boom")).
  - reflexivity.
  - discriminate.
Defined.

(** C7 as stated fails: a command that exits with status 1 after writing
    a byte that is not UTF-8. With [check] true what leaves [run_command]
    is the [UnicodeDecodeError] of the decoding, which carries neither
    the command nor the error stream, and nothing is logged; with [check]
    false the same error is raised, and no completed process returned. *)
Lemma run_command_undecodable_output :
  exit_status
    (shell (Sim.outside Sim.garbled) "vina" None (Sim.start "/app" ∅)).1
    = Some 1%N
  /\ res (run_command (Sim.outside Sim.garbled) "vina" true None
            (Sim.start "/app" ∅))
     = Raise Sim.not_utf8
  /\ events (run_command (Sim.outside Sim.garbled) "vina" true None
               (Sim.start "/app" ∅))
     = [Exec "vina" None (Exited 1 (Raise Sim.not_utf8))]
  /\ res (run_command (Sim.outside Sim.garbled) "vina" false None
            (Sim.start "/app" ∅))
     = Raise Sim.not_utf8.
Proof. repeat split. Qed.

(** ** The working directory around the hydrogenation step *)

Section Hydrogenation.

Context {X : Type} (O : Outside X).

Lemma chdir_eq path w :
  chdir O path w =
    match os_chdir O path w with
    | Ok _ => mkRun (Ok tt) (with_cwd w path) [Chdir path (Ok tt)]
    | Raise e => mkRun (Raise e) w [Chdir path (Raise e)]
    end.
Proof. reflexivity. Qed.

(** When the step returns, the working directory is the one it started
    in. *)
Lemma add_hydrogens_restores_on_return receptor_cryst1 w v :
  res (add_hydrogens_and_optimize O receptor_cryst1 w) = Ok v ->
  cwd (world (add_hydrogens_and_optimize O receptor_cryst1 w)) = cwd w.
Proof.
  unfold add_hydrogens_and_optimize. cbv zeta. do 5 step.
  rewrite chdir_eq.
  destruct (os_chdir O "/tmp/" w) as [[]|e]; prims; [|discriminate].
  step. run_cases; prims; try discriminate.
  step. rewrite chdir_eq.
  destruct (os_chdir O (cwd w) _) as [[]|e]; prims; [|discriminate].
  step. reflexivity.
Qed.

(** When the tool fails after the directory was entered, the error
    leaves the step and the process stays in the scratch directory. *)
Lemma add_hydrogens_strands_on_failure receptor_cryst1 w :
  os_chdir O "/tmp/" w = Ok tt ->
  succeeded (reduce2_call O receptor_cryst1 w).1 = false ->
  (exists e, res (add_hydrogens_and_optimize O receptor_cryst1 w) = Raise e)
  /\ cwd (world (add_hydrogens_and_optimize O receptor_cryst1 w)) = "/tmp/".
Proof.
  intros Hcd Hrc. unfold reduce2_call, succeeded in Hrc.
  unfold add_hydrogens_and_optimize. cbv zeta. do 5 step.
  rewrite chdir_eq, Hcd. prims.
  step. rewrite run_command_eq. cbv zeta.
  destruct (completed _) as [done|e]; prims; [|eauto].
  rewrite Hrc. prims. eauto.
Qed.

End Hydrogenation.

(** C1 (the code departs from it). A run of the hydrogenation step that
    starts in [/app] and whose tool exits with status 1: the error
    propagates and the working directory is then [/tmp/], not [/app]. *)
Theorem add_hydrogens_leaves_cwd_changed :
  (exists cmd,
     res (add_hydrogens_and_optimize (Sim.outside Sim.broken)
            "/tmp/receptor_cryst1.pdb" (Sim.start "/app" ∅))
     = Raise (CalledProcessError cmd 1 EmptyString "boom"))
  /\ cwd (Sim.start "/app" ∅) = "/app"
  /\ cwd (world (add_hydrogens_and_optimize (Sim.outside Sim.broken)
                   "/tmp/receptor_cryst1.pdb" (Sim.start "/app" ∅)))
     = "/tmp/".
Proof.
  repeat split.
  eexists. vm_compute. reflexivity.
Qed.

(** ** What the stages return *)

Ltac returns_steps :=
  repeat lazymatch goal with
    | |- returns (bind _ _ _) _ => apply returns_bind; intros
    | |- returns (ret _ _) _ => apply returns_ret
    end.

Section Stages.

Context {X : Type} (O : Outside X).

Lemma run_command_ok command check env w :
  succeeded (shell O command env w).1 = true ->
  exists done,
    run_command O command check env w =
      mkRun (Ok done)
            (with_disk w (shell O command env w).2)
            [Exec command env (shell O command env w).1;
             Print (stdout done)].
Proof.
  unfold succeeded. intros H. rewrite run_command_eq. cbv zeta.
  destruct (completed _) as [done|e]; [|discriminate].
  exists done. rewrite H. now rewrite andb_false_r.
Qed.

Lemma add_protomers_returns ligand w :
  returns (add_protomers O ligand w) "/tmp/ligand_with_protomers.sdf".
Proof. unfold add_protomers. cbv zeta. returns_steps. Qed.

Lemma prepare_ligand_returns ligand w :
  returns (prepare_ligand O ligand w) "/tmp/ligand_protomers/_i0.pdbqt".
Proof. unfold prepare_ligand. cbv zeta. returns_steps. Qed.

Lemma extract_receptor_atoms_returns receptor w :
  returns (extract_receptor_atoms O receptor w) "/tmp/receptor_atoms.pdb".
Proof. unfold extract_receptor_atoms. cbv zeta. returns_steps. Qed.

Lemma extract_and_combine_cryst1_returns receptor receptor_atoms w :
  returns (extract_and_combine_cryst1 O receptor receptor_atoms w)
    "/tmp/receptor_cryst1.pdb".
Proof. unfold extract_and_combine_cryst1. cbv zeta. returns_steps. Qed.

Lemma add_hydrogens_returns receptor_cryst1 w :
  returns (add_hydrogens_and_optimize O receptor_cryst1 w)
    "/tmp/receptor_cryst1FH.pdb".
Proof. unfold add_hydrogens_and_optimize. cbv zeta. returns_steps. Qed.

Lemma prepare_receptor_returns receptor box w :
  returns (prepare_receptor O receptor box w)
    ("/tmp/receptor_cryst1FH.pdb", "/tmp/receptor_prepared.pdbqt").
Proof.
  unfold prepare_receptor. cbv zeta.
  do 4 (apply returns_bind; intros).
  eapply returns_bind_val; [apply add_hydrogens_returns|intros].
  returns_steps.
Qed.

Lemma run_docking_returns ligand_prepared receptor_prepared w :
  returns (run_docking O ligand_prepared receptor_prepared w)
    "/tmp/docking.pdbqt".
Proof. unfold run_docking. cbv zeta. returns_steps. Qed.

Lemma export_pose_returns docking w :
  returns (export_pose O docking w) "/tmp/pose.sdf".
Proof. unfold export_pose. cbv zeta. returns_steps. Qed.

(** With a hospitable outside the stages do return. *)
Section Hospitable.

Hypothesis Hosp : hospitable O.

Lemma hospitable_run command check env w :
  exists done,
    run_command O command check env w =
      mkRun (Ok done)
            (with_disk w (shell O command env w).2)
            [Exec command env (shell O command env w).1;
             Print (stdout done)].
Proof. apply run_command_ok, Hosp. Qed.

Ltac hospitable_step :=
  match goal with
  | |- context [run_command O ?c ?k ?e ?w] =>
      let done := fresh "done" in
      destruct (hospitable_run c k e w) as [done ->]
  end.

Lemma add_protomers_total ligand w file text :
  builtin_open O ligand "r" w = Ok file ->
  files (disk w) file = Ok text ->
  exists a, res (add_protomers O ligand w) = Ok a.
Proof.
  intros Ho Ht. unfold add_protomers. cbv zeta.
  step. rewrite try_eq. step. rewrite open_read_eq, Ho. prims.
  step. rewrite Ht. prims.
  step. hospitable_step. prims. eauto.
Qed.

Lemma prepare_ligand_total ligand w file text :
  builtin_open O ligand "r" w = Ok file ->
  files (disk w) file = Ok text ->
  exists a, res (prepare_ligand O ligand w) = Ok a.
Proof.
  intros Ho Ht. unfold prepare_ligand. cbv zeta. step. step.
  destruct (add_protomers_total ligand w file text Ho Ht) as [a Ha].
  rewrite Ha. prims. step. hospitable_step. prims. eauto.
Qed.

Lemma run_docking_total ligand_prepared receptor_prepared w :
  exists a, res (run_docking O ligand_prepared receptor_prepared w) = Ok a.
Proof.
  unfold run_docking. cbv zeta. step. step. hospitable_step.
  prims. eauto.
Qed.

Lemma export_pose_total docking w :
  exists a, res (export_pose O docking w) = Ok a.
Proof.
  unfold export_pose. cbv zeta. step. step. hospitable_step.
  prims. eauto.
Qed.

Lemma add_hydrogens_total receptor_cryst1 w :
  exists a, res (add_hydrogens_and_optimize O receptor_cryst1 w) = Ok a.
Proof.
  destruct Hosp as (_ & _ & Hcd).
  unfold add_hydrogens_and_optimize. cbv zeta. do 5 step.
  rewrite chdir_eq, Hcd. prims. step. hospitable_step. prims.
  step. rewrite chdir_eq, Hcd. prims. step. eauto.
Qed.

Lemma extract_and_combine_total receptor w0 command env :
  let w := with_disk w0 (shell O command env w0).2 in
  exists a,
    res (extract_and_combine_cryst1 O receptor "/tmp/receptor_atoms.pdb" w)
      = Ok a.
Proof.
  intros w. unfold extract_and_combine_cryst1. cbv zeta. step. step.
  hospitable_step. prims.
  destruct Hosp as (_ & Hat & _).
  destruct (Hat (grep_command receptor) None w)
    as (atoms_f & combined_f & text & Ha & Hc & Ht).
  cbv zeta in Ha, Hc, Ht.
  step. rewrite open_read_eq, Ha. prims.
  step. rewrite open_write_eq, Hc. prims.
  step. rewrite try_eq, readlines_eq. prims. cbn [files].
  destruct (String.eqb_spec atoms_f combined_f) as [->|Hne].
  - rewrite put_eq. prims. do 2 step. eauto.
  - rewrite put_ne by exact Hne. cbn [with_disk disk] in Ht. rewrite Ht.
    prims. do 2 step. eauto.
Qed.

Lemma prepare_receptor_total receptor box w :
  exists a, res (prepare_receptor O receptor box w) = Ok a.
Proof.
  unfold prepare_receptor. cbv zeta. step. step.
  unfold extract_receptor_atoms. cbv zeta.
  step. hospitable_step. prims. step. step.
  match goal with
  | |- context [extract_and_combine_cryst1 O receptor _ ?w1] =>
      destruct (extract_and_combine_total receptor w
                  (extract_atoms_command receptor "/tmp/receptor_atoms.pdb")
                  None) as [a Ha];
      cbv zeta in Ha; rewrite Ha
  end.
  prims. step. step.
  match goal with
  | |- context [add_hydrogens_and_optimize O a ?w1] =>
      destruct (add_hydrogens_total a w1) as [b Hb]; rewrite Hb
  end.
  prims. step. step. hospitable_step. prims. step. eauto.
Qed.

End Hospitable.

End Stages.

Lemma returns_total {X A} (r : Run X A) (a : A) :
  returns r a -> (exists b, res r = Ok b) -> res r = Ok a.
Proof. unfold returns. intros H [b Hb]. rewrite Hb in *. now subst. Qed.

(** C9. Whatever its arguments and the world it runs in, a stage that
    returns returns its fixed scratch path: [prepare_ligand] the index-0
    file of the protomer directory, [prepare_receptor] the hydrogenated
    receptor and the prepared receptor, [run_docking] the docking output
    and [export_pose] the pose file. With a hospitable outside and a
    readable ligand file the stages do return. *)
Theorem stage_outputs_fixed {X} (O : Outside X)
    ligand receptor box ligand_prepared receptor_prepared docking w :
  (returns (prepare_ligand O ligand w) "/tmp/ligand_protomers/_i0.pdbqt"
   /\ returns (prepare_receptor O receptor box w)
        ("/tmp/receptor_cryst1FH.pdb", "/tmp/receptor_prepared.pdbqt")
   /\ returns (run_docking O ligand_prepared receptor_prepared w)
        "/tmp/docking.pdbqt"
   /\ returns (export_pose O docking w) "/tmp/pose.sdf")
  /\ (hospitable O ->
      (exists file text,
         builtin_open O ligand "r" w = Ok file
         /\ files (disk w) file = Ok text) ->
      res (prepare_ligand O ligand w) = Ok "/tmp/ligand_protomers/_i0.pdbqt"
      /\ res (prepare_receptor O receptor box w)
         = Ok ("/tmp/receptor_cryst1FH.pdb", "/tmp/receptor_prepared.pdbqt")
      /\ res (run_docking O ligand_prepared receptor_prepared w)
         = Ok "/tmp/docking.pdbqt"
      /\ res (export_pose O docking w) = Ok "/tmp/pose.sdf").
Proof.
  split.
  - repeat split.
    + apply prepare_ligand_returns.
    + apply prepare_receptor_returns.
    + apply run_docking_returns.
    + apply export_pose_returns.
  - intros Hosp (file & text & Ho & Ht). repeat split; apply returns_total.
    + apply prepare_ligand_returns.
    + now apply (prepare_ligand_total O Hosp ligand w file text).
    + apply prepare_receptor_returns.
    + now apply prepare_receptor_total.
    + apply run_docking_returns.
    + now apply run_docking_total.
    + apply export_pose_returns.
    + now apply export_pose_total.
Qed.

Lemma productive_is_hospitable : hospitable (Sim.outside Sim.productive).
Proof.
  split; [|split]; intros; [reflexivity| |reflexivity].
  cbv zeta. exists "/tmp/receptor_atoms.pdb", "/tmp/receptor_cryst1.pdb", "ATOM".
  repeat split.
Qed.

Lemma stage_outputs_fixed_witness :
  res (prepare_ligand (Sim.outside Sim.productive) "/tmp/ligand.smi"
         (Sim.start "/app" {["/tmp/ligand.smi" := "CCO"]}))
    = Ok "/tmp/ligand_protomers/_i0.pdbqt"
  /\ res (prepare_receptor (Sim.outside Sim.productive) "/tmp/1abc.pdb"
            "/tmp/box.txt" (Sim.start "/app" {["/tmp/ligand.smi" := "CCO"]}))
     = Ok ("/tmp/receptor_cryst1FH.pdb", "/tmp/receptor_prepared.pdbqt")
  /\ res (run_docking (Sim.outside Sim.productive) "/tmp/a.pdbqt"
            "/tmp/b.pdbqt" (Sim.start "/app" {["/tmp/ligand.smi" := "CCO"]}))
     = Ok "/tmp/docking.pdbqt"
  /\ res (export_pose (Sim.outside Sim.productive) "/tmp/c.pdbqt"
            (Sim.start "/app" {["/tmp/ligand.smi" := "CCO"]}))
     = Ok "/tmp/pose.sdf".
Proof.
  apply (stage_outputs_fixed (Sim.outside Sim.productive) "/tmp/ligand.smi"
           "/tmp/1abc.pdb" "/tmp/box.txt" "/tmp/a.pdbqt" "/tmp/b.pdbqt"
           "/tmp/c.pdbqt" (Sim.start "/app" {["/tmp/ligand.smi" := "CCO"]})).
  - exact productive_is_hospitable.
  - exists "/tmp/ligand.smi", "CCO". split; reflexivity.
Defined.

(** ** The configuration file of the docking stage *)

Section Docking.

Context {X : Type} (O : Outside X).

Lemma run_docking_commands ligand_prepared receptor_prepared w :
  exec_commands (events (run_docking O ligand_prepared receptor_prepared w))
    = [vina_command ligand_prepared receptor_prepared
         "/tmp/receptor_prepared.box.txt" "/tmp/docking.pdbqt"].
Proof.
  unfold run_docking. cbv zeta. step. step. run_cases; reflexivity.
Qed.

End Docking.

(** C2, as the code has it. [run_docking] hands the solver the literal
    configuration path [/tmp/receptor_prepared.box.txt] whatever
    prepared-receptor path it is given; the path [prepare_receptor]
    returns, the one [run_job] passes on, is
    [/tmp/receptor_prepared.pdbqt], and for it the convention gives that
    same literal. *)
Theorem docking_config_is_literal {X} (O : Outside X) :
  (forall ligand_prepared receptor_prepared w,
     exec_commands (events (run_docking O ligand_prepared receptor_prepared w))
       = [vina_command ligand_prepared receptor_prepared
            "/tmp/receptor_prepared.box.txt" "/tmp/docking.pdbqt"])
  /\ (forall receptor box w,
        match res (prepare_receptor O receptor box w) with
        | Ok (_, receptor_prepared) =>
            receptor_prepared = "/tmp/receptor_prepared.pdbqt"
            /\ Convention.box_config_of receptor_prepared
               = "/tmp/receptor_prepared.box.txt"
        | Raise _ => True
        end).
Proof.
  split.
  - apply run_docking_commands.
  - intros receptor box w.
    pose proof (prepare_receptor_returns O receptor box w) as H.
    unfold returns in H.
    destruct (res (prepare_receptor O receptor box w)) as [[t p]|e]; [|exact I].
    injection H as _ ->. split; reflexivity.
Qed.

(** C2 as stated fails: for the prepared receptor [/tmp/other.pdbqt] the
    convention gives [/tmp/other.box.txt], and that is not the
    configuration the solver is run with. *)
Lemma docking_config_not_derived :
  Convention.box_config_of "/tmp/other.pdbqt" = "/tmp/other.box.txt"
  /\ exec_commands
       (events (run_docking (Sim.outside Sim.calm) "/tmp/l.pdbqt"
                  "/tmp/other.pdbqt" (Sim.start "/app" ∅)))
     <> [vina_command "/tmp/l.pdbqt" "/tmp/other.pdbqt"
           (Convention.box_config_of "/tmp/other.pdbqt") "/tmp/docking.pdbqt"]
  /\ exec_commands
       (events (run_docking (Sim.outside Sim.calm) "/tmp/l.pdbqt"
                  "/tmp/other.pdbqt" (Sim.start "/app" ∅)))
     = [vina_command "/tmp/l.pdbqt" "/tmp/other.pdbqt"
          (Convention.box_config_of "/tmp/receptor_prepared.pdbqt")
          "/tmp/docking.pdbqt"].
Proof.
  split; [reflexivity|]. split.
  - vm_compute. discriminate.
  - vm_compute. reflexivity.
Qed.

(** ** The sweep of the scratch directory *)

Ltac in_list :=
  repeat match goal with
    | H : In _ [] |- _ => destruct H
    | H : In _ (_ :: _) |- _ => destruct H as [H|H]; [inversion H; subst|]
    | H : _ \/ _ |- _ => destruct H
    end.

Section Sweep.

Context {X : Type} (O : Outside X).

Lemma clear_entry_spec p w :
  res (clear_entry O p w) = Ok tt
  /\ Cleared p (events (clear_entry O p w)).
Proof.
  unfold clear_entry. rewrite try_eq. step.
  destruct (os_path_isfile O p w) eqn:Ef; prims.
  - step. unfold unlink.
    destruct (os_unlink O p w) as [[[]|e] d]; prims;
      (split; [reflexivity|]).
    + apply (Cleared_file p (Ok tt)).
    + apply (Cleared_file p (Raise e)).
  - step. destruct (os_path_islink O p w) eqn:El; prims.
    + unfold unlink.
      destruct (os_unlink O p w) as [[[]|e] d]; prims;
        (split; [reflexivity|]).
      * apply (Cleared_link p (Ok tt)).
      * apply (Cleared_link p (Raise e)).
    + step. destruct (os_path_isdir O p w) eqn:Ed; prims.
      * unfold rmtree.
        destruct (shutil_rmtree O p w) as [[[]|e] d]; prims;
          (split; [reflexivity|]).
        -- apply (Cleared_directory p (Ok tt)).
        -- apply (Cleared_directory p (Raise e)).
      * split; [reflexivity|]. apply Cleared_other.
Qed.

Lemma sweep_loop names w :
  let r := for_each names
             (fun filename => clear_entry O (Py.os_path_join "/tmp" filename)) w in
  res r = Ok tt
  /\ Swept (map (Py.os_path_join "/tmp") names) (events r).
Proof.
  revert w. induction names as [|x xs IH]; intros w; cbn zeta.
  - cbn. split; [reflexivity|constructor].
  - cbn [for_each]. rewrite bind_eq.
    destruct (clear_entry_spec (Py.os_path_join "/tmp" x) w) as (Hr & Hs).
    rewrite Hr. prims.
    destruct (IH (world (clear_entry O (Py.os_path_join "/tmp" x) w)))
      as (Hr' & Hs').
    split; [exact Hr'|]. cbn [map]. now constructor.
Qed.

End Sweep.

(** C8. Once the scratch root has been listed, [clear_tmp] returns
    normally whatever the removals do, and it has gone through the
    entries of the listing in order, to the last: an entry found to be a
    regular file or a symlink was handed to [os.unlink], one found to be
    a directory to [shutil.rmtree], one found to be none of these was
    left alone; and a removal that raised was logged as
    [Failed to delete ...], after which the sweep went on with the next
    entry. *)
Theorem clear_tmp_best_effort {X} (O : Outside X) w names :
  os_listdir O "/tmp" w = Ok names ->
  res (clear_tmp O w) = Ok tt
  /\ exists evs,
       events (clear_tmp O w) = Listdir "/tmp" (Ok names) :: evs
       /\ Swept (map (Py.os_path_join "/tmp") names) evs.
Proof.
  intros Hl. unfold clear_tmp. cbv zeta. rewrite bind_eq.
  unfold listdir. rewrite Hl. prims.
  destruct (sweep_loop O names w) as (Hr & Hs). cbv zeta in *.
  rewrite Hr. prims.
  split; [reflexivity|]. eexists. split; [reflexivity|exact Hs].
Qed.

Lemma clear_tmp_best_effort_witness :
  res (clear_tmp (Sim.outside Sim.cluttered) (Sim.start "/app" ∅)) = Ok tt
  /\ exists evs,
       events (clear_tmp (Sim.outside Sim.cluttered) (Sim.start "/app" ∅))
         = Listdir "/tmp" (Ok ["a.txt"; "link"; "dir"; "sock"]) :: evs
       /\ Swept (map (Py.os_path_join "/tmp") ["a.txt"; "link"; "dir"; "sock"])
            evs.
Proof.
  apply (clear_tmp_best_effort (Sim.outside Sim.cluttered) (Sim.start "/app" ∅)
           ["a.txt"; "link"; "dir"; "sock"]).
  reflexivity.
Defined.

(** The sweep of the cluttered directory, event by event. *)
Example clear_tmp_cluttered :
  events (clear_tmp (Sim.outside Sim.cluttered) (Sim.start "/app" ∅))
  = [ Listdir "/tmp" (Ok ["a.txt"; "link"; "dir"; "sock"]);
      IsFile "/tmp/a.txt" true; Unlink "/tmp/a.txt" (Ok tt);
      IsFile "/tmp/link" false; IsLink "/tmp/link" true;
      Unlink "/tmp/link" (Ok tt);
      IsFile "/tmp/dir" false; IsLink "/tmp/dir" false; IsDir "/tmp/dir" true;
      Rmtree "/tmp/dir" (Raise (Sim.denied "/tmp/dir"));
      Print "Failed to delete /tmp/dir: [Errno 13] Permission denied: '/tmp/dir'";
      IsFile "/tmp/sock" false; IsLink "/tmp/sock" false;
      IsDir "/tmp/sock" false ].
Proof. vm_compute. reflexivity. Qed.

(** ** The upload loop *)

Section Publish.

Context {X : Type} (O : Outside X).

Lemma upload_one_eq dirname s f p n w :
  upload_one O dirname (s, f) (p, n) w =
    if os_path_exists O p w then
      mkRun (Ok (if (upload_to_gcs O p dirname n w).1
                 then (s ++ [n], f) else (s, f ++ [n])))
            (with_disk w (upload_to_gcs O p dirname n w).2)
            [Exists p true;
             Upload p dirname n (upload_to_gcs O p dirname n w).1]
    else
      mkRun (Ok (s, f ++ [n])) w
            [Exists p false; Print ("File not found: " +:+ p)].
Proof.
  unfold upload_one, bind, exists_, upload, print, emit, ret.
  destruct (os_path_exists O p w); [|reflexivity].
  destruct (upload_to_gcs O p dirname n w) as [[] d]; reflexivity.
Qed.

Lemma upload_loop_published dirname items s f w :
  exists evs s' f',
    res (upload_loop O dirname items (s, f) w) = Ok (s ++ s', f ++ f')
    /\ events (upload_loop O dirname items (s, f) w) = evs
    /\ Published dirname items evs s' f'.
Proof.
  revert s f w. induction items as [|[p n] rest IH]; intros s f w.
  - exists [], [], []. cbn. rewrite !app_nil_r. repeat split. constructor.
  - cbn [upload_loop]. rewrite bind_eq, upload_one_eq.
    destruct (os_path_exists O p w); prims.
    + destruct (upload_to_gcs O p dirname n w) as [[] d]; prims.
      * destruct (IH (s ++ [n]) f (with_disk w d))
          as (evs & s' & f' & Hr & He & Hp).
        exists (Exists p true :: Upload p dirname n true :: evs), (n :: s'), f'.
        rewrite Hr, He, <- app_assoc. repeat split. now constructor.
      * destruct (IH s (f ++ [n]) (with_disk w d))
          as (evs & s' & f' & Hr & He & Hp).
        exists (Exists p true :: Upload p dirname n false :: evs), s', (n :: f').
        rewrite Hr, He, <- app_assoc. repeat split. now constructor.
    + destruct (IH s (f ++ [n]) w) as (evs & s' & f' & Hr & He & Hp).
      exists (Exists p false :: Print ("File not found: " +:+ p) :: evs), s', (n :: f').
      rewrite Hr, He, <- app_assoc. repeat split. now constructor.
Qed.

Lemma Published_accounts dirname items evs s f :
  Published dirname items evs s f -> Permutation (s ++ f) (map snd items).
Proof.
  induction 1; cbn.
  - constructor.
  - now constructor.
  - rewrite <- Permutation_middle. now constructor.
  - rewrite <- Permutation_middle. now constructor.
Qed.

Lemma Published_paths dirname items evs s f :
  Published dirname items evs s f ->
  forall e, In e evs ->
    match e with
    | Exists p _ => In p (map fst items)
    | Upload p d n _ => d = dirname /\ In (p, n) items
    | Print _ => True
    | _ => False
    end.
Proof.
  induction 1; intros e He; cbn in *.
  - destruct He.
  - destruct He as [<-|[<-|He]]; auto.
    specialize (IHPublished e He). destruct e; intuition.
  - destruct He as [<-|[<-|He]]; auto.
    specialize (IHPublished e He). destruct e; intuition.
  - destruct He as [<-|[<-|He]]; auto.
    specialize (IHPublished e He). destruct e; intuition.
Qed.

Lemma Published_processed dirname items evs s f :
  Published dirname items evs s f ->
  forall p n, In (p, n) items -> exists b, In (Exists p b) evs.
Proof.
  induction 1; intros p n Hin; cbn in *.
  - destruct Hin.
  - destruct Hin as [Hin|Hin].
    + injection Hin as -> ->. eauto.
    + destruct (IHPublished p n Hin) as [b Hb]. eauto.
  - destruct Hin as [Hin|Hin].
    + injection Hin as -> ->. eauto.
    + destruct (IHPublished p n Hin) as [b Hb]. eauto.
  - destruct Hin as [Hin|Hin].
    + injection Hin as -> ->. eauto.
    + destruct (IHPublished p n Hin) as [b Hb]. eauto.
Qed.

Lemma Published_no_upload dirname rest evs s f p n b :
  Published dirname rest evs s f -> ~ In p (map fst rest) ->
  ~ In (Upload p dirname n b) evs.
Proof.
  intros H Hp Hev. apply (Published_paths _ _ _ _ _ H) in Hev.
  destruct Hev as [_ Hev]. apply Hp. apply in_map_iff. now exists (p, n).
Qed.

Lemma Published_no_exists dirname rest evs s f p b :
  Published dirname rest evs s f -> ~ In p (map fst rest) ->
  ~ In (Exists p b) evs.
Proof.
  intros H Hp Hev. apply (Published_paths _ _ _ _ _ H) in Hev. auto.
Qed.

Lemma in_fst {A B} (p : A) (n : B) items : In (p, n) items -> In p (map fst items).
Proof. intros H. apply in_map_iff. now exists (p, n). Qed.

Lemma Published_failed dirname items evs s f :
  Published dirname items evs s f -> List.NoDup (map fst items) ->
  forall p n, In (p, n) items ->
    In (Exists p false) evs \/ In (Upload p dirname n false) evs ->
    In n f.
Proof.
  induction 1 as [|q m rest evs s f H IH|q m rest evs s f H IH|q m rest evs s f H IH];
    intros Hnd p n Hin Hev; cbn in *.
  - destruct Hin.
  - apply NoDup_cons_iff in Hnd as [Hq Hnd].
    destruct Hin as [Hin|Hin].
    + injection Hin as -> ->. exfalso.
      destruct Hev as [[Hev|[Hev|Hev]]|[Hev|[Hev|Hev]]]; try discriminate.
      * now apply (Published_no_exists _ _ _ _ _ _ _ H Hq) in Hev.
      * now apply (Published_no_upload _ _ _ _ _ _ _ _ H Hq) in Hev.
    + apply (IH Hnd p n Hin).
      destruct Hev as [[Hev|[Hev|Hev]]|[Hev|[Hev|Hev]]]; try discriminate; auto.
  - apply NoDup_cons_iff in Hnd as [Hq Hnd].
    destruct Hin as [Hin|Hin].
    + injection Hin as -> ->. now left.
    + right. apply (IH Hnd p n Hin).
      destruct Hev as [[Hev|[Hev|Hev]]|[Hev|[Hev|Hev]]]; try discriminate; auto.
      injection Hev as -> ->. exfalso. apply Hq. eapply in_fst; eauto.
  - apply NoDup_cons_iff in Hnd as [Hq Hnd].
    destruct Hin as [Hin|Hin].
    + injection Hin as -> ->. now left.
    + right. apply (IH Hnd p n Hin).
      destruct Hev as [[Hev|[Hev|Hev]]|[Hev|[Hev|Hev]]]; try discriminate; auto.
      injection Hev as ->. exfalso. apply Hq. eapply in_fst; eauto.
Qed.

Lemma Published_all_uploaded dirname items evs s f :
  Published dirname items evs s f -> List.NoDup (map fst items) ->
  (forall p n, In (p, n) items -> In (Upload p dirname n true) evs) ->
  s = map snd items /\ f = [].
Proof.
  induction 1 as [|q m rest evs s f H IH|q m rest evs s f H IH|q m rest evs s f H IH];
    intros Hnd Hall; cbn in *.
  - auto.
  - apply NoDup_cons_iff in Hnd as [Hq Hnd].
    destruct IH as [-> ->]; auto.
    intros p n Hin. destruct (Hall p n (or_intror Hin)) as [Hev|[Hev|Hev]];
      try discriminate; auto.
    injection Hev as -> ->. exfalso. apply Hq. eapply in_fst; eauto.
  - apply NoDup_cons_iff in Hnd as [Hq Hnd]. exfalso.
    destruct (Hall q m (or_introl eq_refl)) as [Hev|[Hev|Hev]]; try discriminate.
    now apply (Published_no_upload _ _ _ _ _ _ _ _ H Hq) in Hev.
  - apply NoDup_cons_iff in Hnd as [Hq Hnd]. exfalso.
    destruct (Hall q m (or_introl eq_refl)) as [Hev|[Hev|Hev]]; try discriminate.
    now apply (Published_no_upload _ _ _ _ _ _ _ _ H Hq) in Hev.
Qed.

End Publish.

(** ** The events of the stages *)

Section Events.

Context {X : Type} (O : Outside X).

Lemma every_ret P {A} (a : A) : every P (@ret X A a).
Proof. intros w. constructor. Qed.

Lemma every_raise P {A} e : every P (@raise X A e).
Proof. intros w. constructor. Qed.

Lemma every_bind P {A B} (m : M X A) (k : A -> M X B) :
  every P m -> (forall a, every P (k a)) -> every P (bind m k).
Proof.
  intros Hm Hk w. rewrite bind_eq.
  destruct (res (m w)) eqn:E; cbn; [|apply Hm].
  apply Forall_app. split; [apply Hm | apply Hk].
Qed.

Lemma every_try P {A} (m : M X A) h :
  every P m -> (forall e, every P (h e)) -> every P (try_except m h).
Proof.
  intros Hm Hh w. rewrite try_eq.
  destruct (res (m w)) eqn:E; cbn; [apply Hm|].
  apply Forall_app. split; [apply Hm | apply Hh].
Qed.

Lemma every_if P {A} (b : bool) (m1 m2 : M X A) :
  every P m1 -> every P m2 -> every P (if b then m1 else m2).
Proof. now destruct b. Qed.

Lemma every_for_each P {A} (xs : list A) body :
  (forall x, every P (body x)) -> every P (@for_each X A xs body).
Proof.
  intros H. induction xs as [|x xs IH]; cbn [for_each].
  - apply every_ret.
  - apply every_bind; auto.
Qed.

Lemma every_run_command Q command check env :
  (forall done, Q command done) ->
  every (event_ok Q) (run_command O command check env).
Proof.
  intros He w.
  destruct (run_command_events O command check env w) as (prints & -> & Hp).
  constructor; [apply He|].
  eapply List.Forall_impl; [|exact Hp]. intros e [text ->]. exact I.
Qed.

(** The calls other than [run_command], [exists_] and [upload] never
    run a command, test for existence or upload. *)

Lemma every_print Q text : every (event_ok Q) (@print X text).
Proof. intros w. repeat constructor. Qed.
Lemma every_listdir Q p : every (event_ok Q) (listdir O p).
Proof. intros w. repeat constructor. Qed.
Lemma every_isfile Q p : every (event_ok Q) (isfile O p).
Proof. intros w. repeat constructor. Qed.
Lemma every_islink Q p : every (event_ok Q) (islink O p).
Proof. intros w. repeat constructor. Qed.
Lemma every_isdir Q p : every (event_ok Q) (isdir O p).
Proof. intros w. repeat constructor. Qed.
Lemma every_unlink Q p : every (event_ok Q) (unlink O p).
Proof. intros w. unfold unlink. destruct (os_unlink O p w). repeat constructor. Qed.
Lemma every_rmtree Q p : every (event_ok Q) (rmtree O p).
Proof. intros w. unfold rmtree. destruct (shutil_rmtree O p w). repeat constructor. Qed.
Lemma every_chdir Q p : every (event_ok Q) (chdir O p).
Proof. intros w. unfold chdir. destruct (os_chdir O p w); repeat constructor. Qed.
Lemma every_getcwd Q : every (event_ok Q) (@getcwd X).
Proof. intros w. constructor. Qed.
Lemma every_abspath Q p : every (event_ok Q) (@abspath X p).
Proof. intros w. constructor. Qed.
Lemma every_environ Q : every (event_ok Q) (@os_environ_copy X).
Proof. intros w. constructor. Qed.
Lemma every_open_read Q p : every (event_ok Q) (open_read O p).
Proof. intros w. repeat constructor. Qed.
Lemma every_read Q p : every (event_ok Q) (@read X p).
Proof. intros w. constructor. Qed.
Lemma every_readlines Q p : every (event_ok Q) (@readlines X p).
Proof. intros w. rewrite readlines_eq. constructor. Qed.
Lemma every_open_write Q p : every (event_ok Q) (open_write O p).
Proof. intros w. repeat constructor. Qed.
Lemma every_close_write Q p t : every (event_ok Q) (@close_write X p t).
Proof. intros w. constructor. Qed.
Lemma every_download Q p : every (event_ok Q) (download O p).
Proof. intros w. unfold download. destruct (download_from_gcs O p w). repeat constructor. Qed.
Lemma every_index Q l i : every (event_ok Q) (@index X l i).
Proof. intros w. unfold index. destruct (nth_error l i); constructor. Qed.

End Events.

Ltac every_steps :=
  repeat lazymatch goal with
    | |- every _ (bind _ _) => apply every_bind; [|intros]
    | |- every _ (try_except _ _) => apply every_try; [|intros]
    | |- every _ (if _ then _ else _) => apply every_if
    | |- every _ (match ?e with CalledProcessError _ _ _ _ => _ | _ => _ end) => destruct e
    | |- every _ (ret _) => apply every_ret
    | |- every _ (raise _) => apply every_raise
    | |- every _ (print _) => apply every_print
    | |- every _ (listdir _ _) => apply every_listdir
    | |- every _ (isfile _ _) => apply every_isfile
    | |- every _ (islink _ _) => apply every_islink
    | |- every _ (isdir _ _) => apply every_isdir
    | |- every _ (unlink _ _) => apply every_unlink
    | |- every _ (rmtree _ _) => apply every_rmtree
    | |- every _ (chdir _ _) => apply every_chdir
    | |- every _ getcwd => apply every_getcwd
    | |- every _ (abspath _) => apply every_abspath
    | |- every _ os_environ_copy => apply every_environ
    | |- every _ (open_read _ _) => apply every_open_read
    | |- every _ (read _) => apply every_read
    | |- every _ (readlines _) => apply every_readlines
    | |- every _ (open_write _ _) => apply every_open_write
    | |- every _ (close_write _ _) => apply every_close_write
    | |- every _ (download _ _) => apply every_download
    | |- every _ (index _ _) => apply every_index
    | |- every _ (for_each _ _) => apply every_for_each; intros
    | |- every _ (run_command _ _ _ _) => apply every_run_command; intros
    end.

Section StageEvents.

Context {X : Type} (O : Outside X).

Lemma clear_tmp_quiet Q : every (event_ok Q) (clear_tmp O).
Proof. unfold clear_tmp, clear_entry. cbv zeta. every_steps. Qed.

Lemma retrieve_loop_quiet Q remote_paths local_files :
  every (event_ok Q) (retrieve_loop O remote_paths local_files).
Proof.
  revert local_files. induction remote_paths as [|x xs IH]; intros acc;
    cbn [retrieve_loop]; every_steps. apply IH.
Qed.

Lemma prepare_ligand_tools ligand :
  every (event_ok before_ligand_ok) (prepare_ligand O ligand).
Proof.
  unfold prepare_ligand, add_protomers. cbv zeta. every_steps; reflexivity.
Qed.

Lemma prepare_receptor_tools receptor box :
  every (event_ok after_ligand_ok) (prepare_receptor O receptor box).
Proof.
  unfold prepare_receptor, extract_receptor_atoms, extract_and_combine_cryst1,
    add_hydrogens_and_optimize. cbv zeta.
  every_steps; intros H; discriminate H.
Qed.

Lemma run_docking_tools ligand_prepared receptor_prepared :
  every (event_ok after_ligand_ok) (run_docking O ligand_prepared receptor_prepared).
Proof. unfold run_docking. cbv zeta. every_steps; intros H; discriminate H. Qed.

Lemma export_pose_tools docking :
  every (event_ok after_ligand_ok) (export_pose O docking).
Proof. unfold export_pose. cbv zeta. every_steps; intros H; discriminate H. Qed.

Lemma clean_plain {A} (m : M X A) :
  every (event_ok (fun _ child => succeeded child = true)) m -> clean m.
Proof. intros H w a _. apply H. Qed.

Lemma clean_bind {A B} (m : M X A) (k : A -> M X B) :
  clean m -> (forall a, clean (k a)) -> clean (bind m k).
Proof.
  intros Hm Hk w b. rewrite bind_eq.
  destruct (res (m w)) as [a|e] eqn:E; prims; [|discriminate].
  intros Hb. apply Forall_app. split; [eapply Hm, E | eapply Hk, Hb].
Qed.

Lemma clean_try {A} (m : M X A) h :
  clean m -> (forall e w, exists e', res (h e w) = Raise e') ->
  clean (try_except m h).
Proof.
  intros Hm Hh w a. rewrite try_eq.
  destruct (res (m w)) as [a'|e] eqn:E; prims.
  - intros _. eapply Hm, E.
  - destruct (Hh e (world (m w))) as [e' He']. rewrite He'. discriminate.
Qed.

Lemma clean_run_command command env : clean (run_command O command true env).
Proof.
  intros w a H.
  destruct (run_command_returns O command true env w a H) as (_ & Hs & _ & ->).
  repeat constructor. now apply Hs.
Qed.

Lemma add_protomers_clean ligand : clean (add_protomers O ligand).
Proof.
  unfold add_protomers. cbv zeta.
  apply clean_bind; [|intros; apply clean_bind; [apply clean_run_command|]].
  - apply clean_try; [|intros; eexists; reflexivity].
    apply clean_plain. every_steps.
  - intros. apply clean_plain. every_steps.
Qed.

Lemma prepare_ligand_clean ligand : clean (prepare_ligand O ligand).
Proof.
  unfold prepare_ligand. cbv zeta.
  apply clean_bind; [apply clean_plain; every_steps|intros].
  apply clean_bind; [apply add_protomers_clean|intros].
  apply clean_bind; [apply clean_run_command|intros].
  apply clean_plain. every_steps.
Qed.

Lemma event_ok_weaken (P Q : string -> Child -> Prop) evs :
  (forall c done, P c done -> Q c done) ->
  Forall (event_ok P) evs -> Forall (event_ok Q) evs.
Proof.
  intros H HF. eapply List.Forall_impl; [|exact HF].
  intros [] He; cbn in *; auto.
Qed.

Lemma prepare_ligand_passed ligand w a :
  res (prepare_ligand O ligand w) = Ok a ->
  Forall (event_ok after_ligand_ok) (events (prepare_ligand O ligand w)).
Proof.
  intros H. eapply event_ok_weaken; [|eapply prepare_ligand_clean, H].
  intros c done Hd _. exact Hd.
Qed.

End StageEvents.


Lemma returns_eq {X A} (r : Run X A) (a b : A) :
  returns r a -> res r = Ok b -> b = a.
Proof. unfold returns. intros H E. now rewrite E in H. Qed.

Section Job.

Context {X : Type} (O : Outside X).

Ltac quiet_all :=
  prims; rewrite ?app_nil_r;
  repeat (apply Forall_app; split);
  first
    [ apply clear_tmp_quiet
    | apply retrieve_loop_quiet
    | apply prepare_ligand_tools
    | eapply prepare_ligand_passed; eassumption
    | apply prepare_receptor_tools
    | apply run_docking_tools
    | apply export_pose_tools
    | apply Forall_nil ].

Ltac failed_early :=
  left; split; [eexists; reflexivity|left; quiet_all].

Ltac failed_late :=
  left; split; [eexists; reflexivity|right; quiet_all].

Lemma run_job_shape ligand receptor box dirname w :
  job_shape dirname (run_job O ligand receptor box dirname w).
Proof.
  unfold run_job, retrieve_gcs_files. cbv zeta. rewrite try_eq.
  rewrite bind_eq.
  destruct (res (clear_tmp O w)) as [[]|e0] eqn:E0; prims; [|failed_early].
  rewrite bind_eq.
  destruct (res (retrieve_loop O [ligand; receptor; box] [] _))
    as [paths|e1] eqn:E1; prims; [|failed_early].
  destruct paths as [|p0 [|p1 [|p2 paths]]];
    try (repeat (rewrite bind_eq; prims); failed_early).
  do 3 (rewrite bind_eq; prims).
  rewrite bind_eq.
  match goal with |- context [prepare_ligand O p0 ?w0] =>
    destruct (res (prepare_ligand O p0 w0)) as [lp|e2] eqn:E2 end;
    prims; [|failed_early].
  rewrite bind_eq.
  match goal with |- context [prepare_receptor O p1 p2 ?w0] =>
    pose proof (prepare_receptor_returns O p1 p2 w0) as R3;
    destruct (res (prepare_receptor O p1 p2 w0)) as [[t rp]|e3] eqn:E3 end;
    prims; [|failed_late].
  injection (returns_eq _ _ _ R3 E3) as -> ->. clear R3.
  rewrite bind_eq.
  match goal with |- context [run_docking O lp ?rp ?w0] =>
    pose proof (run_docking_returns O lp rp w0) as R4;
    destruct (res (run_docking O lp rp w0)) as [dk|e4] eqn:E4 end;
    prims; [|failed_late].
  rewrite (returns_eq _ _ _ R4 E4) in *. clear R4.
  rewrite bind_eq.
  match goal with |- context [export_pose O ?dk ?w0] =>
    pose proof (export_pose_returns O dk w0) as R5;
    destruct (res (export_pose O dk w0)) as [ps|e5] eqn:E5 end;
    prims; [|failed_late].
  rewrite (returns_eq _ _ _ R5 E5) in *. clear R5.
  change [("/tmp/docking.pdbqt", Py.os_path_basename "/tmp/docking.pdbqt");
          ("/tmp/pose.sdf", Py.os_path_basename "/tmp/pose.sdf");
          ("/tmp/receptor_cryst1FH.pdb",
           Py.os_path_basename "/tmp/receptor_cryst1FH.pdb")]
    with deliverables.
  rewrite bind_eq.
  match goal with |- context [upload_loop O dirname deliverables _ ?w0] =>
    destruct (upload_loop_published O dirname deliverables [] [] w0)
      as (evs & s & f & Hr & He & Hp) end.
  cbn [app] in Hr. rewrite Hr, He. prims.
  do 3 (rewrite bind_eq; prims).
  right.
  match goal with |- context [events (clear_tmp O w) ++ ?a ++ ?b ++ ?c ++ ?d ++ ?e ++ evs ++ _] =>
    exists (events (clear_tmp O w) ++ a ++ b ++ c ++ d ++ e), evs, s, f end.
  split; [|split; [quiet_all|split; [exact Hp|]]].
  - destruct f; prims; unfold upload_summary; now rewrite <- !app_assoc.
  - destruct f; reflexivity.
Qed.

End Job.

Lemma NoDup_app_disjoint {A} (l1 l2 : list A) :
  List.NoDup (l1 ++ l2) -> forall a, In a l1 -> ~ In a l2.
Proof.
  induction l1 as [|x l1 IH]; cbn; intros H a Ha; [destruct Ha|].
  apply NoDup_cons_iff in H as [Hx H]. destruct Ha as [<-|Ha].
  - intros H2. apply Hx. apply in_app_iff. now right.
  - now apply IH.
Qed.

Lemma deliverables_distinct : List.NoDup (map fst deliverables).
Proof.
  cbn. repeat constructor; cbn; intros H;
    repeat (destruct H as [H|H]; [discriminate H|]); exact H.
Qed.

Lemma names_distinct : List.NoDup (map snd deliverables).
Proof.
  cbn. repeat constructor; cbn; intros H;
    repeat (destruct H as [H|H]; [discriminate H|]); exact H.
Qed.

Lemma event_ok_exec P evs c :
  Forall (event_ok P) evs -> In c (exec_commands evs) ->
  exists env done, In (Exec c env done) evs /\ P c done.
Proof.
  induction 1 as [|e evs He _ IH]; cbn; [intros []|].
  destruct e; cbn in *;
    try (intros Hc; destruct (IH Hc) as (env' & d & Hin & Hp); eauto 6; fail).
  intros [<-|Hc]; [eauto 6|].
  destruct (IH Hc) as (env' & d & Hin & Hp); eauto 6.
Qed.

Lemma event_ok_in P evs e : Forall (event_ok P) evs -> In e evs -> event_ok P e.
Proof. intros H Hin. rewrite List.Forall_forall in H. auto. Qed.

Lemma outputs_job_result_of s f : outputs (job_result_of s f) = s.
Proof. now destruct f. Qed.

Lemma failed_job_result_of s f : failed_of (job_result_of s f) = f.
Proof. now destruct f. Qed.

Lemma in_summary e s f :
  In e (upload_summary s f) -> exists t, e = Print t.
Proof.
  unfold upload_summary. cbn. intros [<-|[<-|[<-|[]]]]; eauto.
Qed.

Lemma Published_attempted dirname items evs s f :
  Published dirname items evs s f -> List.NoDup (map fst items) ->
  forall p n, In (p, n) items -> In (Exists p true) evs ->
    exists b, In (Upload p dirname n b) evs.
Proof.
  induction 1 as [|q m rest evs s f H IH|q m rest evs s f H IH|q m rest evs s f H IH];
    intros Hnd p n Hin Hev; cbn in *.
  - destruct Hin.
  - apply NoDup_cons_iff in Hnd as [Hq Hnd]. destruct Hin as [Hin|Hin].
    + injection Hin as -> ->. eauto.
    + destruct Hev as [Hev|[Hev|Hev]]; try discriminate.
      * injection Hev as ->. exfalso. apply Hq. eapply in_fst; eauto.
      * destruct (IH Hnd p n Hin Hev) as [b Hb]. eauto.
  - apply NoDup_cons_iff in Hnd as [Hq Hnd]. destruct Hin as [Hin|Hin].
    + injection Hin as -> ->. eauto.
    + destruct Hev as [Hev|[Hev|Hev]]; try discriminate.
      * injection Hev as ->. exfalso. apply Hq. eapply in_fst; eauto.
      * destruct (IH Hnd p n Hin Hev) as [b Hb]. eauto.
  - apply NoDup_cons_iff in Hnd as [Hq Hnd]. destruct Hin as [Hin|Hin].
    + injection Hin as -> ->. exfalso.
      destruct Hev as [Hev|[Hev|Hev]]; try discriminate.
      now apply (Published_no_exists _ _ _ _ _ _ _ H Hq) in Hev.
    + destruct Hev as [Hev|[Hev|Hev]]; try discriminate.
      destruct (IH Hnd p n Hin Hev) as [b Hb]. eauto.
Qed.

(** Where an event of a successful job lies. *)
Lemma in_job_events {X} (R : Run X job_result) pre evs s f e :
  events R = pre ++ evs ++ upload_summary s f ->
  Forall (event_ok after_ligand_ok) pre ->
  In e (events R) ->
  match e with
  | Exists _ _ | Upload _ _ _ _ => In e evs
  | _ => True
  end.
Proof.
  intros -> Hpre Hin. rewrite !in_app_iff in Hin.
  destruct e; try exact I.
  - destruct Hin as [Hin|[Hin|Hin]]; auto.
    + apply (event_ok_in _ _ _ Hpre) in Hin. destruct Hin.
    + apply in_summary in Hin as [t Ht]. discriminate.
  - destruct Hin as [Hin|[Hin|Hin]]; auto.
    + apply (event_ok_in _ _ _ Hpre) in Hin. destruct Hin.
    + apply in_summary in Hin as [t Ht]. discriminate.
Qed.

(** C10. When [run_job] returns a result, its [outputs] list and its
    [failed_files] list (empty when the key is absent) together are a
    permutation of the three deliverable names, and no name is in both:
    every deliverable is in exactly one of the two lists. *)
Theorem run_job_accounts_for_deliverables {X} (O : Outside X)
    ligand receptor box dirname w j :
  res (run_job O ligand receptor box dirname w) = Ok j ->
  Permutation (outputs j ++ failed_of j)
    ["docking.pdbqt"; "pose.sdf"; "receptor_cryst1FH.pdb"]
  /\ (forall n, In n (outputs j) -> ~ In n (failed_of j)).
Proof.
  intros Hj.
  destruct (run_job_shape O ligand receptor box dirname w)
    as [[[msg Hm] _]|(pre & evs & s & f & He & Hpre & Hp & Hr)].
  - rewrite Hm in Hj. discriminate.
  - rewrite Hr in Hj. injection Hj as <-.
    rewrite outputs_job_result_of, failed_job_result_of.
    pose proof (Published_accounts _ _ _ _ _ Hp) as Hperm.
    split; [exact Hperm|].
    apply NoDup_app_disjoint.
    apply (Permutation_NoDup (Permutation_sym Hperm)). exact names_distinct.
Qed.

(** C4. If the run found each of the three deliverables on disk and no
    upload call of the run returned false, [run_job] returns the result
    with status [success], the three logical names as [outputs] and no
    [failed_files] key. *)
Theorem run_job_succeeds_when_all_published {X} (O : Outside X)
    ligand receptor box dirname w :
  (forall p n, In (p, n) deliverables ->
     In (Exists p true) (events (run_job O ligand receptor box dirname w))) ->
  (forall p d n b,
     In (Upload p d n b) (events (run_job O ligand receptor box dirname w)) ->
     b = true) ->
  res (run_job O ligand receptor box dirname w)
    = Ok {| status := "success";
            outputs := ["docking.pdbqt"; "pose.sdf"; "receptor_cryst1FH.pdb"];
            failed_files := None |}.
Proof.
  intros Hex Hup.
  destruct (run_job_shape O ligand receptor box dirname w)
    as [[_ [Hq|Hq]]|(pre & evs & s & f & He & Hpre & Hp & Hr)].
  - specialize (Hex _ _ (or_introl eq_refl)).
    apply (event_ok_in _ _ _ Hq) in Hex. destruct Hex.
  - specialize (Hex _ _ (or_introl eq_refl)).
    apply (event_ok_in _ _ _ Hq) in Hex. destruct Hex.
  - destruct (Published_all_uploaded _ _ _ _ _ Hp deliverables_distinct)
      as [-> ->]; [|exact Hr].
    intros p n Hin.
    pose proof (in_job_events _ _ _ _ _ _ He Hpre (Hex p n Hin)) as Hin1.
    cbn in Hin1.
    destruct (Published_attempted _ _ _ _ _ Hp deliverables_distinct p n Hin Hin1)
      as [b Hb].
    assert (b = true) as ->; [|exact Hb].
    apply (Hup p dirname n). rewrite He, !in_app_iff. auto.
Qed.

Lemma Published_each dirname items evs s f :
  Published dirname items evs s f ->
  forall p n, In (p, n) items ->
    (In (Exists p false) evs /\ In n f)
    \/ (In (Exists p true) evs /\ In (Upload p dirname n false) evs /\ In n f)
    \/ (In (Exists p true) evs /\ In (Upload p dirname n true) evs /\ In n s).
Proof.
  induction 1 as [|q m rest evs s f H IH|q m rest evs s f H IH
                 |q m rest evs s f H IH]; intros p n Hin.
  - destruct Hin.
  - destruct Hin as [[= <- <-]|Hin].
    + right. right. cbn. auto.
    + destruct (IH p n Hin) as [(?&?)|[(?&?&?)|(?&?&?)]]; cbn; auto 10.
  - destruct Hin as [[= <- <-]|Hin].
    + right. left. cbn. auto.
    + destruct (IH p n Hin) as [(?&?)|[(?&?&?)|(?&?&?)]]; cbn; auto 10.
  - destruct Hin as [[= <- <-]|Hin].
    + left. cbn. auto.
    + destruct (IH p n Hin) as [(?&?)|[(?&?&?)|(?&?&?)]]; cbn; auto 10.
Qed.

(** C3. If the run found a deliverable missing, or its upload returned
    false, [run_job] returns a result with status [partial_success] whose
    [failed_files] holds that deliverable's name; and the loop went on
    through all three deliverables: each of them was looked for, and was
    either found missing and put on the failed list, or found, handed to
    the upload call and put on the failed list or on the list of outputs
    as that call answered. *)
Theorem run_job_partial_success {X} (O : Outside X)
    ligand receptor box dirname w p n :
  In (p, n) deliverables ->
  In (Exists p false) (events (run_job O ligand receptor box dirname w))
  \/ In (Upload p dirname n false)
        (events (run_job O ligand receptor box dirname w)) ->
  exists s f,
    res (run_job O ligand receptor box dirname w)
      = Ok {| status := "partial_success"; outputs := s;
              failed_files := Some f |}
    /\ In n f
    /\ (forall p' n', In (p', n') deliverables ->
          (In (Exists p' false)
              (events (run_job O ligand receptor box dirname w))
           /\ In n' f)
          \/ (In (Exists p' true)
                 (events (run_job O ligand receptor box dirname w))
              /\ In (Upload p' dirname n' false)
                    (events (run_job O ligand receptor box dirname w))
              /\ In n' f)
          \/ (In (Exists p' true)
                 (events (run_job O ligand receptor box dirname w))
              /\ In (Upload p' dirname n' true)
                    (events (run_job O ligand receptor box dirname w))
              /\ In n' s)).
Proof.
  intros Hin Hev.
  destruct (run_job_shape O ligand receptor box dirname w)
    as [[_ [Hq|Hq]]|(pre & evs & s & f & He & Hpre & Hp & Hr)].
  - destruct Hev as [Hev|Hev]; apply (event_ok_in _ _ _ Hq) in Hev; destruct Hev.
  - destruct Hev as [Hev|Hev]; apply (event_ok_in _ _ _ Hq) in Hev; destruct Hev.
  - assert (Hf : In n f).
    { apply (Published_failed _ _ _ _ _ Hp deliverables_distinct p n Hin).
      destruct Hev as [Hev|Hev];
        apply (in_job_events _ _ _ _ _ _ He Hpre) in Hev; auto. }
    exists s, f. split; [|split; [exact Hf|]].
    + rewrite Hr. destruct f; [destruct Hf|reflexivity].
    + intros p' n' Hin'. rewrite He.
      assert (Hsub : forall e, In e evs -> In e (pre ++ evs ++ upload_summary s f))
        by (intros e He'; rewrite !in_app_iff; auto).
      destruct (Published_each _ _ _ _ _ Hp p' n' Hin')
        as [(?&?)|[(?&?&?)|(?&?&?)]]; auto 10.
Qed.

(** C6. If a run of [run_job] contains a ligand-preparation command
    ([scrub.py] or [mk_prepare_ligand.py]) that exited non-zero (or that
    did not come to an exit status 0 with decoded output at all), the job
    ends with a [RuntimeError] and no result, and the ligand-preparation
    commands are the only commands the run handed to the shell: nothing of
    receptor preparation, docking or pose export was started. *)
Theorem ligand_failure_aborts_job {X} (O : Outside X)
    ligand receptor box dirname w command env child :
  In (Exec command env child)
     (events (run_job O ligand receptor box dirname w)) ->
  ligand_tool command = true ->
  succeeded child = false ->
  (exists msg,
     res (run_job O ligand receptor box dirname w) = Raise (RuntimeError msg))
  /\ (forall c,
        In c (exec_commands (events (run_job O ligand receptor box dirname w))) ->
        ligand_tool c = true).
Proof.
  intros Hin Hl Hrc.
  destruct (run_job_shape O ligand receptor box dirname w)
    as [[Hm [Hq|Hq]]|(pre & evs & s & f & He & Hpre & Hp & Hr)].
  - split; [exact Hm|]. intros c Hc.
    destruct (event_ok_exec _ _ _ Hq Hc) as (env' & done' & _ & H). exact H.
  - apply (event_ok_in _ _ _ Hq) in Hin. cbn in Hin. apply Hin in Hl.
    congruence.
  - exfalso. rewrite He, !in_app_iff in Hin. destruct Hin as [Hin|[Hin|Hin]].
    + apply (event_ok_in _ _ _ Hpre) in Hin. cbn in Hin. apply Hin in Hl.
      congruence.
    + apply (Published_paths _ _ _ _ _ Hp) in Hin. exact Hin.
    + apply in_summary in Hin as [t Ht]. discriminate.
Qed.

(** ** Scripted jobs *)

Ltac in_events := vm_compute; repeat (first [left; reflexivity | right]).

Ltac each_deliverable H :=
  cbn in H; destruct H as [H|[H|[H|[]]]]; injection H as <- <-.

Example job_productive :
  res (Sim.job Sim.productive)
  = Ok {| status := "success";
          outputs := ["docking.pdbqt"; "pose.sdf"; "receptor_cryst1FH.pdb"];
          failed_files := None |}.
Proof. vm_compute. reflexivity. Qed.

Example job_picky :
  res (Sim.job Sim.picky)
  = Ok {| status := "partial_success";
          outputs := ["receptor_cryst1FH.pdb"];
          failed_files := Some ["docking.pdbqt"; "pose.sdf"] |}.
Proof. vm_compute. reflexivity. Qed.

Example job_no_scrub :
  exec_commands (events (Sim.job Sim.no_scrub))
  = [scrub_command "CCO" "/tmp/ligand_with_protomers.sdf"].
Proof. vm_compute. reflexivity. Qed.

Lemma no_refused_upload evs :
  existsb refused_upload evs = false ->
  forall p d n b, In (Upload p d n b) evs -> b = true.
Proof.
  intros H p d n b Hin. destruct b; [reflexivity|].
  assert (existsb refused_upload evs = true) as Ht
    by (apply existsb_exists; eexists; split; [exact Hin|reflexivity]).
  rewrite Ht in H. discriminate.
Qed.

Lemma run_job_accounts_for_deliverables_witness :
  Permutation ["receptor_cryst1FH.pdb"; "docking.pdbqt"; "pose.sdf"]
    ["docking.pdbqt"; "pose.sdf"; "receptor_cryst1FH.pdb"]
  /\ (forall n, In n ["receptor_cryst1FH.pdb"] ->
        ~ In n ["docking.pdbqt"; "pose.sdf"]).
Proof.
  apply (run_job_accounts_for_deliverables (Sim.outside Sim.picky)
           "bucket/ligand.smi" "bucket/1abc.pdb" "bucket/box.txt" "results"
           Sim.ready
           {| status := "partial_success";
              outputs := ["receptor_cryst1FH.pdb"];
              failed_files := Some ["docking.pdbqt"; "pose.sdf"] |}).
  vm_compute. reflexivity.
Defined.

Lemma run_job_succeeds_when_all_published_witness :
  res (Sim.job Sim.productive)
  = Ok {| status := "success";
          outputs := ["docking.pdbqt"; "pose.sdf"; "receptor_cryst1FH.pdb"];
          failed_files := None |}.
Proof.
  apply (run_job_succeeds_when_all_published (Sim.outside Sim.productive)
           "bucket/ligand.smi" "bucket/1abc.pdb" "bucket/box.txt" "results"
           Sim.ready).
  - intros p n H. each_deliverable H; in_events.
  - apply no_refused_upload. vm_compute. reflexivity.
Defined.

Lemma run_job_partial_success_witness :
  exists s f,
    res (Sim.job Sim.picky)
      = Ok {| status := "partial_success"; outputs := s;
              failed_files := Some f |}
    /\ In "pose.sdf" f
    /\ (forall p' n', In (p', n') deliverables ->
          (In (Exists p' false) (events (Sim.job Sim.picky)) /\ In n' f)
          \/ (In (Exists p' true) (events (Sim.job Sim.picky))
              /\ In (Upload p' "results" n' false) (events (Sim.job Sim.picky))
              /\ In n' f)
          \/ (In (Exists p' true) (events (Sim.job Sim.picky))
              /\ In (Upload p' "results" n' true) (events (Sim.job Sim.picky))
              /\ In n' s)).
Proof.
  apply (run_job_partial_success (Sim.outside Sim.picky)
           "bucket/ligand.smi" "bucket/1abc.pdb" "bucket/box.txt" "results"
           Sim.ready "/tmp/pose.sdf" "pose.sdf").
  - cbn. auto.
  - right. in_events.
Defined.

Lemma ligand_failure_aborts_job_witness :
  (exists msg, res (Sim.job Sim.no_scrub) = Raise (RuntimeError msg))
  /\ (forall c, In c (exec_commands (events (Sim.job Sim.no_scrub))) ->
        ligand_tool c = true).
Proof.
  apply (ligand_failure_aborts_job (Sim.outside Sim.no_scrub)
           "bucket/ligand.smi" "bucket/1abc.pdb" "bucket/box.txt" "results"
           Sim.ready (scrub_command "CCO" "/tmp/ligand_with_protomers.sdf")
           None (Exited 2 (Ok (EmptyString, "scrub failed")))).
  - in_events.
  - reflexivity.
  - reflexivity.
Defined.

(** ** Text lemmas *)

Section Text.

Local Arguments String.append : simpl nomatch.

Lemma append_empty_r s : s +:+ EmptyString = s.
Proof. induction s as [|c s IH]; cbn; [reflexivity|now rewrite IH]. Qed.

Lemma append_assoc a b c : (a +:+ b) +:+ c = a +:+ (b +:+ c).
Proof. induction a as [|x a IH]; cbn; [reflexivity|now rewrite IH]. Qed.

Lemma is_empty_true s : Py.is_empty s = true -> s = EmptyString.
Proof. now destruct s. Qed.

Lemma writelines_cons l ls :
  Py.writelines (l :: ls) = l +:+ Py.writelines ls.
Proof. reflexivity. Qed.

Lemma writelines_readlines s : Py.writelines (Py.readlines s) = s.
Proof.
  induction s as [|c s IH]; [reflexivity|].
  cbn [Py.readlines]. destruct (Py.is_newline c).
  - rewrite writelines_cons, IH. reflexivity.
  - destruct (Py.readlines s) as [|l ls].
    + rewrite <- IH. reflexivity.
    + rewrite writelines_cons in *. rewrite <- IH. reflexivity.
Qed.

Lemma rstrip_append_nl s : Py.rstrip (s +:+ Py.nl) = Py.rstrip s.
Proof.
  induction s as [|c s IH]; cbn; [reflexivity|]. now rewrite IH.
Qed.

Lemma contains_nonspace s :
  Py.contains "CRYST1" s = true -> has_nonspace s = true.
Proof.
  induction s as [|c s IH]; cbn; [discriminate|].
  intros H. apply orb_true_iff in H as [H|H].
  - destruct (Ascii.eqb_spec "C" c) as [<-|Hc]; [reflexivity|].
    destruct c as [[] [] [] [] [] [] [] []]; cbn in H; try discriminate H.
    now contradiction Hc.
  - rewrite (IH H). apply orb_true_r.
Qed.

Lemma has_nonspace_rstrip s : has_nonspace (Py.rstrip s) = has_nonspace s.
Proof.
  induction s as [|c s IH]; [reflexivity|].
  cbn [Py.rstrip has_nonspace]. cbv zeta. rewrite <- IH.
  destruct (Py.rstrip s) as [|c' r]; cbn [Py.is_empty andb].
  - destruct (Py.isspace c) eqn:Ec; cbn [has_nonspace]; rewrite ?Ec; reflexivity.
  - reflexivity.
Qed.

Lemma lstrip_nonempty s :
  has_nonspace s = true -> Py.is_empty (Py.lstrip s) = false.
Proof.
  induction s as [|c s IH]; cbn; [discriminate|].
  destruct (Py.isspace c); cbn; auto.
Qed.

Lemma strip_nonempty s :
  has_nonspace s = true -> Py.is_empty (Py.strip s) = false.
Proof.
  intros H. apply lstrip_nonempty. now rewrite has_nonspace_rstrip.
Qed.

Lemma has_newline_lstrip s :
  has_newline s = false -> has_newline (Py.lstrip s) = false.
Proof.
  induction s as [|c s IH]; cbn; [reflexivity|].
  intros H. apply orb_false_iff in H as [Hc Hs].
  destruct (Py.isspace c); cbn; [auto|]. now rewrite Hc, Hs.
Qed.

Lemma has_newline_rstrip s :
  has_newline s = false -> has_newline (Py.rstrip s) = false.
Proof.
  induction s as [|c s IH]; cbn; [reflexivity|].
  intros H. apply orb_false_iff in H as [Hc Hs].
  destruct (_ && _); cbn; [reflexivity|]. now rewrite Hc, IH.
Qed.

Lemma has_newline_strip s :
  has_newline s = false -> has_newline (Py.strip s) = false.
Proof. intros H. now apply has_newline_lstrip, has_newline_rstrip. Qed.

Lemma chomp_readlines s l :
  In l (Py.readlines s) -> has_newline (Py.chomp l) = false.
Proof.
  revert l. induction s as [|c s IH]; cbn [Py.readlines]; [intros l []|].
  destruct (Py.is_newline c) eqn:Ec.
  - intros l [<-|Hl]; [|auto].
    cbn [Py.chomp Py.is_empty]. rewrite Ec. reflexivity.
  - destruct (Py.readlines s) as [|l0 ls].
    + intros l [<-|[]].
      cbn [Py.chomp Py.is_empty has_newline]. rewrite Ec. cbn [andb has_newline].
      rewrite Ec. reflexivity.
    + intros l [<-|Hl].
      * cbn [Py.chomp]. rewrite Ec. cbn [andb has_newline]. rewrite Ec.
        cbn [orb]. apply IH. now left.
      * apply IH. now right.
Qed.

Lemma text_lines_newline_free text l :
  In l (Grep.text_lines text) -> has_newline l = false.
Proof.
  unfold Grep.text_lines. intros H. apply in_map_iff in H as (l0 & <- & H0).
  eapply chomp_readlines, H0.
Qed.

Lemma string_pair_ind (P : string -> Prop) :
  P EmptyString ->
  (forall c, P (String c EmptyString)) ->
  (forall c c' s, P s -> P (String c' s) -> P (String c (String c' s))) ->
  forall s, P s.
Proof.
  intros H0 H1 H2.
  assert (H : forall s, P s /\ forall c, P (String c s)).
  { induction s as [|c s [IH1 IH2]]; split; auto. }
  intros s. apply H.
Qed.

Lemma universal_newlines_plain s :
  has_return s = false -> Py.universal_newlines s = s.
Proof.
  unfold has_return. induction s as [|c s IH]; [reflexivity|].
  cbn [Py.has_char Py.universal_newlines]. unfold Py.is_return.
  intros H. apply orb_false_iff in H as [Hc Hs]. rewrite Hc, (IH Hs).
  reflexivity.
Qed.

Lemma isspace_return c : Py.is_return c = true -> Py.isspace c = true.
Proof. unfold Py.is_return. intros H. apply Ascii.eqb_eq in H. now subst. Qed.

Lemma isspace_newline c : Py.is_newline c = true -> Py.isspace c = true.
Proof. unfold Py.is_newline. intros H. apply Ascii.eqb_eq in H. now subst. Qed.

Lemma has_nonspace_universal_newlines s :
  has_nonspace (Py.universal_newlines s) = has_nonspace s.
Proof.
  induction s as [|c|c c' s IH1 IH2] using string_pair_ind.
  - reflexivity.
  - cbn. destruct (Py.is_return c) eqn:E; [|reflexivity].
    cbn. now rewrite (isspace_return c E).
  - cbn [Py.universal_newlines] in *.
    destruct (Py.is_return c) eqn:E.
    + cbn [has_nonspace]. rewrite (isspace_return c E).
      change (Py.isspace "010") with true. cbn [negb orb].
      destruct (Py.is_newline c') eqn:E'.
      * rewrite (isspace_newline c' E'). cbn [negb orb]. exact IH1.
      * exact IH2.
    + cbn [has_nonspace]. now rewrite IH2.
Qed.

Lemma has_nonspace_append_nl s : has_nonspace (s +:+ Py.nl) = has_nonspace s.
Proof.
  induction s as [|c s IH]; [reflexivity|].
  change (has_nonspace (String c (s +:+ Py.nl)) = has_nonspace (String c s)).
  cbn [has_nonspace]. now rewrite IH.
Qed.

Lemma has_return_append_nl s : has_return (s +:+ Py.nl) = has_return s.
Proof.
  unfold has_return. induction s as [|c s IH]; [reflexivity|].
  change (Py.has_char "013" (String c (s +:+ Py.nl))
          = Py.has_char "013" (String c s)).
  cbn [Py.has_char]. now rewrite IH.
Qed.

Lemma first_line_append a b :
  has_newline a = false -> first_line (a +:+ Py.nl +:+ b) = a.
Proof.
  induction a as [|c a IH]; [reflexivity|].
  cbn [has_newline]. intros H. apply orb_false_iff in H as [Hc Ha].
  change (first_line (String c (a +:+ Py.nl +:+ b)) = String c a).
  cbn [first_line]. now rewrite Hc, IH.
Qed.

End Text.

(** ** The crystallographic-record merge *)

Section Merge.

Context {X : Type} (O : Outside X).

(** The merge up to the point where the atom file is opened, when the
    probe came back. *)
Lemma extract_and_combine_probe receptor receptor_atoms w probe :
  completed (shell O (grep_command receptor) None w).1 = Ok probe ->
  extract_and_combine_cryst1 O receptor receptor_atoms w =
    prepend
      [Print "Extracting CRYST1 and combining with receptor atoms...";
       Exec (grep_command receptor) None (shell O (grep_command receptor) None w).1;
       Print (stdout probe)]
      (bind (open_read O receptor_atoms)
         (fun receptor_f =>
            bind (open_write O "/tmp/receptor_cryst1.pdb")
              (fun combined_f =>
                 bind (try_except (readlines receptor_f)
                         (fun e =>
                            bind (close_write combined_f
                                    (if Py.is_empty (Py.strip (stdout probe))
                                     then EmptyString
                                     else Py.strip (stdout probe) +:+ Py.nl))
                              (fun _ => raise e)))
                   (fun lines =>
                      bind (close_write combined_f
                              ((if Py.is_empty (Py.strip (stdout probe))
                                then EmptyString
                                else Py.strip (stdout probe) +:+ Py.nl)
                               +:+ Py.writelines lines))
                        (fun _ =>
                           bind (print "Combined receptor file created: {output_path}")
                             (fun _ => ret "/tmp/receptor_cryst1.pdb")))))
         (with_disk w (shell O (grep_command receptor) None w).2)).
Proof.
  intros Hc. unfold extract_and_combine_cryst1. cbv zeta.
  step. rewrite (bind_eq (run_command _ _ _ _)), run_command_eq.
  cbv zeta. rewrite Hc. cbn [andb]. prims. reflexivity.
Qed.

(** The merge from there on, when both files open: what is read of the
    atom file once the output file has been emptied decides. *)
Lemma extract_and_combine_files receptor receptor_atoms w probe
    atoms_f combined_f :
  let w1 := with_disk w (shell O (grep_command receptor) None w).2 in
  let written := if Py.is_empty (Py.strip (stdout probe)) then EmptyString
                 else Py.strip (stdout probe) +:+ Py.nl in
  let emptied := put combined_f (Ok EmptyString) (files (disk w1)) in
  completed (shell O (grep_command receptor) None w).1 = Ok probe ->
  builtin_open O receptor_atoms "r" w1 = Ok atoms_f ->
  builtin_open O "/tmp/receptor_cryst1.pdb" "w" w1 = Ok combined_f ->
  res (extract_and_combine_cryst1 O receptor receptor_atoms w)
    = match emptied atoms_f with
      | Ok text => Ok "/tmp/receptor_cryst1.pdb"
      | Raise e => Raise e
      end
  /\ files (disk (world (extract_and_combine_cryst1 O receptor receptor_atoms w)))
     = put combined_f
         (Ok match emptied atoms_f with
             | Ok text => written +:+ Py.universal_newlines text
             | Raise _ => written
             end)
         emptied
  /\ exec_commands (events (extract_and_combine_cryst1 O receptor receptor_atoms w))
     = [grep_command receptor].
Proof.
  intros w1 written emptied Hc Ha Ho.
  rewrite (extract_and_combine_probe _ _ _ _ Hc).
  fold w1. fold written.
  rewrite bind_eq, open_read_eq, Ha. prims.
  rewrite bind_eq, open_write_eq, Ho. prims.
  rewrite bind_eq, try_eq, readlines_eq. prims. cbn [files]. fold emptied.
  destruct (emptied atoms_f) as [text|e]; prims.
  - do 2 step. cbn [files]. rewrite writelines_readlines. repeat split.
  - step. cbn [files]. repeat split.
Qed.

End Merge.

(** C5, as the code has it. Let [grep] answer as the tool does on the
    raw file, touching nothing, and let the atom path open to another
    file than the output path does. Then the merge returns its output
    path and leaves a file there. If no line of the raw file contains
    [CRYST1], the file holds the atom text with its line ends read as
    [LF], which is the atom text unchanged when it has no carriage
    return. If exactly one line does, the file holds that line as it is
    read, with the white space at its two ends stripped, a newline, and
    the atom text; when the line has no carriage return the first line of
    the file is the stripped line. *)
Theorem cryst1_merge {X} (O : Outside X)
    receptor receptor_atoms w raw_f raw atoms_f combined_f atoms code err :
  builtin_open O receptor "r" w = Ok raw_f ->
  files (disk w) raw_f = Ok raw ->
  shell O (grep_command receptor) None w
    = (Exited code (Ok (Py.universal_newlines (Grep.stdout "CRYST1" raw), err)),
       disk w) ->
  builtin_open O receptor_atoms "r" w = Ok atoms_f ->
  builtin_open O "/tmp/receptor_cryst1.pdb" "w" w = Ok combined_f ->
  atoms_f <> combined_f ->
  files (disk w) atoms_f = Ok atoms ->
  res (extract_and_combine_cryst1 O receptor receptor_atoms w)
    = Ok "/tmp/receptor_cryst1.pdb"
  /\ exists merged,
       files (disk (world (extract_and_combine_cryst1 O receptor receptor_atoms w)))
         combined_f = Ok merged
       /\ (Grep.selected "CRYST1" raw = [] ->
           merged = Py.universal_newlines atoms
           /\ (has_return atoms = false -> merged = atoms))
       /\ (forall line, Grep.selected "CRYST1" raw = [line] ->
             merged = Py.strip (Py.universal_newlines (line +:+ Py.nl))
                        +:+ Py.nl +:+ Py.universal_newlines atoms
             /\ (has_return line = false ->
                 merged = Py.strip line +:+ Py.nl +:+ Py.universal_newlines atoms
                 /\ first_line merged = Py.strip line)).
Proof.
  intros _ _ Hsh Ha Ho Hne Ht.
  assert (Hc : completed (shell O (grep_command receptor) None w).1
               = Ok (mkCompleted code
                       (Py.universal_newlines (Grep.stdout "CRYST1" raw)) err))
    by (rewrite Hsh; reflexivity).
  destruct (extract_and_combine_files O receptor receptor_atoms w _
              atoms_f combined_f Hc) as (Hr & Hf & _);
    rewrite ?Hsh; cbn [snd]; rewrite ?with_disk_disk; auto.
  rewrite Hsh in Hr, Hf. cbn [snd] in Hr, Hf.
  rewrite with_disk_disk in Hr, Hf.
  rewrite put_ne in Hr, Hf by exact Hne. rewrite Ht in Hr, Hf.
  split; [exact Hr|]. eexists. split; [rewrite Hf, put_eq; reflexivity|].
  cbn [stdout]. split.
  - intros Hs. unfold Grep.stdout. rewrite Hs. split; [reflexivity|].
    intros Hp. cbn. now rewrite universal_newlines_plain.
  - intros line Hs.
    assert (Hin : In line (Grep.selected "CRYST1" raw)) by (rewrite Hs; now left).
    apply filter_In in Hin as [Hl Hcn].
    unfold Grep.stdout. rewrite Hs. cbn [map]. rewrite writelines_cons.
    change (Py.writelines []) with EmptyString. rewrite append_empty_r.
    rewrite (strip_nonempty (Py.universal_newlines (line +:+ Py.nl)))
      by (rewrite has_nonspace_universal_newlines, has_nonspace_append_nl;
          now apply contains_nonspace).
    rewrite append_assoc. split; [reflexivity|].
    intros Hp.
    rewrite (universal_newlines_plain (line +:+ Py.nl))
      by now rewrite has_return_append_nl.
    assert (Hst : Py.strip (line +:+ Py.nl) = Py.strip line)
      by (unfold Py.strip; now rewrite rstrip_append_nl).
    rewrite Hst. split; [reflexivity|].
    apply first_line_append, has_newline_strip.
    eapply text_lines_newline_free, Hl.
Qed.

Lemma cryst1_merge_witness :
  res (extract_and_combine_cryst1 (Sim.outside Sim.posix) "/tmp/1abc.pdb"
         "/tmp/receptor_atoms.pdb" Sim.fetched)
    = Ok "/tmp/receptor_cryst1.pdb"
  /\ exists merged,
       files (disk (world (extract_and_combine_cryst1 (Sim.outside Sim.posix)
                             "/tmp/1abc.pdb" "/tmp/receptor_atoms.pdb"
                             Sim.fetched)))
         "/tmp/receptor_cryst1.pdb" = Ok merged
       /\ (Grep.selected "CRYST1" Sim.raw_pdb = [] ->
           merged = Py.universal_newlines Sim.atoms_pdb
           /\ (has_return Sim.atoms_pdb = false -> merged = Sim.atoms_pdb))
       /\ (forall line, Grep.selected "CRYST1" Sim.raw_pdb = [line] ->
             merged = Py.strip (Py.universal_newlines (line +:+ Py.nl))
                        +:+ Py.nl +:+ Py.universal_newlines Sim.atoms_pdb
             /\ (has_return line = false ->
                 merged = Py.strip line +:+ Py.nl
                            +:+ Py.universal_newlines Sim.atoms_pdb
                 /\ first_line merged = Py.strip line)).
Proof.
  apply (cryst1_merge (Sim.outside Sim.posix) "/tmp/1abc.pdb"
           "/tmp/receptor_atoms.pdb" Sim.fetched "/tmp/1abc.pdb" Sim.raw_pdb
           "/tmp/receptor_atoms.pdb" "/tmp/receptor_cryst1.pdb" Sim.atoms_pdb
           0%N EmptyString).
  - reflexivity.
  - reflexivity.
  - vm_compute. reflexivity.
  - reflexivity.
  - reflexivity.
  - discriminate.
  - reflexivity.
Defined.

(** C5 as stated fails, in both halves. The raw file has one unit-cell
    record, padded to 80 columns as the format prescribes, and the first
    line of the merged file is that record without its padding, not the
    record. And with a raw file without such a record and an atom file
    whose lines end in [CR LF], the merged file is not the atom file
    unchanged: its lines end in [LF]. *)
Lemma cryst1_first_line_is_not_the_record :
  (Grep.selected "CRYST1" Sim.raw_pdb = [Sim.cryst1_record]
   /\ files (disk (world (extract_and_combine_cryst1 (Sim.outside Sim.posix)
                            "/tmp/1abc.pdb" "/tmp/receptor_atoms.pdb"
                            Sim.fetched)))
        "/tmp/receptor_cryst1.pdb"
      = Ok (Py.strip Sim.cryst1_record +:+ Py.nl +:+ Sim.atoms_pdb)
   /\ first_line (Py.strip Sim.cryst1_record +:+ Py.nl +:+ Sim.atoms_pdb)
      = Py.strip Sim.cryst1_record
   /\ Py.strip Sim.cryst1_record <> Sim.cryst1_record)
  /\ (Grep.selected "CRYST1" Sim.atoms_pdb = []
      /\ files (disk Sim.carriage) "/tmp/1abc.pdb" = Ok Sim.atoms_pdb
      /\ files (disk Sim.carriage) "/tmp/receptor_atoms.pdb" = Ok Sim.dos_atoms
      /\ files (disk (world (extract_and_combine_cryst1 (Sim.outside Sim.posix)
                               "/tmp/1abc.pdb" "/tmp/receptor_atoms.pdb"
                               Sim.carriage)))
           "/tmp/receptor_cryst1.pdb"
         = Ok ("ATOM" +:+ Py.nl +:+ "END" +:+ Py.nl)
      /\ "ATOM" +:+ Py.nl +:+ "END" +:+ Py.nl <> Sim.dos_atoms).
Proof.
  split.
  - split; [vm_compute; reflexivity|]. split; [vm_compute; reflexivity|].
    split; [vm_compute; reflexivity|]. vm_compute. discriminate.
  - split; [vm_compute; reflexivity|]. split; [vm_compute; reflexivity|].
    split; [vm_compute; reflexivity|]. split; [vm_compute; reflexivity|].
    vm_compute. discriminate.
Qed.

(** Without a unit-cell record the atom text is copied as it is. *)
Example cryst1_absent :
  files (disk (world (extract_and_combine_cryst1 (Sim.outside Sim.posix)
                        "/tmp/receptor_atoms.pdb" "/tmp/receptor_atoms.pdb"
                        Sim.fetched)))
    "/tmp/receptor_cryst1.pdb"
  = Ok Sim.atoms_pdb.
Proof. vm_compute. reflexivity. Qed.

(** * Further properties of the module *)

(** ** Fetching the inputs *)

Section Fetch.

Context {X : Type} (O : Outside X).

Lemma download_eq remote w :
  download O remote w =
    mkRun (download_from_gcs O remote w).1
          (with_disk w (download_from_gcs O remote w).2)
          [Download remote (download_from_gcs O remote w).1].
Proof. unfold download. now destruct (download_from_gcs O remote w). Qed.

Lemma retrieve_loop_ok remote_paths local_files w paths :
  res (retrieve_loop O remote_paths local_files w) = Ok paths ->
  exists locals,
    paths = local_files ++ locals
    /\ length locals = length remote_paths
    /\ events (retrieve_loop O remote_paths local_files w)
       = map fetched (combine remote_paths locals).
Proof.
  revert local_files w. induction remote_paths as [|r rest IH]; intros acc w.
  - cbn. intros [= <-]. exists []. now rewrite app_nil_r.
  - cbn [retrieve_loop]. rewrite bind_eq, download_eq. prims.
    destruct (download_from_gcs O r w) as [[l|e] d]; prims; [|discriminate].
    intros H. destruct (IH _ _ H) as (locals & -> & Hlen & Hev).
    exists (l :: locals). rewrite <- app_assoc. cbn. rewrite Hlen, Hev.
    repeat split.
Qed.

Lemma retrieve_loop_raise remote_paths local_files w e :
  res (retrieve_loop O remote_paths local_files w) = Raise e ->
  exists before r rest locals,
    remote_paths = before ++ r :: rest
    /\ length locals = length before
    /\ events (retrieve_loop O remote_paths local_files w)
       = map fetched (combine before locals) ++ [Download r (Raise e)].
Proof.
  revert local_files w. induction remote_paths as [|r rest IH]; intros acc w.
  - cbn. discriminate.
  - cbn [retrieve_loop]. rewrite bind_eq, download_eq. prims.
    destruct (download_from_gcs O r w) as [[l|e'] d]; prims.
    + intros H.
      destruct (IH _ _ H) as (before & r' & rest' & locals & -> & Hlen & Hev).
      exists (r :: before), r', rest', (l :: locals). cbn.
      rewrite Hlen, Hev. repeat split.
    + intros [= ->]. exists [], r, rest, []. repeat split.
Qed.

End Fetch.

(** X1. When [retrieve_gcs_files] returns, it has asked for every remote
    path exactly once, in the order given and for nothing else, and the
    list it returns holds the answers of the storage client in that same
    order: as many local paths as there were remote ones. *)
Theorem retrieve_gcs_files_in_order {X} (O : Outside X) remote_paths w locals :
  res (retrieve_gcs_files O remote_paths w) = Ok locals ->
  length locals = length remote_paths
  /\ events (retrieve_gcs_files O remote_paths w)
     = map fetched (combine remote_paths locals).
Proof.
  intros H. destruct (retrieve_loop_ok O _ _ _ _ H) as (l & -> & Hlen & Hev).
  split; [exact Hlen|exact Hev].
Qed.

Lemma retrieve_gcs_files_in_order_witness :
  length ["/tmp/ligand.smi"; "/tmp/1abc.pdb"] = length ["b/ligand.smi"; "b/1abc.pdb"]
  /\ events (retrieve_gcs_files (Sim.outside Sim.calm)
               ["b/ligand.smi"; "b/1abc.pdb"] Sim.ready)
     = map fetched (combine ["b/ligand.smi"; "b/1abc.pdb"]
                      ["/tmp/ligand.smi"; "/tmp/1abc.pdb"]).
Proof.
  apply (retrieve_gcs_files_in_order (Sim.outside Sim.calm)
           ["b/ligand.smi"; "b/1abc.pdb"] Sim.ready).
  vm_compute. reflexivity.
Defined.

(** X2. A download that raises ends [retrieve_gcs_files] at once: the
    exception goes to the caller unchanged, the paths before the failing
    one have been fetched in order, and none of the paths after it is
    asked for. *)
Theorem retrieve_gcs_files_stops_at_failure {X} (O : Outside X)
    remote_paths w e :
  res (retrieve_gcs_files O remote_paths w) = Raise e ->
  exists before r rest locals,
    remote_paths = before ++ r :: rest
    /\ length locals = length before
    /\ events (retrieve_gcs_files O remote_paths w)
       = map fetched (combine before locals) ++ [Download r (Raise e)].
Proof. apply retrieve_loop_raise. Qed.

Lemma retrieve_gcs_files_stops_at_failure_witness :
  exists before r rest locals,
    ["b/ligand.smi"; "b/1abc.pdb"; "b/box.txt"] = before ++ r :: rest
    /\ length locals = length before
    /\ events (retrieve_gcs_files (Sim.outside Sim.patchy)
                 ["b/ligand.smi"; "b/1abc.pdb"; "b/box.txt"] Sim.ready)
       = map fetched (combine before locals)
         ++ [Download r (Raise (OSError "download failed: b/1abc.pdb"))].
Proof.
  apply (retrieve_gcs_files_stops_at_failure (Sim.outside Sim.patchy)
           ["b/ligand.smi"; "b/1abc.pdb"; "b/box.txt"] Sim.ready).
  vm_compute. reflexivity.
Defined.

(** ** Reading the ligand descriptor *)

Section Protomers.

Context {X : Type} (O : Outside X).

Lemma add_protomers_unreadable ligand w e :
  builtin_open O ligand "r" w = Raise e
  \/ (exists file,
        builtin_open O ligand "r" w = Ok file
        /\ files (disk w) file = Raise e) ->
  exists r,
    add_protomers O ligand w =
      mkRun (Raise (RuntimeError ("Failed to read SMILES file " +:+ ligand
                                    +:+ ": " +:+ str_exn e)))
            w [Open ligand "r" r].
Proof.
  intros H. unfold add_protomers. cbv zeta.
  rewrite bind_eq, try_eq, bind_eq, open_read_eq.
  destruct H as [H|(file & H & Hf)]; rewrite H; prims.
  - eexists. reflexivity.
  - rewrite bind_eq. prims. rewrite Hf. prims. eexists. reflexivity.
Qed.

Lemma add_protomers_readable ligand w file text :
  builtin_open O ligand "r" w = Ok file ->
  files (disk w) file = Ok text ->
  add_protomers O ligand w =
    prepend [Open ligand "r" (Ok file)]
      (bind (run_command O
               (scrub_command (Py.strip (Py.universal_newlines text))
                  "/tmp/ligand_with_protomers.sdf") true None)
            (fun _ => ret "/tmp/ligand_with_protomers.sdf") w).
Proof.
  intros H Hf. unfold add_protomers. cbv zeta.
  rewrite (bind_eq (try_except _ _)), try_eq, bind_eq, open_read_eq, H. prims.
  rewrite bind_eq. prims. rewrite Hf. reflexivity.
Qed.

End Protomers.

(** X3. When the descriptor file cannot be opened, or cannot be read once
    it is open, [add_protomers] raises a [RuntimeError] whose message
    names the path it was given and quotes the text of the cause,
    whatever that is, without running any command and without touching
    the world. *)
Theorem add_protomers_unreadable_file {X} (O : Outside X) ligand w e :
  builtin_open O ligand "r" w = Raise e
  \/ (exists file,
        builtin_open O ligand "r" w = Ok file
        /\ files (disk w) file = Raise e) ->
  res (add_protomers O ligand w)
    = Raise (RuntimeError
               ("Failed to read SMILES file " +:+ ligand +:+ ": " +:+ str_exn e))
  /\ exec_commands (events (add_protomers O ligand w)) = []
  /\ world (add_protomers O ligand w) = w.
Proof.
  intros H. destruct (add_protomers_unreadable O ligand w e H) as [r ->].
  repeat split.
Qed.

Lemma add_protomers_unreadable_file_witness :
  res (add_protomers (Sim.outside Sim.calm) "/tmp/none.smi" Sim.ready)
    = Raise (RuntimeError
               ("Failed to read SMILES file /tmp/none.smi: "
                  +:+ str_exn (Sim.no_such_file "/tmp/none.smi")))
  /\ exec_commands (events (add_protomers (Sim.outside Sim.calm) "/tmp/none.smi"
                              Sim.ready)) = []
  /\ world (add_protomers (Sim.outside Sim.calm) "/tmp/none.smi" Sim.ready)
     = Sim.ready.
Proof.
  apply (add_protomers_unreadable_file (Sim.outside Sim.calm) "/tmp/none.smi"
           Sim.ready (Sim.no_such_file "/tmp/none.smi")).
  left. reflexivity.
Defined.

(** The message for three causes: a missing file, a missing file with an
    apostrophe in its name, which [repr] then puts in double quotes, and
    a directory. *)
Example add_protomers_messages :
  res (add_protomers (Sim.outside Sim.calm) "/tmp/none.smi" Sim.ready)
    = Raise (RuntimeError
               "Failed to read SMILES file /tmp/none.smi: [Errno 2] No such file or directory: '/tmp/none.smi'")
  /\ res (add_protomers (Sim.outside Sim.calm) "/tmp/it's.smi" Sim.ready)
     = Raise (RuntimeError
                ("Failed to read SMILES file /tmp/it's.smi: [Errno 2] No such file or directory: "
                   +:+ Py.dquote +:+ "/tmp/it's.smi" +:+ Py.dquote))
  /\ res (add_protomers (Sim.outside Sim.cluttered) "/tmp/dir" Sim.ready)
     = Raise (RuntimeError
                "Failed to read SMILES file /tmp/dir: [Errno 21] Is a directory: '/tmp/dir'").
Proof. repeat split. Qed.

(** X4. When the descriptor file opens and decodes, [add_protomers] runs
    exactly one command, [scrub.py] on the text of the file as it is
    read, with the white space at both ends stripped, writing to the
    fixed protomer file; it returns that fixed path if the command comes
    back with status 0, raises the [CalledProcessError] of the command if
    it comes back with another status, and raises what [subprocess.run]
    raised if it does not come back. *)
Theorem add_protomers_scrubs_stripped_text {X} (O : Outside X)
    ligand w file text :
  builtin_open O ligand "r" w = Ok file ->
  files (disk w) file = Ok text ->
  let command :=
    scrub_command (Py.strip (Py.universal_newlines text))
      "/tmp/ligand_with_protomers.sdf" in
  exec_commands (events (add_protomers O ligand w)) = [command]
  /\ res (add_protomers O ligand w)
     = match completed (shell O command None w).1 with
       | Ok done =>
           if (returncode done =? 0)%N then Ok "/tmp/ligand_with_protomers.sdf"
           else Raise (CalledProcessError command (returncode done)
                         (stdout done) (stderr done))
       | Raise e => Raise e
       end.
Proof.
  intros H Hf command. rewrite (add_protomers_readable O ligand w file text H Hf).
  rewrite bind_eq, run_command_eq. cbv zeta. fold command.
  destruct (completed _) as [done|e].
  - cbn [andb]. destruct (returncode done =? 0)%N; split; reflexivity.
  - destruct e; split; reflexivity.
Qed.

Lemma add_protomers_scrubs_stripped_text_witness :
  exec_commands (events (add_protomers (Sim.outside Sim.calm) "/tmp/ligand.smi"
                           Sim.ready))
    = [scrub_command "CCO" "/tmp/ligand_with_protomers.sdf"]
  /\ res (add_protomers (Sim.outside Sim.calm) "/tmp/ligand.smi" Sim.ready)
     = Ok "/tmp/ligand_with_protomers.sdf".
Proof.
  apply (add_protomers_scrubs_stripped_text (Sim.outside Sim.calm)
           "/tmp/ligand.smi" Sim.ready "/tmp/ligand.smi" ("CCO" +:+ Py.nl)).
  - reflexivity.
  - reflexivity.
Defined.

(** ** More on the crystallographic-record merge *)

(** X5. The [grep] probe is run unchecked. Whatever its exit status, as
    long as it leaves the disk alone, its output decodes and the atom
    path opens to a file that is not the one the output path opens to,
    [extract_and_combine_cryst1] returns the fixed output path, has run
    that one command only, has written the stripped output of the probe
    (when it is not empty) followed by the atom text, its line ends read
    as [LF], to the output file, and has left the atom file as it was. *)
Theorem merge_tolerates_any_probe_status {X} (O : Outside X)
    receptor receptor_atoms w code out err atoms_f combined_f atoms :
  shell O (grep_command receptor) None w
    = (Exited code (Ok (out, err)), disk w) ->
  builtin_open O receptor_atoms "r" w = Ok atoms_f ->
  builtin_open O "/tmp/receptor_cryst1.pdb" "w" w = Ok combined_f ->
  atoms_f <> combined_f ->
  files (disk w) atoms_f = Ok atoms ->
  res (extract_and_combine_cryst1 O receptor receptor_atoms w)
    = Ok "/tmp/receptor_cryst1.pdb"
  /\ exec_commands (events (extract_and_combine_cryst1 O receptor receptor_atoms w))
     = [grep_command receptor]
  /\ files (disk (world (extract_and_combine_cryst1 O receptor receptor_atoms w)))
       combined_f
     = Ok ((if Py.is_empty (Py.strip out) then EmptyString
            else Py.strip out +:+ Py.nl) +:+ Py.universal_newlines atoms)
  /\ files (disk (world (extract_and_combine_cryst1 O receptor receptor_atoms w)))
       atoms_f
     = Ok atoms.
Proof.
  intros Hsh Ha Ho Hne Ht.
  assert (Hc : completed (shell O (grep_command receptor) None w).1
               = Ok (mkCompleted code out err)) by (rewrite Hsh; reflexivity).
  destruct (extract_and_combine_files O receptor receptor_atoms w _
              atoms_f combined_f Hc) as (Hr & Hf & Hx);
    rewrite ?Hsh; cbn [snd]; rewrite ?with_disk_disk; auto.
  rewrite Hsh in Hr, Hf. cbn [snd] in Hr, Hf.
  rewrite with_disk_disk in Hr, Hf.
  rewrite put_ne in Hr, Hf by exact Hne. rewrite Ht in Hr, Hf.
  split; [exact Hr|]. split; [exact Hx|]. rewrite Hf. split.
  - rewrite put_eq. reflexivity.
  - rewrite !put_ne by exact Hne. exact Ht.
Qed.

Lemma merge_tolerates_any_probe_status_witness :
  res (extract_and_combine_cryst1 (Sim.outside Sim.broken) "/tmp/1abc.pdb"
         "/tmp/receptor_atoms.pdb" Sim.fetched)
    = Ok "/tmp/receptor_cryst1.pdb"
  /\ exec_commands
       (events (extract_and_combine_cryst1 (Sim.outside Sim.broken)
                  "/tmp/1abc.pdb" "/tmp/receptor_atoms.pdb" Sim.fetched))
     = [grep_command "/tmp/1abc.pdb"]
  /\ files (disk (world (extract_and_combine_cryst1 (Sim.outside Sim.broken)
                          "/tmp/1abc.pdb" "/tmp/receptor_atoms.pdb" Sim.fetched)))
       "/tmp/receptor_cryst1.pdb"
     = Ok ((if Py.is_empty (Py.strip EmptyString) then EmptyString
            else Py.strip EmptyString +:+ Py.nl)
           +:+ Py.universal_newlines Sim.atoms_pdb)
  /\ files (disk (world (extract_and_combine_cryst1 (Sim.outside Sim.broken)
                          "/tmp/1abc.pdb" "/tmp/receptor_atoms.pdb" Sim.fetched)))
       "/tmp/receptor_atoms.pdb"
     = Ok Sim.atoms_pdb.
Proof.
  apply (merge_tolerates_any_probe_status (Sim.outside Sim.broken)
           "/tmp/1abc.pdb" "/tmp/receptor_atoms.pdb" Sim.fetched
           1%N EmptyString "boom" "/tmp/receptor_atoms.pdb"
           "/tmp/receptor_cryst1.pdb" Sim.atoms_pdb).
  - reflexivity.
  - reflexivity.
  - reflexivity.
  - discriminate.
  - reflexivity.
Defined.

(** X6. When the atom file cannot be opened after the probe,
    [extract_and_combine_cryst1] raises the error of the failed [open]
    (or, if the probe itself did not come back, the error of the probe)
    before the output file is opened for writing: the disk is as the
    probe left it. *)
Theorem merge_without_atom_file {X} (O : Outside X)
    receptor receptor_atoms w e :
  builtin_open O receptor_atoms "r"
    (with_disk w (shell O (grep_command receptor) None w).2) = Raise e ->
  res (extract_and_combine_cryst1 O receptor receptor_atoms w)
    = Raise match completed (shell O (grep_command receptor) None w).1 with
            | Ok _ => e
            | Raise e' => e'
            end
  /\ (forall r,
        ~ In (Open "/tmp/receptor_cryst1.pdb" "w" r)
            (events (extract_and_combine_cryst1 O receptor receptor_atoms w)))
  /\ disk (world (extract_and_combine_cryst1 O receptor receptor_atoms w))
     = (shell O (grep_command receptor) None w).2.
Proof.
  intros Hat.
  destruct (completed (shell O (grep_command receptor) None w).1)
    as [probe|e'] eqn:Hc.
  - rewrite (extract_and_combine_probe O _ _ _ _ Hc).
    rewrite bind_eq, open_read_eq, Hat. prims.
    repeat split. intros r H. cbn in H.
    repeat (destruct H as [H|H]; [discriminate H|]). exact H.
  - unfold extract_and_combine_cryst1. cbv zeta.
    step. rewrite (bind_eq (run_command _ _ _ _)), run_command_eq.
    cbv zeta. rewrite Hc. prims.
    repeat split. intros r H. cbn in H.
    destruct H as [H|[H|H]]; try discriminate H.
    destruct e'; cbn in H;
      repeat (destruct H as [H|H]; [discriminate H|]); exact H.
Qed.

Lemma merge_without_atom_file_witness :
  res (extract_and_combine_cryst1 (Sim.outside Sim.posix) "/tmp/1abc.pdb"
         "/tmp/elsewhere.pdb" Sim.fetched)
    = Raise (Sim.no_such_file "/tmp/elsewhere.pdb")
  /\ (forall r,
        ~ In (Open "/tmp/receptor_cryst1.pdb" "w" r)
            (events (extract_and_combine_cryst1 (Sim.outside Sim.posix)
                       "/tmp/1abc.pdb" "/tmp/elsewhere.pdb" Sim.fetched)))
  /\ disk (world (extract_and_combine_cryst1 (Sim.outside Sim.posix)
                    "/tmp/1abc.pdb" "/tmp/elsewhere.pdb" Sim.fetched))
     = (shell (Sim.outside Sim.posix) (grep_command "/tmp/1abc.pdb") None
          Sim.fetched).2.
Proof.
  apply (merge_without_atom_file (Sim.outside Sim.posix) "/tmp/1abc.pdb"
           "/tmp/elsewhere.pdb" Sim.fetched
           (Sim.no_such_file "/tmp/elsewhere.pdb")).
  vm_compute. reflexivity.
Defined.



(** The aliased merge, run: the file holds the stripped record and a
    newline. *)
Example merge_aliased :
  files (disk (world (extract_and_combine_cryst1 (Sim.outside Sim.posix)
                        "/tmp/1abc.pdb" "/tmp/./receptor_cryst1.pdb"
                        Sim.clobbered)))
    "/tmp/receptor_cryst1.pdb"
  = Ok (Py.strip Sim.cryst1_record +:+ Py.nl).
Proof. vm_compute. reflexivity. Qed.

(** ** More on the hydrogenation step *)

(** X8. When [add_hydrogens_and_optimize] returns, the working directory
    and the environment of the process are those it started with, and the
    reduce2 command has been run, and has come back with status 0, with a
    copy of the environment in which the monomer library points at
    [geostd] under the directory the call started in. *)
Theorem hydrogenation_restores_cwd_on_return {X} (O : Outside X)
    receptor_cryst1 w v :
  res (add_hydrogens_and_optimize O receptor_cryst1 w) = Ok v ->
  cwd (world (add_hydrogens_and_optimize O receptor_cryst1 w)) = cwd w
  /\ environ (world (add_hydrogens_and_optimize O receptor_cryst1 w)) = environ w
  /\ exists child,
       succeeded child = true
       /\ In (Exec (reduce2_command
                      (Py.os_path_join
                         (Py.os_path_join
                            (Py.os_path_join
                               "/opt/conda/envs/dwa_env/lib/python3.11/site-packages"
                               "mmtbx")
                            "command_line")
                         "reduce2.py")
                      receptor_cryst1 "approach=add add_flip_movers=True")
                   (Some (<["MMTBX_CCP4_MONOMER_LIB" :=
                              Py.os_path_join (cwd w) "geostd"]> (environ w)))
                   child)
             (events (add_hydrogens_and_optimize O receptor_cryst1 w)).
Proof.
  unfold add_hydrogens_and_optimize. cbv zeta. do 5 step.
  rewrite chdir_eq.
  destruct (os_chdir O "/tmp/" w) as [[]|e]; prims; [|discriminate].
  step. rewrite run_command_eq. cbv zeta. unfold succeeded.
  destruct (completed _) as [done|e] eqn:Ec; prims; [|discriminate].
  cbn [andb].
  destruct (returncode done =? 0)%N eqn:Ez; cbn [negb]; prims; [|discriminate].
  step. rewrite chdir_eq.
  destruct (os_chdir O (cwd w) _) as [[]|e]; prims; [|discriminate].
  step. intros _. repeat split. eexists. split; [|right; right; left; reflexivity].
  rewrite Ec. exact Ez.
Qed.

Lemma hydrogenation_restores_cwd_on_return_witness :
  cwd (world (add_hydrogens_and_optimize (Sim.outside Sim.calm)
                "/tmp/receptor_cryst1.pdb" Sim.ready)) = cwd Sim.ready
  /\ environ (world (add_hydrogens_and_optimize (Sim.outside Sim.calm)
                       "/tmp/receptor_cryst1.pdb" Sim.ready))
     = environ Sim.ready
  /\ exists child,
       succeeded child = true
       /\ In (Exec (reduce2_command
                      (Py.os_path_join
                         (Py.os_path_join
                            (Py.os_path_join
                               "/opt/conda/envs/dwa_env/lib/python3.11/site-packages"
                               "mmtbx")
                            "command_line")
                         "reduce2.py")
                      "/tmp/receptor_cryst1.pdb"
                      "approach=add add_flip_movers=True")
                   (Some (<["MMTBX_CCP4_MONOMER_LIB" :=
                              Py.os_path_join (cwd Sim.ready) "geostd"]>
                            (environ Sim.ready)))
                   child)
             (events (add_hydrogens_and_optimize (Sim.outside Sim.calm)
                        "/tmp/receptor_cryst1.pdb" Sim.ready)).
Proof.
  apply (hydrogenation_restores_cwd_on_return (Sim.outside Sim.calm)
           "/tmp/receptor_cryst1.pdb" Sim.ready "/tmp/receptor_cryst1FH.pdb").
  vm_compute. reflexivity.
Defined.

(** X9. When the scratch directory cannot be entered,
    [add_hydrogens_and_optimize] raises the error of [os.chdir] without
    having run any command, and leaves the world as it was. *)
Theorem hydrogenation_needs_the_scratch_directory {X} (O : Outside X)
    receptor_cryst1 w e :
  os_chdir O "/tmp/" w = Raise e ->
  res (add_hydrogens_and_optimize O receptor_cryst1 w) = Raise e
  /\ exec_commands (events (add_hydrogens_and_optimize O receptor_cryst1 w)) = []
  /\ world (add_hydrogens_and_optimize O receptor_cryst1 w) = w.
Proof.
  intros H. unfold add_hydrogens_and_optimize. cbv zeta. do 5 step.
  rewrite chdir_eq, H. prims. repeat split.
Qed.

Lemma hydrogenation_needs_the_scratch_directory_witness :
  res (add_hydrogens_and_optimize (Sim.outside Sim.locked_out)
         "/tmp/receptor_cryst1.pdb" Sim.ready)
    = Raise (Sim.denied "/tmp/")
  /\ exec_commands (events (add_hydrogens_and_optimize (Sim.outside Sim.locked_out)
                              "/tmp/receptor_cryst1.pdb" Sim.ready)) = []
  /\ world (add_hydrogens_and_optimize (Sim.outside Sim.locked_out)
              "/tmp/receptor_cryst1.pdb" Sim.ready) = Sim.ready.
Proof.
  apply (hydrogenation_needs_the_scratch_directory (Sim.outside Sim.locked_out)
           "/tmp/receptor_cryst1.pdb" Sim.ready (Sim.denied "/tmp/")).
  reflexivity.
Defined.

(** X10. After a call of [add_hydrogens_and_optimize] in which reduce2
    exited non-zero, or did not come back with decoded output at all, a
    further call in the same process hands every command it runs a
    monomer library under the scratch directory, [/tmp/geostd], whatever
    directory the first call started in. *)
Theorem hydrogenation_after_a_failure_looks_in_tmp {X} (O : Outside X)
    receptor_cryst1 w again command env child :
  os_chdir O "/tmp/" w = Ok tt ->
  succeeded (reduce2_call O receptor_cryst1 w).1 = false ->
  In (Exec command env child)
     (events (add_hydrogens_and_optimize O again
                (world (add_hydrogens_and_optimize O receptor_cryst1 w)))) ->
  exists variables,
    env = Some variables
    /\ variables !! "MMTBX_CCP4_MONOMER_LIB" = Some "/tmp/geostd".
Proof.
  intros Hcd Hrc.
  destruct (add_hydrogens_strands_on_failure O receptor_cryst1 w Hcd Hrc)
    as [_ Hcwd].
  set (w' := world (add_hydrogens_and_optimize O receptor_cryst1 w)) in *.
  unfold add_hydrogens_and_optimize. cbv zeta. do 5 step.
  rewrite Hcwd. rewrite chdir_eq.
  destruct (os_chdir O "/tmp/" w') as [[]|e]; prims;
    [|intros H; in_list].
  step. run_cases; prims;
    try (intros H; in_list;
         eexists; split; [reflexivity|]; now rewrite lookup_insert_eq).
  step. rewrite chdir_eq.
  match goal with |- context [os_chdir O "/tmp/" ?w2] =>
    destruct (os_chdir O "/tmp/" w2) as [[]|e] end; prims.
  - step. intros H; in_list.
    eexists; split; [reflexivity|]. now rewrite lookup_insert_eq.
  - intros H; in_list.
    eexists; split; [reflexivity|]. now rewrite lookup_insert_eq.
Qed.

Lemma hydrogenation_after_a_failure_looks_in_tmp_witness :
  exists variables,
    Some (<["MMTBX_CCP4_MONOMER_LIB" := "/tmp/geostd"]> (∅ : gmap string string))
      = Some variables
    /\ variables !! "MMTBX_CCP4_MONOMER_LIB" = Some "/tmp/geostd".
Proof.
  apply (hydrogenation_after_a_failure_looks_in_tmp (Sim.outside Sim.broken)
           "/tmp/receptor_cryst1.pdb" Sim.ready "/tmp/receptor_cryst1.pdb"
           (reduce2_command
              "/opt/conda/envs/dwa_env/lib/python3.11/site-packages/mmtbx/command_line/reduce2.py"
              "/tmp/receptor_cryst1.pdb" "approach=add add_flip_movers=True")
           (Some (<["MMTBX_CCP4_MONOMER_LIB" := "/tmp/geostd"]> ∅))
           (Exited 1 (Ok (EmptyString, "boom")))).
  - reflexivity.
  - reflexivity.
  - vm_compute. right. right. left. reflexivity.
Defined.

(** ** Runs that return *)

Section Inversion.

Context {X : Type}.

Lemma bind_ok_inv {A B} (m : M X A) (k : A -> M X B) w b :
  res (bind m k w) = Ok b ->
  exists a,
    res (m w) = Ok a
    /\ res (k a (world (m w))) = Ok b
    /\ events (bind m k w) = events (m w) ++ events (k a (world (m w)))
    /\ world (bind m k w) = world (k a (world (m w))).
Proof.
  rewrite bind_eq. destruct (res (m w)) as [a|e]; prims; [|discriminate].
  intros H. exists a. repeat split. exact H.
Qed.

Lemma try_ok_inv {A} (m : M X A) h w a :
  (forall e w', exists e', res (h e w') = Raise e') ->
  res (try_except m h w) = Ok a ->
  res (m w) = Ok a /\ try_except m h w = m w.
Proof.
  intros Hh. rewrite try_eq. destruct (res (m w)) as [a'|e] eqn:E; prims.
  - intros H. rewrite E in H. split; [exact H|reflexivity].
  - destruct (Hh e (world (m w))) as [e' He']. rewrite He'. discriminate.
Qed.

Lemma keeps_cwd_ret {A} (a : A) : keeps_cwd (@ret X A a).
Proof. intros w b _. reflexivity. Qed.

Lemma keeps_cwd_bind {A B} (m : M X A) (k : A -> M X B) :
  keeps_cwd m -> (forall a, keeps_cwd (k a)) -> keeps_cwd (bind m k).
Proof.
  intros Hm Hk w b H. apply bind_ok_inv in H as (a & Ha & Hb & _ & ->).
  rewrite (Hk a _ _ Hb). eapply Hm, Ha.
Qed.

Lemma keeps_cwd_try {A} (m : M X A) h :
  keeps_cwd m -> (forall e w', exists e', res (h e w') = Raise e') ->
  keeps_cwd (try_except m h).
Proof.
  intros Hm Hh w a H. destruct (try_ok_inv m h w a Hh H) as [Ha ->].
  eapply Hm, Ha.
Qed.

Lemma keeps_cwd_print text : keeps_cwd (@print X text).
Proof. intros w a _. reflexivity. Qed.

Lemma keeps_cwd_index l i : keeps_cwd (@index X l i).
Proof. intros w a _. unfold index. now destruct (nth_error l i). Qed.

Lemma keeps_cwd_for_each {A} (xs : list A) body :
  (forall x, keeps_cwd (body x)) -> keeps_cwd (@for_each X A xs body).
Proof.
  intros H. induction xs as [|x xs IH]; cbn [for_each].
  - apply keeps_cwd_ret.
  - apply keeps_cwd_bind; auto.
Qed.

End Inversion.

Section KeepsCwd.

Context {X : Type} (O : Outside X).

Lemma keeps_cwd_run_command command check env :
  keeps_cwd (run_command O command check env).
Proof.
  intros w a H.
  destruct (run_command_returns O command check env w a H) as (_ & _ & -> & _).
  reflexivity.
Qed.

Lemma keeps_cwd_clear_entry p : keeps_cwd (clear_entry O p).
Proof.
  intros w a _. unfold clear_entry. rewrite try_eq. step.
  destruct (os_path_isfile O p w); prims.
  - step. unfold unlink. destruct (os_unlink O p w) as [[[]|e] d]; reflexivity.
  - step. destruct (os_path_islink O p w); prims.
    + unfold unlink. destruct (os_unlink O p w) as [[[]|e] d]; reflexivity.
    + step. destruct (os_path_isdir O p w); prims; [|reflexivity].
      unfold rmtree. destruct (shutil_rmtree O p w) as [[[]|e] d]; reflexivity.
Qed.

Lemma keeps_cwd_clear_tmp : keeps_cwd (clear_tmp O).
Proof.
  unfold clear_tmp. cbv zeta. apply keeps_cwd_bind.
  - intros w a _. reflexivity.
  - intros names. apply keeps_cwd_for_each. intros x. apply keeps_cwd_clear_entry.
Qed.

Lemma keeps_cwd_retrieve_loop remote_paths local_files :
  keeps_cwd (retrieve_loop O remote_paths local_files).
Proof.
  revert local_files. induction remote_paths as [|r rest IH]; intros acc;
    cbn [retrieve_loop].
  - apply keeps_cwd_ret.
  - apply keeps_cwd_bind; [|intros; apply IH].
    intros w a _. rewrite download_eq. reflexivity.
Qed.

Lemma keeps_cwd_add_protomers ligand : keeps_cwd (add_protomers O ligand).
Proof.
  unfold add_protomers. cbv zeta. apply keeps_cwd_bind.
  - apply keeps_cwd_try; [|intros; eexists; reflexivity].
    apply keeps_cwd_bind; [intros w a _; reflexivity|intros].
    apply keeps_cwd_bind; [intros w a' _; reflexivity|intros].
    apply keeps_cwd_ret.
  - intros. apply keeps_cwd_bind; [apply keeps_cwd_run_command|intros].
    apply keeps_cwd_ret.
Qed.

Lemma keeps_cwd_prepare_ligand ligand : keeps_cwd (prepare_ligand O ligand).
Proof.
  unfold prepare_ligand. cbv zeta.
  apply keeps_cwd_bind; [apply keeps_cwd_print|intros].
  apply keeps_cwd_bind; [apply keeps_cwd_add_protomers|intros].
  apply keeps_cwd_bind; [apply keeps_cwd_run_command|intros].
  apply keeps_cwd_ret.
Qed.

Lemma keeps_cwd_extract_receptor_atoms receptor :
  keeps_cwd (extract_receptor_atoms O receptor).
Proof.
  unfold extract_receptor_atoms. cbv zeta.
  apply keeps_cwd_bind; [apply keeps_cwd_run_command|intros].
  apply keeps_cwd_bind; [apply keeps_cwd_print|intros]. apply keeps_cwd_ret.
Qed.

Lemma keeps_cwd_extract_and_combine receptor receptor_atoms :
  keeps_cwd (extract_and_combine_cryst1 O receptor receptor_atoms).
Proof.
  unfold extract_and_combine_cryst1. cbv zeta.
  apply keeps_cwd_bind; [apply keeps_cwd_print|intros].
  apply keeps_cwd_bind; [apply keeps_cwd_run_command|intros].
  apply keeps_cwd_bind; [intros w a' _; reflexivity|intros].
  apply keeps_cwd_bind;
    [intros w a' _; rewrite open_write_eq;
     now destruct (builtin_open O _ _ w)|intros].
  apply keeps_cwd_bind.
  { apply keeps_cwd_try; [|intros; eexists; reflexivity].
    intros w a' _. rewrite readlines_eq. reflexivity. }
  intros.
  apply keeps_cwd_bind; [intros w a' _; reflexivity|intros].
  apply keeps_cwd_bind; [apply keeps_cwd_print|intros]. apply keeps_cwd_ret.
Qed.

Lemma keeps_cwd_add_hydrogens receptor_cryst1 :
  keeps_cwd (add_hydrogens_and_optimize O receptor_cryst1).
Proof. intros w a. apply add_hydrogens_restores_on_return. Qed.

Lemma keeps_cwd_prepare_receptor receptor box :
  keeps_cwd (prepare_receptor O receptor box).
Proof.
  unfold prepare_receptor. cbv zeta.
  apply keeps_cwd_bind; [apply keeps_cwd_print|intros].
  apply keeps_cwd_bind; [apply keeps_cwd_extract_receptor_atoms|intros].
  apply keeps_cwd_bind; [apply keeps_cwd_extract_and_combine|intros].
  apply keeps_cwd_bind; [apply keeps_cwd_print|intros].
  apply keeps_cwd_bind; [apply keeps_cwd_add_hydrogens|intros].
  apply keeps_cwd_bind; [apply keeps_cwd_print|intros].
  apply keeps_cwd_bind; [apply keeps_cwd_run_command|intros].
  apply keeps_cwd_bind; [apply keeps_cwd_print|intros]. apply keeps_cwd_ret.
Qed.

Lemma keeps_cwd_run_docking ligand_prepared receptor_prepared :
  keeps_cwd (run_docking O ligand_prepared receptor_prepared).
Proof.
  unfold run_docking. cbv zeta.
  apply keeps_cwd_bind; [apply keeps_cwd_print|intros].
  apply keeps_cwd_bind; [apply keeps_cwd_run_command|intros].
  apply keeps_cwd_ret.
Qed.

Lemma keeps_cwd_export_pose docking : keeps_cwd (export_pose O docking).
Proof.
  unfold export_pose. cbv zeta.
  apply keeps_cwd_bind; [apply keeps_cwd_print|intros].
  apply keeps_cwd_bind; [apply keeps_cwd_run_command|intros].
  apply keeps_cwd_ret.
Qed.

Lemma keeps_cwd_upload_loop dirname items lists :
  keeps_cwd (upload_loop O dirname items lists).
Proof.
  revert lists. induction items as [|[p n] rest IH]; intros [s f];
    cbn [upload_loop].
  - apply keeps_cwd_ret.
  - apply keeps_cwd_bind; [|intros; apply IH].
    intros w a _. rewrite upload_one_eq. now destruct (os_path_exists O p w).
Qed.

Lemma keeps_cwd_run_job ligand receptor box dirname :
  keeps_cwd (run_job O ligand receptor box dirname).
Proof.
  unfold run_job. cbv zeta.
  apply keeps_cwd_try; [|intros; eexists; reflexivity].
  apply keeps_cwd_bind; [apply keeps_cwd_clear_tmp|intros].
  apply keeps_cwd_bind; [apply keeps_cwd_retrieve_loop|intros].
  do 3 (apply keeps_cwd_bind; [apply keeps_cwd_index|intros]).
  apply keeps_cwd_bind; [apply keeps_cwd_prepare_ligand|intros].
  apply keeps_cwd_bind; [apply keeps_cwd_prepare_receptor|intros [t rp]].
  apply keeps_cwd_bind; [apply keeps_cwd_run_docking|intros].
  apply keeps_cwd_bind; [apply keeps_cwd_export_pose|intros].
  apply keeps_cwd_bind; [apply keeps_cwd_upload_loop|intros [s f]].
  do 3 (apply keeps_cwd_bind; [apply keeps_cwd_print|intros]).
  destruct f; apply keeps_cwd_ret.
Qed.

End KeepsCwd.

(** X11. A job that returns a result leaves the process in the working
    directory it started in. *)
Theorem run_job_returns_in_the_directory_it_started_in {X} (O : Outside X)
    ligand receptor box dirname w j :
  res (run_job O ligand receptor box dirname w) = Ok j ->
  cwd (world (run_job O ligand receptor box dirname w)) = cwd w.
Proof. apply keeps_cwd_run_job. Qed.

Lemma run_job_returns_in_the_directory_it_started_in_witness :
  cwd (world (Sim.job Sim.picky)) = cwd Sim.ready.
Proof.
  apply (run_job_returns_in_the_directory_it_started_in
           (Sim.outside Sim.picky) "bucket/ligand.smi" "bucket/1abc.pdb"
           "bucket/box.txt" "results" Sim.ready
           {| status := "partial_success";
              outputs := ["receptor_cryst1FH.pdb"];
              failed_files := Some ["docking.pdbqt"; "pose.sdf"] |}).
  vm_compute. reflexivity.
Defined.

(** ** How a job can end *)

(** X12. [run_job] ends in one of three ways: it raises a
    [RuntimeError] whose message starts with [Workflow failed: ]; it
    returns status [success] without the key [failed_files]; or it
    returns status [partial_success] with a failed list that is not
    empty. *)
Theorem run_job_outcomes {X} (O : Outside X) ligand receptor box dirname w :
  (exists cause,
     res (run_job O ligand receptor box dirname w)
       = Raise (RuntimeError ("Workflow failed: " +:+ cause)))
  \/ (exists s,
        res (run_job O ligand receptor box dirname w)
          = Ok {| status := "success"; outputs := s; failed_files := None |})
  \/ (exists s n f,
        res (run_job O ligand receptor box dirname w)
          = Ok {| status := "partial_success"; outputs := s;
                  failed_files := Some (n :: f) |}).
Proof.
  destruct (run_job_shape O ligand receptor box dirname w)
    as [[[msg Hm] _]|(pre & evs & s & f & _ & _ & _ & Hr)].
  - left. revert Hm. unfold run_job. cbv zeta. rewrite try_eq.
    match goal with |- context [match res ?b with _ => _ end] =>
      destruct (res b) as [j|e] eqn:E end; prims.
    + rewrite E. discriminate.
    + intros _. eexists. reflexivity.
  - right. rewrite Hr. destruct f as [|n f]; [left|right]; eauto.
Qed.

(** X13. The sweep guards its removals but not the listing: when
    [/tmp] cannot be listed, [run_job] fails with [Workflow failed: ]
    and the text of that error, having done nothing else. *)
Theorem run_job_needs_the_scratch_listing {X} (O : Outside X)
    ligand receptor box dirname w e :
  os_listdir O "/tmp" w = Raise e ->
  res (run_job O ligand receptor box dirname w)
    = Raise (RuntimeError ("Workflow failed: " +:+ str_exn e))
  /\ events (run_job O ligand receptor box dirname w) = [Listdir "/tmp" (Raise e)]
  /\ world (run_job O ligand receptor box dirname w) = w.
Proof.
  intros H. unfold run_job, clear_tmp. cbv zeta.
  rewrite try_eq, bind_eq, bind_eq. unfold listdir. rewrite H. prims.
  repeat split.
Qed.

Lemma run_job_needs_the_scratch_listing_witness :
  res (run_job Sim.unlistable "b/l.smi" "b/r.pdb" "b/box.txt" "out" Sim.ready)
    = Raise (RuntimeError
               "Workflow failed: [Errno 13] Permission denied: '/tmp'")
  /\ events (run_job Sim.unlistable "b/l.smi" "b/r.pdb" "b/box.txt" "out"
               Sim.ready)
     = [Listdir "/tmp" (Raise (Sim.denied "/tmp"))]
  /\ world (run_job Sim.unlistable "b/l.smi" "b/r.pdb" "b/box.txt" "out"
              Sim.ready)
     = Sim.ready.
Proof.
  apply (run_job_needs_the_scratch_listing Sim.unlistable "b/l.smi" "b/r.pdb"
           "b/box.txt" "out" Sim.ready (Sim.denied "/tmp")).
  reflexivity.
Defined.

(** ** What the upload loop never does *)

Lemma Published_upload_found dirname items evs s f :
  Published dirname items evs s f ->
  forall p d n b, In (Upload p d n b) evs -> In (Exists p true) evs.
Proof.
  induction 1; intros p d n b Hin; cbn in *.
  - destruct Hin.
  - destruct Hin as [Hin|[Hin|Hin]]; try discriminate.
    + injection Hin as -> _ _ _. now left.
    + right. right. eauto.
  - destruct Hin as [Hin|[Hin|Hin]]; try discriminate.
    + injection Hin as -> _ _ _. now left.
    + right. right. eauto.
  - destruct Hin as [Hin|[Hin|Hin]]; try discriminate.
    right. right. eauto.
Qed.

Lemma Published_missing_not_uploaded dirname items evs s f :
  Published dirname items evs s f -> List.NoDup (map fst items) ->
  forall p d n b, In (Exists p false) evs -> ~ In (Upload p d n b) evs.
Proof.
  induction 1 as [|q m rest evs s f H IH|q m rest evs s f H IH|q m rest evs s f H IH];
    intros Hnd p d n b Hex Hup; cbn in *.
  - destruct Hex.
  - apply NoDup_cons_iff in Hnd as [Hq Hnd].
    destruct Hex as [Hex|[Hex|Hex]]; try discriminate.
    destruct Hup as [Hup|[Hup|Hup]]; try discriminate.
    + injection Hup as -> _ _ _.
      now apply (Published_no_exists _ _ _ _ _ _ _ H Hq) in Hex.
    + eapply IH; eauto.
  - apply NoDup_cons_iff in Hnd as [Hq Hnd].
    destruct Hex as [Hex|[Hex|Hex]]; try discriminate.
    destruct Hup as [Hup|[Hup|Hup]]; try discriminate.
    + injection Hup as -> _ _ _.
      now apply (Published_no_exists _ _ _ _ _ _ _ H Hq) in Hex.
    + eapply IH; eauto.
  - apply NoDup_cons_iff in Hnd as [Hq Hnd].
    destruct Hup as [Hup|[Hup|Hup]]; try discriminate.
    destruct Hex as [Hex|[Hex|Hex]]; try discriminate.
    + injection Hex as ->.
      assert (Hp := Published_paths _ _ _ _ _ H _ Hup). cbn in Hp.
      destruct Hp as [_ Hp]. apply Hq. eapply in_fst, Hp.
    + eapply IH; eauto.
Qed.

Lemma Published_in_order dirname items evs s f :
  Published dirname items evs s f ->
  sublist s (map snd items) /\ sublist f (map snd items).
Proof.
  induction 1 as [|q m rest evs s f H [IHs IHf]|q m rest evs s f H [IHs IHf]
                 |q m rest evs s f H [IHs IHf]]; cbn.
  - split; constructor.
  - split; [now apply sublist_skip|now apply sublist_cons].
  - split; [now apply sublist_cons|now apply sublist_skip].
  - split; [now apply sublist_cons|now apply sublist_skip].
Qed.

(** X14. Every upload of a job is of one of the three deliverables under
    its own logical name and goes to the directory the caller asked for;
    the job has found the local file to exist, and a file it has found
    missing is never uploaded. *)
Theorem run_job_uploads_only_found_deliverables {X} (O : Outside X)
    ligand receptor box dirname w p d n b :
  In (Upload p d n b) (events (run_job O ligand receptor box dirname w)) ->
  d = dirname
  /\ In (p, n) deliverables
  /\ In (Exists p true) (events (run_job O ligand receptor box dirname w))
  /\ ~ In (Exists p false) (events (run_job O ligand receptor box dirname w)).
Proof.
  intros Hup.
  destruct (run_job_shape O ligand receptor box dirname w)
    as [[_ [Hq|Hq]]|(pre & evs & s & f & He & Hpre & Hp & Hr)].
  - apply (event_ok_in _ _ _ Hq) in Hup. destruct Hup.
  - apply (event_ok_in _ _ _ Hq) in Hup. destruct Hup.
  - pose proof (in_job_events _ _ _ _ _ _ He Hpre Hup) as Hin. cbn in Hin.
    destruct (Published_paths _ _ _ _ _ Hp _ Hin) as [-> Hd].
    split; [reflexivity|]. split; [exact Hd|]. split.
    + rewrite He, !in_app_iff. right. left.
      eapply Published_upload_found; eauto.
    + intros Hex.
      pose proof (in_job_events _ _ _ _ _ _ He Hpre Hex) as Hex'. cbn in Hex'.
      eapply Published_missing_not_uploaded; eauto using deliverables_distinct.
Qed.

Lemma run_job_uploads_only_found_deliverables_witness :
  "results" = "results"
  /\ In ("/tmp/pose.sdf", "pose.sdf") deliverables
  /\ In (Exists "/tmp/pose.sdf" true) (events (Sim.job Sim.picky))
  /\ ~ In (Exists "/tmp/pose.sdf" false) (events (Sim.job Sim.picky)).
Proof.
  apply (run_job_uploads_only_found_deliverables (Sim.outside Sim.picky)
           "bucket/ligand.smi" "bucket/1abc.pdb" "bucket/box.txt" "results"
           Sim.ready "/tmp/pose.sdf" "results" "pose.sdf" false).
  in_events.
Defined.

(** X15. In the result of a job both the published names and the failed
    names appear in the order in which the deliverables are processed:
    docking output, pose, hydrogenated receptor. *)
Theorem run_job_lists_names_in_publish_order {X} (O : Outside X)
    ligand receptor box dirname w j :
  res (run_job O ligand receptor box dirname w) = Ok j ->
  sublist (outputs j) ["docking.pdbqt"; "pose.sdf"; "receptor_cryst1FH.pdb"]
  /\ sublist (failed_of j) ["docking.pdbqt"; "pose.sdf"; "receptor_cryst1FH.pdb"].
Proof.
  intros Hj.
  destruct (run_job_shape O ligand receptor box dirname w)
    as [[[msg Hm] _]|(pre & evs & s & f & He & Hpre & Hp & Hr)].
  - rewrite Hm in Hj. discriminate.
  - rewrite Hr in Hj. injection Hj as <-.
    rewrite outputs_job_result_of, failed_job_result_of.
    exact (Published_in_order _ _ _ _ _ Hp).
Qed.

Lemma run_job_lists_names_in_publish_order_witness :
  sublist ["receptor_cryst1FH.pdb"]
    ["docking.pdbqt"; "pose.sdf"; "receptor_cryst1FH.pdb"]
  /\ sublist ["docking.pdbqt"; "pose.sdf"]
       ["docking.pdbqt"; "pose.sdf"; "receptor_cryst1FH.pdb"].
Proof.
  apply (run_job_lists_names_in_publish_order (Sim.outside Sim.picky)
           "bucket/ligand.smi" "bucket/1abc.pdb" "bucket/box.txt" "results"
           Sim.ready
           {| status := "partial_success";
              outputs := ["receptor_cryst1FH.pdb"];
              failed_files := Some ["docking.pdbqt"; "pose.sdf"] |}).
  vm_compute. reflexivity.
Defined.

(** ** What the sweep never does *)

Section SweepSafety.

Context {X : Type} (O : Outside X).

Lemma justified_app evs1 evs2 :
  justified evs1 -> justified evs2 -> justified (evs1 ++ evs2).
Proof.
  intros [U1 R1] [U2 R2]. split.
  - intros p o H. rewrite !in_app_iff in *. destruct H as [H|H].
    + destruct (U1 p o H); auto.
    + destruct (U2 p o H); auto.
  - intros p o H. rewrite !in_app_iff in *. destruct H as [H|H].
    + destruct (R1 p o H) as (? & ? & ?); auto.
    + destruct (R2 p o H) as (? & ? & ?); auto.
Qed.

Lemma clear_entry_confined names n w :
  In n names ->
  Forall (sweep_event names) (events (clear_entry O (Py.os_path_join "/tmp" n) w))
  /\ justified (events (clear_entry O (Py.os_path_join "/tmp" n) w)).
Proof.
  intros Hn. set (p := Py.os_path_join "/tmp" n).
  assert (Hp : exists m, In m names /\ p = Py.os_path_join "/tmp" m)
    by (exists n; auto).
  clearbody p.
  assert (Hs : forall evs,
             (forall e, In e evs ->
                match e with
                | IsFile q _ | IsLink q _ | IsDir q _
                | Unlink q _ | Rmtree q _ => q = p
                | Print _ => True
                | _ => False
                end) ->
             Forall (sweep_event names) evs).
  { intros evs H. apply List.Forall_forall. intros e He. specialize (H e He).
    destruct e; cbn; try exact H; try (subst; exact Hp). }
  unfold clear_entry. rewrite try_eq. step.
  destruct (os_path_isfile O p w) eqn:Ef; prims.
  - step. unfold unlink.
    destruct (os_unlink O p w) as [[[]|e] d]; prims;
      (split; [apply Hs; intros; in_list; cbn; auto
              |split; intros; in_list; cbn; auto]).
  - step. destruct (os_path_islink O p w) eqn:El; prims.
    + unfold unlink.
      destruct (os_unlink O p w) as [[[]|e] d]; prims;
        (split; [apply Hs; intros; in_list; cbn; auto
                |split; intros; in_list; cbn; auto]).
    + step. destruct (os_path_isdir O p w) eqn:Ed; prims.
      * unfold rmtree.
        destruct (shutil_rmtree O p w) as [[[]|e] d]; prims;
          (split; [apply Hs; intros; in_list; cbn; auto
                  |split; intros; in_list; cbn; auto 10]).
      * split; [apply Hs; intros; in_list; cbn; auto
               |split; intros; in_list; cbn; auto].
Qed.

Lemma sweep_loop_confined names xs w :
  (forall n, In n xs -> In n names) ->
  let r := for_each xs
             (fun filename => clear_entry O (Py.os_path_join "/tmp" filename)) w in
  Forall (sweep_event names) (events r) /\ justified (events r).
Proof.
  revert w. induction xs as [|x xs IH]; intros w Hin; cbn zeta.
  - cbn. split; [constructor|]. split; intros p o [].
  - cbn [for_each]. rewrite bind_eq.
    destruct (clear_entry_spec O (Py.os_path_join "/tmp" x) w) as (Hr & _).
    rewrite Hr. prims.
    destruct (clear_entry_confined names x w) as [F1 J1]; [apply Hin; now left|].
    destruct (IH (world (clear_entry O (Py.os_path_join "/tmp" x) w)))
      as [F2 J2]; [intros n Hn'; apply Hin; now right|].
    split; [apply Forall_app; auto|now apply justified_app].
Qed.

Lemma clear_tmp_confined w names :
  os_listdir O "/tmp" w = Ok names ->
  exists rest,
    events (clear_tmp O w) = Listdir "/tmp" (Ok names) :: rest
    /\ Forall (sweep_event names) rest /\ justified rest.
Proof.
  intros Hl. unfold clear_tmp. cbv zeta. rewrite bind_eq.
  unfold listdir. rewrite Hl. prims.
  eexists. split; [reflexivity|].
  apply (sweep_loop_confined names names w). auto.
Qed.

Lemma clear_tmp_unlisted w e :
  os_listdir O "/tmp" w = Raise e ->
  events (clear_tmp O w) = [Listdir "/tmp" (Raise e)].
Proof.
  intros Hl. unfold clear_tmp. cbv zeta. rewrite bind_eq.
  unfold listdir. rewrite Hl. prims. reflexivity.
Qed.

End SweepSafety.

(** X16. Once [/tmp] has been listed, all [clear_tmp] does is test and
    remove entries [/tmp/<name>] for names of that listing, and log: it
    runs no command, changes no directory, opens no file and moves
    nothing to or from the store. *)
Theorem clear_tmp_touches_only_listed_entries {X} (O : Outside X) w names :
  os_listdir O "/tmp" w = Ok names ->
  exists rest,
    events (clear_tmp O w) = Listdir "/tmp" (Ok names) :: rest
    /\ Forall (sweep_event names) rest.
Proof.
  intros Hl. destruct (clear_tmp_confined O w names Hl) as (rest & He & Hf & _).
  exists rest. auto.
Qed.

Lemma clear_tmp_touches_only_listed_entries_witness :
  exists rest,
    events (clear_tmp (Sim.outside Sim.cluttered) (Sim.start "/app" ∅))
    = Listdir "/tmp" (Ok ["a.txt"; "link"; "dir"; "sock"]) :: rest
    /\ Forall (sweep_event ["a.txt"; "link"; "dir"; "sock"]) rest.
Proof.
  apply (clear_tmp_touches_only_listed_entries (Sim.outside Sim.cluttered)
           (Sim.start "/app" ∅) ["a.txt"; "link"; "dir"; "sock"]).
  reflexivity.
Defined.

(** X17. [clear_tmp] unlinks only a path it has found to be a regular
    file or a symlink, and removes the tree only of a path it has found
    to be neither of these and to be a directory. *)
Theorem clear_tmp_removes_only_what_it_tested {X} (O : Outside X) w :
  (forall p o, In (Unlink p o) (events (clear_tmp O w)) ->
     In (IsFile p true) (events (clear_tmp O w))
     \/ In (IsLink p true) (events (clear_tmp O w)))
  /\ (forall p o, In (Rmtree p o) (events (clear_tmp O w)) ->
        In (IsFile p false) (events (clear_tmp O w))
        /\ In (IsLink p false) (events (clear_tmp O w))
        /\ In (IsDir p true) (events (clear_tmp O w))).
Proof.
  change (justified (events (clear_tmp O w))).
  destruct (os_listdir O "/tmp" w) as [names|e] eqn:Hl.
  - destruct (clear_tmp_confined O w names Hl) as (rest & -> & _ & [U R]).
    split.
    + intros p o [H|H]; [discriminate|].
      destruct (U p o H); [left|right]; now right.
    + intros p o [H|H]; [discriminate|].
      destruct (R p o H) as (? & ? & ?). repeat split; now right.
  - rewrite (clear_tmp_unlisted O w e Hl).
    split; intros p o [H|[]]; discriminate.
Qed.

(** ** A job whose inputs cannot be fetched *)

Lemma quiet_no_commands evs :
  Forall (event_ok (fun _ _ => False)) evs ->
  exec_commands evs = []
  /\ (forall p d n b, ~ In (Upload p d n b) evs)
  /\ (forall p b, ~ In (Exists p b) evs).
Proof.
  intros H. split; [|split].
  - induction H as [|e evs He _ IH]; [reflexivity|].
    destruct e; cbn in He |- *; try exact IH; destruct He.
  - intros p d n b Hin. rewrite List.Forall_forall in H. exact (H _ Hin).
  - intros p b Hin. rewrite List.Forall_forall in H. exact (H _ Hin).
Qed.

(** X18. When one of the three downloads raises, the job fails with
    [Workflow failed: ] and the text of that error; its events are those
    of the sweep and of the downloads up to the failing one, so that no
    command has been run and nothing has been uploaded. *)
Theorem run_job_stops_at_a_failed_download {X} (O : Outside X)
    ligand receptor box dirname w names e :
  os_listdir O "/tmp" w = Ok names ->
  res (retrieve_gcs_files O [ligand; receptor; box] (world (clear_tmp O w)))
    = Raise e ->
  res (run_job O ligand receptor box dirname w)
    = Raise (RuntimeError ("Workflow failed: " +:+ str_exn e))
  /\ events (run_job O ligand receptor box dirname w)
     = events (clear_tmp O w)
       ++ events (retrieve_gcs_files O [ligand; receptor; box]
                    (world (clear_tmp O w)))
  /\ exec_commands (events (run_job O ligand receptor box dirname w)) = []
  /\ (forall p d n b,
        ~ In (Upload p d n b) (events (run_job O ligand receptor box dirname w))).
Proof.
  intros Hl Hf.
  destruct (sweep_loop O names w) as (Hs & _). cbv zeta in Hs.
  assert (Hc : res (clear_tmp O w) = Ok tt).
  { unfold clear_tmp. cbv zeta. rewrite bind_eq. unfold listdir.
    rewrite Hl. prims. exact Hs. }
  assert (He : res (run_job O ligand receptor box dirname w)
               = Raise (RuntimeError ("Workflow failed: " +:+ str_exn e))
             /\ events (run_job O ligand receptor box dirname w)
                = events (clear_tmp O w)
                  ++ events (retrieve_gcs_files O [ligand; receptor; box]
                               (world (clear_tmp O w)))).
  { unfold run_job. cbv zeta. rewrite try_eq, bind_eq, Hc. prims.
    rewrite bind_eq, Hf. prims. rewrite app_nil_r. split; reflexivity. }
  destruct He as [Hr He]. split; [exact Hr|]. split; [exact He|].
  rewrite He.
  assert (Hq : Forall (event_ok (fun _ _ => False))
                 (events (clear_tmp O w)
                  ++ events (retrieve_gcs_files O [ligand; receptor; box]
                               (world (clear_tmp O w))))).
  { apply Forall_app. split; [apply clear_tmp_quiet|].
    unfold retrieve_gcs_files. apply retrieve_loop_quiet. }
  destruct (quiet_no_commands _ Hq) as (Hx & Hu & _). split; [exact Hx|exact Hu].
Qed.

Lemma run_job_stops_at_a_failed_download_witness :
  res (run_job (Sim.outside Sim.patchy) "b/ligand.smi" "b/1abc.pdb" "b/box.txt"
         "results" Sim.ready)
    = Raise (RuntimeError
               ("Workflow failed: "
                +:+ str_exn (OSError "download failed: b/1abc.pdb")))
  /\ events (run_job (Sim.outside Sim.patchy) "b/ligand.smi" "b/1abc.pdb"
               "b/box.txt" "results" Sim.ready)
     = events (clear_tmp (Sim.outside Sim.patchy) Sim.ready)
       ++ events (retrieve_gcs_files (Sim.outside Sim.patchy)
                    ["b/ligand.smi"; "b/1abc.pdb"; "b/box.txt"]
                    (world (clear_tmp (Sim.outside Sim.patchy) Sim.ready)))
  /\ exec_commands
       (events (run_job (Sim.outside Sim.patchy) "b/ligand.smi" "b/1abc.pdb"
                  "b/box.txt" "results" Sim.ready)) = []
  /\ (forall p d n b,
        ~ In (Upload p d n b)
            (events (run_job (Sim.outside Sim.patchy) "b/ligand.smi"
                       "b/1abc.pdb" "b/box.txt" "results" Sim.ready))).
Proof.
  apply (run_job_stops_at_a_failed_download (Sim.outside Sim.patchy)
           "b/ligand.smi" "b/1abc.pdb" "b/box.txt" "results"
           Sim.ready [] (OSError "download failed: b/1abc.pdb")).
  - reflexivity.
  - vm_compute. reflexivity.
Defined.

(** ** The commands of a job that returns *)

Section Commands.

Context {X : Type} (O : Outside X).

Lemma exec_commands_app evs1 evs2 :
  exec_commands (evs1 ++ evs2) = exec_commands evs1 ++ exec_commands evs2.
Proof. apply omap_app. Qed.

Lemma runs_ret {A} (a : A) : runs (@ret X A a) [].
Proof. intros w b _. reflexivity. Qed.

Lemma runs_bind {A B} (m : M X A) (k : A -> M X B) cs1 cs2 :
  runs m cs1 -> (forall a, runs (k a) cs2) -> runs (bind m k) (cs1 ++ cs2).
Proof.
  intros Hm Hk w b H. apply bind_ok_inv in H as (a & Ha & Hb & -> & _).
  rewrite exec_commands_app, (Hm w a Ha), (Hk a _ _ Hb). reflexivity.
Qed.

Lemma runs_bind_val {A B} (m : M X A) (k : A -> M X B) a0 cs1 cs2 :
  (forall w, returns (m w) a0) -> runs m cs1 -> runs (k a0) cs2 ->
  runs (bind m k) (cs1 ++ cs2).
Proof.
  intros Hr Hm Hk w b H. apply bind_ok_inv in H as (a & Ha & Hb & -> & _).
  pose proof (Hr w) as Hv. unfold returns in Hv. rewrite Ha in Hv. subst a.
  rewrite exec_commands_app, (Hm w a0 Ha), (Hk _ _ Hb). reflexivity.
Qed.

Lemma runs_print text : runs (@print X text) [].
Proof. intros w a _. reflexivity. Qed.

Lemma runs_run_command command check env :
  runs (run_command O command check env) [command].
Proof.
  intros w a H.
  destruct (run_command_returns O command check env w a H) as (_ & _ & _ & ->).
  reflexivity.
Qed.

Lemma runs_chdir path : runs (chdir O path) [].
Proof. intros w a _. rewrite chdir_eq. now destruct (os_chdir O path w). Qed.

Lemma runs_open_read path : runs (open_read O path) [].
Proof. intros w a _. reflexivity. Qed.

Lemma runs_open_write path : runs (open_write O path) [].
Proof. intros w a _. reflexivity. Qed.

Lemma runs_try {A} (m : M X A) h cs :
  runs m cs -> (forall e w, exists e', res (h e w) = Raise e') ->
  runs (try_except m h) cs.
Proof.
  intros Hm Hh w a H. destruct (try_ok_inv m h w a Hh H) as [Ha ->].
  eapply Hm, Ha.
Qed.

Lemma runs_extract_receptor_atoms receptor :
  runs (extract_receptor_atoms O receptor)
    [extract_atoms_command receptor "/tmp/receptor_atoms.pdb"].
Proof.
  unfold extract_receptor_atoms. cbv zeta.
  apply (runs_bind _ _ [_] []); [apply runs_run_command|intros].
  apply (runs_bind _ _ [] []); [apply runs_print|intros]. apply runs_ret.
Qed.

Lemma runs_extract_and_combine receptor receptor_atoms :
  runs (extract_and_combine_cryst1 O receptor receptor_atoms)
    [grep_command receptor].
Proof.
  unfold extract_and_combine_cryst1. cbv zeta.
  apply (runs_bind _ _ [] [_]); [apply runs_print|intros].
  apply (runs_bind _ _ [_] []); [apply runs_run_command|intros].
  apply (runs_bind _ _ [] []); [apply runs_open_read|intros].
  apply (runs_bind _ _ [] []); [apply runs_open_write|intros].
  apply (runs_bind _ _ [] []).
  { apply runs_try; [|intros; eexists; reflexivity].
    intros w a' _. rewrite readlines_eq. reflexivity. }
  intros.
  apply (runs_bind _ _ [] []); [intros w a' _; reflexivity|intros].
  apply (runs_bind _ _ [] []); [apply runs_print|intros]. apply runs_ret.
Qed.

Lemma runs_add_hydrogens receptor_cryst1 :
  runs (add_hydrogens_and_optimize O receptor_cryst1)
    [reduce2_command
       (Py.os_path_join
          (Py.os_path_join
             (Py.os_path_join
                "/opt/conda/envs/dwa_env/lib/python3.11/site-packages" "mmtbx")
             "command_line")
          "reduce2.py")
       receptor_cryst1 "approach=add add_flip_movers=True"].
Proof.
  unfold add_hydrogens_and_optimize. cbv zeta.
  apply (runs_bind _ _ [] [_]); [apply runs_print|intros].
  apply (runs_bind _ _ [] [_]); [intros w a' _; reflexivity|intros].
  apply (runs_bind _ _ [] [_]); [intros w a' _; reflexivity|intros].
  apply (runs_bind _ _ [] [_]); [intros w a' _; reflexivity|intros].
  apply (runs_bind _ _ [] [_]); [apply runs_chdir|intros].
  apply (runs_bind _ _ [_] []); [apply runs_run_command|intros].
  apply (runs_bind _ _ [] []); [apply runs_chdir|intros].
  apply (runs_bind _ _ [] []); [apply runs_print|intros]. apply runs_ret.
Qed.

Lemma runs_prepare_receptor receptor box :
  runs (prepare_receptor O receptor box)
    [extract_atoms_command receptor "/tmp/receptor_atoms.pdb";
     grep_command receptor;
     reduce2_command
       (Py.os_path_join
          (Py.os_path_join
             (Py.os_path_join
                "/opt/conda/envs/dwa_env/lib/python3.11/site-packages" "mmtbx")
             "command_line")
          "reduce2.py")
       "/tmp/receptor_cryst1.pdb" "approach=add add_flip_movers=True";
     mk_prepare_receptor_command "/tmp/receptor_cryst1FH.pdb"
       "/tmp/receptor_prepared" box].
Proof.
  unfold prepare_receptor. cbv zeta.
  apply (runs_bind _ _ [] [_; _; _; _]); [apply runs_print|intros].
  apply (runs_bind _ _ [_] [_; _; _]);
    [apply runs_extract_receptor_atoms|intros].
  eapply (runs_bind_val _ _ _ [_] [_; _]);
    [apply extract_and_combine_cryst1_returns
    |apply runs_extract_and_combine|].
  apply (runs_bind _ _ [] [_; _]); [apply runs_print|intros].
  eapply (runs_bind_val _ _ _ [_] [_]);
    [apply add_hydrogens_returns|apply runs_add_hydrogens|].
  apply (runs_bind _ _ [] [_]); [apply runs_print|intros].
  apply (runs_bind _ _ [_] []); [apply runs_run_command|intros].
  apply (runs_bind _ _ [] []); [apply runs_print|intros]. apply runs_ret.
Qed.

Lemma runs_run_docking ligand_prepared receptor_prepared :
  runs (run_docking O ligand_prepared receptor_prepared)
    [vina_command ligand_prepared receptor_prepared
       "/tmp/receptor_prepared.box.txt" "/tmp/docking.pdbqt"].
Proof. intros w a _. apply run_docking_commands. Qed.

Lemma runs_export_pose docking :
  runs (export_pose O docking) [mk_export_command docking "/tmp/pose.sdf"].
Proof.
  unfold export_pose. cbv zeta.
  apply (runs_bind _ _ [] [_]); [apply runs_print|intros].
  apply (runs_bind _ _ [_] []); [apply runs_run_command|intros]. apply runs_ret.
Qed.

Lemma runs_upload_loop dirname items lists :
  runs (upload_loop O dirname items lists) [].
Proof.
  revert lists. induction items as [|[p n] rest IH]; intros [s f];
    cbn [upload_loop].
  - apply runs_ret.
  - apply (runs_bind _ _ [] []); [|intros; apply IH].
    intros w a _. rewrite upload_one_eq.
    destruct (os_path_exists O p w); [|reflexivity].
    now destruct (upload_to_gcs O p dirname n w) as [[] d].
Qed.

Lemma prepare_ligand_commands ligand w a :
  res (prepare_ligand O ligand w) = Ok a ->
  exists file text,
    builtin_open O ligand "r" w = Ok file
    /\ files (disk w) file = Ok text
    /\ exec_commands (events (prepare_ligand O ligand w))
       = [scrub_command (Py.strip (Py.universal_newlines text))
            "/tmp/ligand_with_protomers.sdf";
          mk_prepare_ligand_command "/tmp/ligand_with_protomers.sdf"
            "/tmp/ligand_protomers"].
Proof.
  unfold prepare_ligand. cbv zeta. intros H.
  apply bind_ok_inv in H as ([] & _ & H & -> & _).
  cbn [world events print emit] in H |- *.
  apply bind_ok_inv in H as (lp & Hp & H & -> & _).
  pose proof (add_protomers_returns O ligand w) as Hv. unfold returns in Hv.
  rewrite Hp in Hv. subst lp.
  destruct (builtin_open O ligand "r" w) as [file|e] eqn:Ho.
  - destruct (files (disk w) file) as [text|e] eqn:Hf.
    + exists file, text. split; [reflexivity|]. split; [exact Hf|].
      rewrite !exec_commands_app.
      pose proof (add_protomers_readable O ligand w file text Ho Hf) as Heq.
      assert (Hc : exec_commands (events (add_protomers O ligand w))
                   = [scrub_command (Py.strip (Py.universal_newlines text))
                        "/tmp/ligand_with_protomers.sdf"]).
      { rewrite Heq in Hp |- *. cbn [prepend res events] in Hp |- *.
        rewrite exec_commands_app.
        exact (runs_bind _ _ [_] [] (runs_run_command _ _ _)
                 (fun _ => runs_ret _) w _ Hp). }
      rewrite Hc.
      match type of H with res (?m ?w1) = _ =>
        rewrite (runs_bind _ _ [_] [] (runs_run_command _ _ _)
                   (fun _ => runs_ret _) w1 _ H) end.
      reflexivity.
    + destruct (add_protomers_unreadable O ligand w e) as [r Hr];
        [right; eauto|]. rewrite Hr in Hp. discriminate.
  - destruct (add_protomers_unreadable O ligand w e) as [r Hr];
      [left; exact Ho|]. rewrite Hr in Hp. discriminate.
Qed.

End Commands.

(** X19. A job that returns has swept the scratch directory, fetched
    ligand, receptor and box in this order, and then run exactly eight
    commands: [scrub.py] on the text that the fetched ligand path opened
    to held after the downloads, as it is read and with the white space
    at its ends stripped, [mk_prepare_ligand.py], the atom extraction and
    the [grep] probe on the fetched receptor, reduce2 on the merged file,
    [mk_prepare_receptor.py] with the fetched box, [vina] on the prepared
    ligand and receptor with the fixed configuration path, and
    [mk_export.py] on the docking output. *)
Theorem run_job_command_sequence {X} (O : Outside X) ligand receptor box dirname w j :
  res (run_job O ligand receptor box dirname w) = Ok j ->
  exists p0 p1 p2 file text rest,
    events (run_job O ligand receptor box dirname w)
      = events (clear_tmp O w)
        ++ map fetched [(ligand, p0); (receptor, p1); (box, p2)] ++ rest
    /\ builtin_open O p0 "r"
         (world (retrieve_gcs_files O [ligand; receptor; box]
                   (world (clear_tmp O w)))) = Ok file
    /\ files (disk (world (retrieve_gcs_files O [ligand; receptor; box]
                             (world (clear_tmp O w))))) file = Ok text
    /\ exec_commands rest
       = [scrub_command (Py.strip (Py.universal_newlines text))
            "/tmp/ligand_with_protomers.sdf";
          mk_prepare_ligand_command "/tmp/ligand_with_protomers.sdf"
            "/tmp/ligand_protomers";
          extract_atoms_command p1 "/tmp/receptor_atoms.pdb";
          grep_command p1;
          reduce2_command
            (Py.os_path_join
               (Py.os_path_join
                  (Py.os_path_join
                     "/opt/conda/envs/dwa_env/lib/python3.11/site-packages"
                     "mmtbx")
                  "command_line")
               "reduce2.py")
            "/tmp/receptor_cryst1.pdb" "approach=add add_flip_movers=True";
          mk_prepare_receptor_command "/tmp/receptor_cryst1FH.pdb"
            "/tmp/receptor_prepared" p2;
          vina_command "/tmp/ligand_protomers/_i0.pdbqt"
            "/tmp/receptor_prepared.pdbqt" "/tmp/receptor_prepared.box.txt"
            "/tmp/docking.pdbqt";
          mk_export_command "/tmp/docking.pdbqt" "/tmp/pose.sdf"].
Proof.
  intros H. unfold run_job, retrieve_gcs_files in H |- *. cbv zeta in H |- *.
  apply try_ok_inv in H as [Hb ->]; [|intros; eexists; reflexivity].
  apply bind_ok_inv in Hb as ([] & _ & Hb & -> & _).
  apply bind_ok_inv in Hb as (paths & Hp & Hb & -> & _).
  destruct (retrieve_loop_ok O _ _ _ _ Hp) as (locals & -> & Hlen & ->).
  destruct locals as [|p0 [|p1 [|p2 [|]]]]; try discriminate. clear Hlen.
  cbn [app] in Hb |- *.
  exists p0, p1, p2.
  set (w1 := world (retrieve_loop O [ligand; receptor; box] [] (world (clear_tmp O w)))) in *.
  clearbody w1. clear Hp. revert Hb.
  do 3 step. intros Hb.
  apply bind_ok_inv in Hb as (lp & Hl & Hb & -> & _).
  destruct (prepare_ligand_commands O p0 w1 lp Hl) as (file & text & Ho & Hf & Hc).
  pose proof (prepare_ligand_returns O p0 w1) as Hv. unfold returns in Hv.
  rewrite Hl in Hv. subst lp.
  exists file, text. eexists. split; [reflexivity|].
  split; [exact Ho|]. split; [exact Hf|].
  rewrite exec_commands_app, Hc.
  change [?a; ?b; ?c ; ?d; ?e; ?f; ?g; ?h] with ([a; b] ++ [c; d; e; f; g; h]).
  f_equal.
  match goal with |- exec_commands (events (?m ?w2)) = ?cs =>
    cut (runs m cs); [intros R; exact (R w2 j Hb)|] end.
  eapply (runs_bind_val _ _ _ [_; _; _; _] [_; _]);
    [apply prepare_receptor_returns|apply runs_prepare_receptor|].
  cbv beta iota.
  eapply (runs_bind_val _ _ _ [_] [_]);
    [apply run_docking_returns|apply runs_run_docking|].
  eapply (runs_bind_val _ _ _ [_] []);
    [apply export_pose_returns|apply runs_export_pose|].
  apply (runs_bind _ _ [] []); [apply runs_upload_loop|intros [s f]].
  apply (runs_bind _ _ [] []); [apply runs_print|intros].
  apply (runs_bind _ _ [] []); [apply runs_print|intros].
  apply (runs_bind _ _ [] []); [apply runs_print|intros].
  destruct f; apply runs_ret.
Qed.

Lemma run_job_command_sequence_witness :
  exists p0 p1 p2 file text rest,
    events (run_job (Sim.outside Sim.productive) "bucket/ligand.smi"
              "bucket/1abc.pdb" "bucket/box.txt" "results" Sim.ready)
      = events (clear_tmp (Sim.outside Sim.productive) Sim.ready)
        ++ map fetched [("bucket/ligand.smi", p0); ("bucket/1abc.pdb", p1);
                        ("bucket/box.txt", p2)] ++ rest
    /\ builtin_open (Sim.outside Sim.productive) p0 "r"
         (world (retrieve_gcs_files (Sim.outside Sim.productive)
                   ["bucket/ligand.smi"; "bucket/1abc.pdb"; "bucket/box.txt"]
                   (world (clear_tmp (Sim.outside Sim.productive) Sim.ready))))
       = Ok file
    /\ files (disk (world (retrieve_gcs_files (Sim.outside Sim.productive)
                             ["bucket/ligand.smi"; "bucket/1abc.pdb";
                              "bucket/box.txt"]
                             (world (clear_tmp (Sim.outside Sim.productive)
                                       Sim.ready)))))
         file = Ok text
    /\ exec_commands rest
       = [scrub_command (Py.strip (Py.universal_newlines text))
            "/tmp/ligand_with_protomers.sdf";
          mk_prepare_ligand_command "/tmp/ligand_with_protomers.sdf"
            "/tmp/ligand_protomers";
          extract_atoms_command p1 "/tmp/receptor_atoms.pdb";
          grep_command p1;
          reduce2_command
            (Py.os_path_join
               (Py.os_path_join
                  (Py.os_path_join
                     "/opt/conda/envs/dwa_env/lib/python3.11/site-packages"
                     "mmtbx")
                  "command_line")
               "reduce2.py")
            "/tmp/receptor_cryst1.pdb" "approach=add add_flip_movers=True";
          mk_prepare_receptor_command "/tmp/receptor_cryst1FH.pdb"
            "/tmp/receptor_prepared" p2;
          vina_command "/tmp/ligand_protomers/_i0.pdbqt"
            "/tmp/receptor_prepared.pdbqt" "/tmp/receptor_prepared.box.txt"
            "/tmp/docking.pdbqt";
          mk_export_command "/tmp/docking.pdbqt" "/tmp/pose.sdf"].
Proof.
  apply (run_job_command_sequence (Sim.outside Sim.productive)
           "bucket/ligand.smi" "bucket/1abc.pdb" "bucket/box.txt" "results"
           Sim.ready
           {| status := "success";
              outputs := ["docking.pdbqt"; "pose.sdf"; "receptor_cryst1FH.pdb"];
              failed_files := None |}).
  vm_compute. reflexivity.
Defined.
